(** * Browser PDF Reader: the server actions over the PDF tables

    A shallow embedding of [src/db/tables.ts] (the three tables) and of the
    action module (the ownership guards and the nine actions of [server]),
    followed by the properties of the access layer.

    Modelling choices, all visible in the definitions below:
    - a table is the list of its rows in insertion order; a [select] keeps the
      rows that satisfy the [where] filter, in table order;
    - text columns are [string], optional columns are [option] ([None] is SQL
      NULL / JS [undefined]), dates are [Z] (epoch milliseconds); a number
      accepted by [z.number()] is a [number], one that also passed [.int()]
      is a [Z];
    - the tables are seen through the driver. Of a text column that is not a
      key the store keeps the text up to its first NUL character, which is
      all that a read returns. A number column keeps an integral value
      strictly between -2^63 and 2^63 as an integer, and a row that holds
      such an integer outside the safe range of JS numbers cannot be read:
      the statement that returns it throws a [RangeError], for an insert or
      an update after the row has been written. An infinity is refused as
      an argument before the statement is sent. The keys ([id], [userId],
      [documentId], [pageId]) are compared and kept as given; the
      statements about returned rows take them without a NUL character, as
      the ids from [crypto.randomUUID()] are;
    - the store is threaded explicitly: an action is a function from the
      database to an outcome and the database afterwards. A [throw] keeps the
      database as it is at that point, as a rejected promise does;
    - every statement sent to the store is recorded in [queries], so that
      "no store access" and "no pre-fetch" are statements about the model;
    - [new Date()] and [crypto.randomUUID()] are read from a [Runtime] value
      handed to the handler;
    - [defineAction] runs the [input] schema before the handler, and zod
      schemas are boolean acceptors over typed input records (a wrongly typed
      or missing required field is excluded by the record type). *)

From Stdlib Require Import Ascii String List ZArith Bool Arith Lia.
Import ListNotations.
Local Open Scope string_scope.
Local Open Scope list_scope.

(** ** Values *)

Definition Date := Z.

(** A JS number accepted by [z.number()] (zod rejects NaN): an integral
    value, a finite non-integral one ([mantissa / 2 ^ exponent] with an odd
    mantissa), or an infinity. *)
Inductive number :=
| Integer (z : Z)
| Fractional (mantissa : Z) (exponent : positive)
| Infinite (negative : bool).

(** [Number.MAX_SAFE_INTEGER], 2^53 - 1. *)
Definition MAX_SAFE_INTEGER : Z := 9007199254740991.

(** The integers that the driver converts to a JS number when it reads a
    row. *)
Definition safe_integer (n : Z) : bool :=
  ((- MAX_SAFE_INTEGER <=? n) && (n <=? MAX_SAFE_INTEGER))%Z.

(** [column.number] is an SQLite column of INTEGER affinity: a number
    whose value is integral and strictly between -2^63 and 2^63 is kept as a
    64-bit integer, any other number as a float. *)
Definition kept_as_integer (n : Z) : bool := (Z.abs n <? 2 ^ 63)%Z.

(** The driver reads a float as a JS number, and a 64-bit integer as a JS
    number only within the safe range: an integral number can be read back
    unless the column keeps it as an integer outside that range. *)
Definition readable_integer (n : Z) : bool :=
  safe_integer n || negb (kept_as_integer n).

Definition readable_number (n : number) : bool :=
  match n with
  | Integer z => readable_integer z
  | Fractional _ _ => true
  | Infinite _ => true
  end.

(** A number can be given to a statement as an argument unless it is an
    infinity: the driver refuses it with a [RangeError] before anything is
    sent to the store. *)
Definition finite (n : option number) : bool :=
  match n with
  | Some (Infinite _) => false
  | _ => true
  end.

(** The text up to the first NUL character. *)
Fixpoint cut (s : string) : string :=
  match s with
  | EmptyString => EmptyString
  | String c s' =>
      if Ascii.eqb c Ascii.zero then EmptyString else String c (cut s')
  end.

(** A key of a [.set(...)] object that is present replaces the column; an
    absent key leaves the column as it is. *)
Definition keep {A} (new : option A) (old : option A) : option A :=
  match new with Some v => Some v | None => old end.

(** ** src/db/tables.ts *)

Module PdfDocuments.
Record row := mk {
  id : string;
  userId : string;
  title : option string;
  sourceType : option string;
  sourceUrl : option string;
  pageCount : option number;
  lastOpenedAt : option Date;
  createdAt : Date;
  updatedAt : Date
}.

(** The row as the table keeps it. *)
Definition written (r : row) : row :=
  mk (id r) (userId r)
     (option_map cut (title r))
     (option_map cut (sourceType r))
     (option_map cut (sourceUrl r))
     (pageCount r) (lastOpenedAt r) (createdAt r) (updatedAt r).

(** Whether the driver can read the row back. *)
Definition readable (r : row) : bool :=
  match pageCount r with
  | Some n => readable_number n
  | None => true
  end.

(** The object given to [.set(...)] by [updateDocument]: a key that is
    absent is [None]. *)
Record set := mkSet {
  set_title : option string;
  set_sourceType : option string;
  set_sourceUrl : option string;
  set_pageCount : option number;
  set_lastOpenedAt : option Date;
  set_updatedAt : Date
}.

(** The values of a [.set(...)] object as the table keeps them. *)
Definition written_set (p : set) : set :=
  mkSet (option_map cut (set_title p))
        (option_map cut (set_sourceType p))
        (option_map cut (set_sourceUrl p))
        (set_pageCount p) (set_lastOpenedAt p) (set_updatedAt p).

Definition apply (p : set) (r : row) : row :=
  mk (id r) (userId r)
     (keep (set_title p) (title r))
     (keep (set_sourceType p) (sourceType r))
     (keep (set_sourceUrl p) (sourceUrl r))
     (keep (set_pageCount p) (pageCount r))
     (keep (set_lastOpenedAt p) (lastOpenedAt r))
     (createdAt r)
     (set_updatedAt p).
End PdfDocuments.

Module PdfPages.
Record row := mk {
  id : string;
  documentId : string;
  pageNumber : Z;
  textContent : option string;
  createdAt : Date
}.

(** The row as the table keeps it. *)
Definition written (r : row) : row :=
  mk (id r) (documentId r) (pageNumber r)
     (option_map cut (textContent r)) (createdAt r).

(** Whether the driver can read the row back. *)
Definition readable (r : row) : bool := readable_integer (pageNumber r).
End PdfPages.

Module PdfAnnotations.
Record row := mk {
  id : string;
  documentId : string;
  pageId : option string;
  userId : string;
  annotationType : option string;
  selectionJson : option string;
  comment : option string;
  color : option string;
  createdAt : Date;
  updatedAt : Date
}.

(** The row as the table keeps it. *)
Definition written (r : row) : row :=
  mk (id r) (documentId r) (pageId r) (userId r)
     (option_map cut (annotationType r))
     (option_map cut (selectionJson r))
     (option_map cut (comment r))
     (option_map cut (color r))
     (createdAt r) (updatedAt r).

(** The table has no number column: every row can be read back. *)
Definition readable (_ : row) : bool := true.

(** The object given to [.set(...)] by [updateAnnotation]. *)
Record set := mkSet {
  set_pageId : option string;
  set_annotationType : option string;
  set_selectionJson : option string;
  set_comment : option string;
  set_color : option string;
  set_updatedAt : Date
}.

(** The values of a [.set(...)] object as the table keeps them. *)
Definition written_set (p : set) : set :=
  mkSet (set_pageId p)
        (option_map cut (set_annotationType p))
        (option_map cut (set_selectionJson p))
        (option_map cut (set_comment p))
        (option_map cut (set_color p))
        (set_updatedAt p).

Definition apply (p : set) (r : row) : row :=
  mk (id r) (documentId r)
     (keep (set_pageId p) (pageId r))
     (userId r)
     (keep (set_annotationType p) (annotationType r))
     (keep (set_selectionJson p) (selectionJson r))
     (keep (set_comment p) (comment r))
     (keep (set_color p) (color r))
     (createdAt r)
     (set_updatedAt p).
End PdfAnnotations.

(** ** The store *)

Inductive Table := TPdfDocuments | TPdfPages | TPdfAnnotations.

Inductive Query :=
| Select (t : Table)
| Insert (t : Table)
| Update (t : Table)
| Delete (t : Table).

(** [foreign_keys] is the connection's enforcement switch for the
    [references] declared in tables.ts; nothing below depends on its value
    unless a statement says so. *)
Record Db := mkDb {
  documents : list PdfDocuments.row;
  pages : list PdfPages.row;
  annotations : list PdfAnnotations.row;
  foreign_keys : bool;
  queries : list Query
}.

Definition record (q : Query) (db : Db) : Db :=
  mkDb (documents db) (pages db) (annotations db) (foreign_keys db)
       (queries db ++ [q]).

Definition with_documents (l : list PdfDocuments.row) (db : Db) : Db :=
  mkDb l (pages db) (annotations db) (foreign_keys db) (queries db).

Definition with_pages (l : list PdfPages.row) (db : Db) : Db :=
  mkDb (documents db) l (annotations db) (foreign_keys db) (queries db).

Definition with_annotations (l : list PdfAnnotations.row) (db : Db) : Db :=
  mkDb (documents db) (pages db) l (foreign_keys db) (queries db).

(** ** Failures and the action monad *)

Inductive ErrorCode := BAD_REQUEST | UNAUTHORIZED | NOT_FOUND | INTERNAL_SERVER_ERROR.

Inductive Constraint := PrimaryKey (t : Table) | ForeignKey (t : Table).

(** What a call can throw: an [ActionError] built by the handlers, the
    input error raised when the schema rejects the input, a constraint
    failure of the store, or the [RangeError] of the driver when a row it
    has to return holds an integer outside the safe range. The handlers
    catch none of them. *)
Inductive Thrown :=
| ActionError (code : ErrorCode) (message : string)
| ActionInputError
| StoreError (c : Constraint)
| RangeError.

Definition error_code (e : Thrown) : ErrorCode :=
  match e with
  | ActionError c _ => c
  | ActionInputError => BAD_REQUEST
  | StoreError _ => INTERNAL_SERVER_ERROR
  | RangeError => INTERNAL_SERVER_ERROR
  end.

Inductive Outcome (A : Type) :=
| Ok (a : A)
| Throw (e : Thrown).
Arguments Ok {A} a.
Arguments Throw {A} e.

Definition M (A : Type) : Type := Db -> Outcome A * Db.

Definition ret {A} (a : A) : M A := fun db => (Ok a, db).

Definition throw {A} (e : Thrown) : M A := fun db => (Throw e, db).

Definition bind {A B} (c : M A) (k : A -> M B) : M B :=
  fun db =>
    match c db with
    | (Ok a, db') => k a db'
    | (Throw e, db') => (Throw e, db')
    end.

Notation "x <- c ;; k" := (bind c (fun x => k))
  (at level 61, c at next level, right associativity).
Notation "c ;;; k" := (bind c (fun _ => k))
  (at level 61, right associativity).

(** ** astro:db: filters and statements *)

Definition col_eq {R} (col : R -> string) (v : string) : R -> bool :=
  fun r => String.eqb (col r) v.

Definition col_and {R} (f g : R -> bool) : R -> bool :=
  fun r => f r && g r.

(** The rows a statement returns, read back by the driver. *)
Definition returning {R} (readable : R -> bool) (rows : list R) (db : Db)
    : Outcome (list R) * Db :=
  if forallb readable rows then (Ok rows, db) else (Throw RangeError, db).

(** [db.select().from(t).where(w)] *)
Definition select_from {R} (t : Table) (tbl : Db -> list R)
    (readable : R -> bool) (where_ : R -> bool) : M (list R) :=
  fun db => returning readable (filter where_ (tbl db)) (record (Select t) db).

Definition has_document (i : string) (db : Db) : bool :=
  existsb (fun d => String.eqb (PdfDocuments.id d) i) (documents db).

Definition has_page (i : string) (db : Db) : bool :=
  existsb (fun p => String.eqb (PdfPages.id p) i) (pages db).

Definition has_annotation (i : string) (db : Db) : bool :=
  existsb (fun a => String.eqb (PdfAnnotations.id a) i) (annotations db).

(** [db.insert(PdfDocuments).values(r).returning()] *)
Definition insert_PdfDocuments (r : PdfDocuments.row)
    : M (list PdfDocuments.row) :=
  fun db0 =>
    if negb (finite (PdfDocuments.pageCount r)) then (Throw RangeError, db0)
    else
      let db := record (Insert TPdfDocuments) db0 in
      if has_document (PdfDocuments.id r) db
      then (Throw (StoreError (PrimaryKey TPdfDocuments)), db)
      else
        returning PdfDocuments.readable [PdfDocuments.written r]
          (with_documents (documents db ++ [PdfDocuments.written r]) db).

(** [db.insert(PdfPages).values(r).returning()]; [documentId] references
    [PdfDocuments.id]. *)
Definition insert_PdfPages (r : PdfPages.row) : M (list PdfPages.row) :=
  fun db0 =>
    let db := record (Insert TPdfPages) db0 in
    if has_page (PdfPages.id r) db
    then (Throw (StoreError (PrimaryKey TPdfPages)), db)
    else if foreign_keys db && negb (has_document (PdfPages.documentId r) db)
    then (Throw (StoreError (ForeignKey TPdfPages)), db)
    else
      returning PdfPages.readable [PdfPages.written r]
        (with_pages (pages db ++ [PdfPages.written r]) db).

Definition page_ref_ok (p : option string) (db : Db) : bool :=
  match p with
  | None => true
  | Some i => has_page i db
  end.

(** [db.insert(PdfAnnotations).values(r).returning()]; [documentId]
    references [PdfDocuments.id], [pageId] (when not NULL) [PdfPages.id]. *)
Definition insert_PdfAnnotations (r : PdfAnnotations.row)
    : M (list PdfAnnotations.row) :=
  fun db0 =>
    let db := record (Insert TPdfAnnotations) db0 in
    if has_annotation (PdfAnnotations.id r) db
    then (Throw (StoreError (PrimaryKey TPdfAnnotations)), db)
    else if foreign_keys db
            && negb (has_document (PdfAnnotations.documentId r) db
                     && page_ref_ok (PdfAnnotations.pageId r) db)
    then (Throw (StoreError (ForeignKey TPdfAnnotations)), db)
    else
      returning PdfAnnotations.readable [PdfAnnotations.written r]
        (with_annotations (annotations db ++ [PdfAnnotations.written r]) db).

(** [db.update(PdfDocuments).set(p).where(w).returning()] *)
Definition update_PdfDocuments (p : PdfDocuments.set)
    (where_ : PdfDocuments.row -> bool) : M (list PdfDocuments.row) :=
  fun db0 =>
    if negb (finite (PdfDocuments.set_pageCount p)) then (Throw RangeError, db0)
    else
      let db := record (Update TPdfDocuments) db0 in
      let q := PdfDocuments.written_set p in
      returning PdfDocuments.readable
        (map (PdfDocuments.apply q) (filter where_ (documents db)))
        (with_documents
           (map (fun r => if where_ r then PdfDocuments.apply q r else r)
                (documents db)) db).

(** [db.update(PdfAnnotations).set(p).where(w).returning()]; a new [pageId]
    written into some row must name a page. *)
Definition update_PdfAnnotations (p : PdfAnnotations.set)
    (where_ : PdfAnnotations.row -> bool) : M (list PdfAnnotations.row) :=
  fun db0 =>
    let db := record (Update TPdfAnnotations) db0 in
    let q := PdfAnnotations.written_set p in
    if foreign_keys db
       && existsb where_ (annotations db)
       && negb (page_ref_ok (PdfAnnotations.set_pageId p) db)
    then (Throw (StoreError (ForeignKey TPdfAnnotations)), db)
    else
      returning PdfAnnotations.readable
        (map (PdfAnnotations.apply q) (filter where_ (annotations db)))
        (with_annotations
           (map (fun r => if where_ r then PdfAnnotations.apply q r else r)
                (annotations db)) db).

Record ResultSet := mkResultSet { rowsAffected : nat }.

(** [db.delete(PdfAnnotations).where(w)] *)
Definition delete_PdfAnnotations (where_ : PdfAnnotations.row -> bool)
    : M ResultSet :=
  fun db0 =>
    let db := record (Delete TPdfAnnotations) db0 in
    (Ok (mkResultSet (length (filter where_ (annotations db)))),
     with_annotations (filter (fun r => negb (where_ r)) (annotations db)) db).

(** [const [x] = rows]: the first row, or [undefined]. *)
Definition first {A} (rows : list A) : option A := hd_error rows.

(** ** The request context, the clock and the id source *)

Record User := mkUser { user_id : string }.

Record Locals := mkLocals { user : option User }.

Record ActionAPIContext := mkContext { locals : option Locals }.

Record Runtime := mkRuntime {
  now : Date;          (* new Date() *)
  randomUUID : string  (* crypto.randomUUID() *)
}.

(** [defineAction({ input, handler })]: the schema is checked first; the
    handler runs only on accepted input. *)
Definition defineAction {I O} (input : I -> bool)
    (handler : Runtime -> I -> ActionAPIContext -> M O)
    : Runtime -> I -> ActionAPIContext -> M O :=
  fun rt i ctx => if input i then handler rt i ctx else throw ActionInputError.

(** [z.string().min(1)] *)
Definition min1 (s : string) : bool := negb (String.eqb s EmptyString).

(** [x !== undefined] *)
Definition defined {A} (x : option A) : bool :=
  match x with Some _ => true | None => false end.

(** JS truthiness of an optional string: [undefined] and the empty string
    are falsy. *)
Definition truthy (x : option string) : bool :=
  match x with Some s => negb (String.eqb s EmptyString) | None => false end.

(** Response envelopes. *)
Record Envelope (D : Type) := mkEnvelope { success : bool; data : D }.
Arguments mkEnvelope {D} success data.
Arguments success {D} e.
Arguments data {D} e.

Record Listing (R : Type) := mkListing { items : list R; total : nat }.
Arguments mkListing {R} items total.
Arguments items {R} l.
Arguments total {R} l.

(** ** The guards *)

Definition requireUser (context : ActionAPIContext) : M User :=
  match locals context with
  | Some l =>
      match user l with
      | Some u => ret u
      | None =>
          throw (ActionError UNAUTHORIZED
                   "You must be signed in to perform this action.")
      end
  | None =>
      throw (ActionError UNAUTHORIZED
               "You must be signed in to perform this action.")
  end.

Definition getOwnedDocument (documentId userId : string)
    : M PdfDocuments.row :=
  rows <- select_from TPdfDocuments documents PdfDocuments.readable
            (col_and (col_eq PdfDocuments.id documentId)
                     (col_eq PdfDocuments.userId userId)) ;;
  match first rows with
  | None => throw (ActionError NOT_FOUND "PDF document not found.")
  | Some doc => ret doc
  end.

Definition getOwnedPage (pageId documentId userId : string)
    : M PdfPages.row :=
  getOwnedDocument documentId userId ;;;
  rows <- select_from TPdfPages pages PdfPages.readable
            (col_and (col_eq PdfPages.id pageId)
                     (col_eq PdfPages.documentId documentId)) ;;
  match first rows with
  | None => throw (ActionError NOT_FOUND "PDF page not found.")
  | Some page => ret page
  end.

(** ** Inputs of the actions *)

Module CreateDocument.
Record input := mk {
  title : option string;
  sourceType : option string;
  sourceUrl : option string;
  pageCount : option number;
  lastOpenedAt : option Date
}.

Definition schema (_ : input) : bool := true.
End CreateDocument.

Module UpdateDocument.
Record input := mk {
  id : string;
  title : option string;
  sourceType : option string;
  sourceUrl : option string;
  pageCount : option number;
  lastOpenedAt : option Date
}.

Definition refine (i : input) : bool :=
  defined (title i) || defined (sourceType i) || defined (sourceUrl i)
  || defined (pageCount i) || defined (lastOpenedAt i).

Definition schema (i : input) : bool := min1 (id i) && refine i.
End UpdateDocument.

Module CreatePage.
Record input := mk {
  documentId : string;
  pageNumber : Z;
  textContent : option string
}.

Definition schema (i : input) : bool :=
  min1 (documentId i) && (1 <=? pageNumber i)%Z.
End CreatePage.

Module ListPages.
Record input := mk { documentId : string }.

Definition schema (i : input) : bool := min1 (documentId i).
End ListPages.

Module CreateAnnotation.
Record input := mk {
  documentId : string;
  pageId : option string;
  annotationType : option string;
  selectionJson : option string;
  comment : option string;
  color : option string
}.

Definition schema (i : input) : bool := min1 (documentId i).
End CreateAnnotation.

Module UpdateAnnotation.
Record input := mk {
  id : string;
  documentId : string;
  pageId : option string;
  annotationType : option string;
  selectionJson : option string;
  comment : option string;
  color : option string
}.

Definition refine (i : input) : bool :=
  defined (pageId i) || defined (annotationType i)
  || defined (selectionJson i) || defined (comment i) || defined (color i).

Definition schema (i : input) : bool :=
  min1 (id i) && min1 (documentId i) && refine i.
End UpdateAnnotation.

Module DeleteAnnotation.
Record input := mk { id : string; documentId : string }.

Definition schema (i : input) : bool := min1 (id i) && min1 (documentId i).
End DeleteAnnotation.

Module ListAnnotations.
Record input := mk { documentId : string }.

Definition schema (i : input) : bool := min1 (documentId i).
End ListAnnotations.

(** ** The actions of [server] *)

Module server.

Definition createDocument :=
  defineAction CreateDocument.schema
    (fun rt input context =>
       user <- requireUser context ;;
       let now := now rt in
       rows <- insert_PdfDocuments
                 (PdfDocuments.mk (randomUUID rt) (user_id user)
                    (CreateDocument.title input)
                    (CreateDocument.sourceType input)
                    (CreateDocument.sourceUrl input)
                    (CreateDocument.pageCount input)
                    (CreateDocument.lastOpenedAt input)
                    now now) ;;
       ret (mkEnvelope true (first rows))).

Definition updateDocument :=
  defineAction UpdateDocument.schema
    (fun rt input context =>
       user <- requireUser context ;;
       getOwnedDocument (UpdateDocument.id input) (user_id user) ;;;
       rows <- update_PdfDocuments
                 (PdfDocuments.mkSet
                    (UpdateDocument.title input)
                    (UpdateDocument.sourceType input)
                    (UpdateDocument.sourceUrl input)
                    (UpdateDocument.pageCount input)
                    (UpdateDocument.lastOpenedAt input)
                    (now rt))
                 (col_eq PdfDocuments.id (UpdateDocument.id input)) ;;
       ret (mkEnvelope true (first rows))).

Definition listDocuments :=
  defineAction (fun _ : unit => true)
    (fun rt _input context =>
       user <- requireUser context ;;
       documents <- select_from TPdfDocuments documents PdfDocuments.readable
                      (col_eq PdfDocuments.userId (user_id user)) ;;
       ret (mkEnvelope true (mkListing documents (length documents)))).

Definition createPage :=
  defineAction CreatePage.schema
    (fun rt input context =>
       user <- requireUser context ;;
       getOwnedDocument (CreatePage.documentId input) (user_id user) ;;;
       rows <- insert_PdfPages
                 (PdfPages.mk (randomUUID rt)
                    (CreatePage.documentId input)
                    (CreatePage.pageNumber input)
                    (CreatePage.textContent input)
                    (now rt)) ;;
       ret (mkEnvelope true (first rows))).

Definition listPages :=
  defineAction ListPages.schema
    (fun rt input context =>
       user <- requireUser context ;;
       getOwnedDocument (ListPages.documentId input) (user_id user) ;;;
       pages <- select_from TPdfPages pages PdfPages.readable
                  (col_eq PdfPages.documentId (ListPages.documentId input)) ;;
       ret (mkEnvelope true (mkListing pages (length pages)))).

Definition createAnnotation :=
  defineAction CreateAnnotation.schema
    (fun rt input context =>
       user <- requireUser context ;;
       getOwnedDocument (CreateAnnotation.documentId input) (user_id user) ;;;
       (if truthy (CreateAnnotation.pageId input)
        then
          match CreateAnnotation.pageId input with
          | Some pageId =>
              getOwnedPage pageId (CreateAnnotation.documentId input)
                (user_id user) ;;; ret tt
          | None => ret tt
          end
        else ret tt) ;;;
       let now := now rt in
       rows <- insert_PdfAnnotations
                 (PdfAnnotations.mk (randomUUID rt)
                    (CreateAnnotation.documentId input)
                    (CreateAnnotation.pageId input)
                    (user_id user)
                    (CreateAnnotation.annotationType input)
                    (CreateAnnotation.selectionJson input)
                    (CreateAnnotation.comment input)
                    (CreateAnnotation.color input)
                    now now) ;;
       ret (mkEnvelope true (first rows))).

Definition updateAnnotation :=
  defineAction UpdateAnnotation.schema
    (fun rt input context =>
       user <- requireUser context ;;
       getOwnedDocument (UpdateAnnotation.documentId input) (user_id user) ;;;
       match UpdateAnnotation.pageId input with
       | Some pageId =>
           getOwnedPage pageId (UpdateAnnotation.documentId input)
             (user_id user) ;;; ret tt
       | None => ret tt
       end ;;;
       rows <- select_from TPdfAnnotations annotations PdfAnnotations.readable
                 (col_and (col_eq PdfAnnotations.id (UpdateAnnotation.id input))
                          (col_eq PdfAnnotations.documentId
                                  (UpdateAnnotation.documentId input))) ;;
       match first rows with
       | None => throw (ActionError NOT_FOUND "Annotation not found.")
       | Some existing =>
           rows <- update_PdfAnnotations
                     (PdfAnnotations.mkSet
                        (UpdateAnnotation.pageId input)
                        (UpdateAnnotation.annotationType input)
                        (UpdateAnnotation.selectionJson input)
                        (UpdateAnnotation.comment input)
                        (UpdateAnnotation.color input)
                        (now rt))
                     (col_eq PdfAnnotations.id (UpdateAnnotation.id input)) ;;
           ret (mkEnvelope true (first rows))
       end).

Definition deleteAnnotation :=
  defineAction DeleteAnnotation.schema
    (fun rt input context =>
       user <- requireUser context ;;
       getOwnedDocument (DeleteAnnotation.documentId input) (user_id user) ;;;
       result <- delete_PdfAnnotations
                   (col_and (col_eq PdfAnnotations.id (DeleteAnnotation.id input))
                            (col_eq PdfAnnotations.documentId
                                    (DeleteAnnotation.documentId input))) ;;
       if Nat.eqb (rowsAffected result) 0
       then throw (ActionError NOT_FOUND "Annotation not found.")
       else ret (mkEnvelope true tt)).

Definition listAnnotations :=
  defineAction ListAnnotations.schema
    (fun rt input context =>
       user <- requireUser context ;;
       getOwnedDocument (ListAnnotations.documentId input) (user_id user) ;;;
       annotations <- select_from TPdfAnnotations annotations PdfAnnotations.readable
                        (col_eq PdfAnnotations.documentId
                                (ListAnnotations.documentId input)) ;;
       ret (mkEnvelope true (mkListing annotations (length annotations)))).

End server.

(** ** Vocabulary of the statements *)

(** The signed-in user of a request, if any. *)
Definition caller (context : ActionAPIContext) : option User :=
  match locals context with
  | Some l => user l
  | None => None
  end.

(** The filter of [getOwnedDocument]. *)
Definition owned_by (documentId userId : string) : PdfDocuments.row -> bool :=
  col_and (col_eq PdfDocuments.id documentId)
          (col_eq PdfDocuments.userId userId).

(** The filter of [getOwnedPage]. *)
Definition page_of (pageId documentId : string) : PdfPages.row -> bool :=
  col_and (col_eq PdfPages.id pageId) (col_eq PdfPages.documentId documentId).

(** The filter of the pre-fetch of [updateAnnotation] and of the delete of
    [deleteAnnotation]. *)
Definition annotation_of (id documentId : string)
    : PdfAnnotations.row -> bool :=
  col_and (col_eq PdfAnnotations.id id)
          (col_eq PdfAnnotations.documentId documentId).

(** Some row of [PdfDocuments] has this id and this owner. *)
Definition owns (db : Db) (userId documentId : string) : Prop :=
  exists doc, In doc (documents db)
              /\ PdfDocuments.id doc = documentId
              /\ PdfDocuments.userId doc = userId.

(** The id names a document, and every document of that id belongs to
    somebody else. *)
Definition others_document (db : Db) (userId documentId : string) : Prop :=
  (exists doc, In doc (documents db) /\ PdfDocuments.id doc = documentId)
  /\ forall doc, In doc (documents db) ->
                 PdfDocuments.id doc = documentId ->
                 PdfDocuments.userId doc <> userId.

(** No row of [PdfDocuments] has this id. *)
Definition no_document (db : Db) (documentId : string) : Prop :=
  forall doc, In doc (documents db) -> PdfDocuments.id doc <> documentId.

(** No row of [PdfDocuments] has both this id and this owner. *)
Definition not_owned (db : Db) (userId documentId : string) : Prop :=
  forall doc, In doc (documents db) ->
              PdfDocuments.id doc = documentId ->
              PdfDocuments.userId doc <> userId.

(** The action throws the same [NOT_FOUND] error in both databases, after
    the one select of the document guard and without touching a row. *)
Definition refused_alike {O} (act : M O) (db1 db2 : Db) : Prop :=
  act db1
  = (Throw (ActionError NOT_FOUND "PDF document not found."),
     record (Select TPdfDocuments) db1)
  /\ act db2
     = (Throw (ActionError NOT_FOUND "PDF document not found."),
        record (Select TPdfDocuments) db2).

(** An optional page reference is either absent or the id of a page of the
    given document. *)
Definition page_in_document (db : Db) (pageId : option string)
    (documentId : string) : Prop :=
  match pageId with
  | None => True
  | Some p =>
      exists page, In page (pages db)
                   /\ PdfPages.id page = p
                   /\ PdfPages.documentId page = documentId
  end.

(** The columns of an annotation that no update may change. *)
Definition same_identity (old new : PdfAnnotations.row) : Prop :=
  PdfAnnotations.id new = PdfAnnotations.id old
  /\ PdfAnnotations.documentId new = PdfAnnotations.documentId old
  /\ PdfAnnotations.userId new = PdfAnnotations.userId old
  /\ PdfAnnotations.createdAt new = PdfAnnotations.createdAt old.

(** The row [r] with a new comment and a new [updatedAt], every other column
    as in [r]. *)
Definition with_comment (c : string) (t : Date) (r : PdfAnnotations.row)
    : PdfAnnotations.row :=
  PdfAnnotations.mk (PdfAnnotations.id r) (PdfAnnotations.documentId r)
    (PdfAnnotations.pageId r) (PdfAnnotations.userId r)
    (PdfAnnotations.annotationType r) (PdfAnnotations.selectionJson r)
    (Some c) (PdfAnnotations.color r) (PdfAnnotations.createdAt r) t.

(** A computation keeps an invariant of the database, whether it returns or
    throws. *)
Definition preserves (P : Db -> Prop) {A} (m : M A) : Prop :=
  forall db, P db -> P (snd (m db)).

(** Two databases hold the same rows (their query logs may differ). *)
Definition same_tables (db db' : Db) : Prop :=
  documents db' = documents db
  /\ pages db' = pages db
  /\ annotations db' = annotations db
  /\ foreign_keys db' = foreign_keys db.

Definition document_not_found : Thrown :=
  ActionError NOT_FOUND "PDF document not found.".

Definition page_not_found : Thrown :=
  ActionError NOT_FOUND "PDF page not found.".

Definition annotation_not_found : Thrown :=
  ActionError NOT_FOUND "Annotation not found.".

(** Primary keys of [PdfAnnotations] are unique. *)
Definition annotation_ids_unique (db : Db) : Prop :=
  NoDup (map PdfAnnotations.id (annotations db)).

(** What the select of [getOwnedDocument] makes of the table: the first
    row of the given id and owner, "not found" when there is none, the
    driver's error when a matching row cannot be read. *)
Definition document_guard (db : Db) (documentId userId : string)
    : Outcome PdfDocuments.row :=
  let rows := filter (owned_by documentId userId) (documents db) in
  if forallb PdfDocuments.readable rows then
    match first rows with
    | Some doc => Ok doc
    | None => Throw document_not_found
    end
  else Throw RangeError.

(** The same for the page select of [getOwnedPage]. *)
Definition page_guard (db : Db) (pageId documentId : string)
    : Outcome PdfPages.row :=
  let rows := filter (page_of pageId documentId) (pages db) in
  if forallb PdfPages.readable rows then
    match first rows with
    | Some page => Ok page
    | None => Throw page_not_found
    end
  else Throw RangeError.

(** A listing of rows that the driver has to read back. *)
Definition listing_of {R} (readable : R -> bool) (rows : list R)
    : Outcome (Envelope (Listing R)) :=
  if forallb readable rows
  then Ok (mkEnvelope true (mkListing rows (length rows)))
  else Throw RangeError.

(** Text without a NUL character: the store keeps it whole. *)
Definition clean (s : string) : Prop := cut s = s.

Definition clean_opt (o : option string) : Prop := option_map cut o = o.

(** A number that is absent or a safe integer. *)
Definition safe_count (n : option number) : Prop :=
  match n with
  | None => True
  | Some (Integer z) => safe_integer z = true
  | Some _ => False
  end.

(** Every document of the user can be read back. *)
Definition documents_readable (db : Db) (userId : string) : Prop :=
  forall doc, In doc (documents db) ->
              PdfDocuments.userId doc = userId ->
              PdfDocuments.readable doc = true.

(** Every page of the document can be read back. *)
Definition pages_readable (db : Db) (documentId : string) : Prop :=
  forall p, In p (pages db) ->
            PdfPages.documentId p = documentId ->
            PdfPages.readable p = true.

(** No page has the empty string as its id. *)
Definition page_ids_nonempty (db : Db) : Prop :=
  forall p, In p (pages db) -> PdfPages.id p <> EmptyString.


(** The same for the patch of [updateDocument]. *)
Definition document_patch_storable (i : UpdateDocument.input) : Prop :=
  clean_opt (UpdateDocument.title i)
  /\ clean_opt (UpdateDocument.sourceType i)
  /\ clean_opt (UpdateDocument.sourceUrl i)
  /\ safe_count (UpdateDocument.pageCount i).



(** The same for the patch of [updateAnnotation]. *)
Definition annotation_patch_storable (i : UpdateAnnotation.input) : Prop :=
  clean_opt (UpdateAnnotation.pageId i)
  /\ clean_opt (UpdateAnnotation.annotationType i)
  /\ clean_opt (UpdateAnnotation.selectionJson i)
  /\ clean_opt (UpdateAnnotation.comment i)
  /\ clean_opt (UpdateAnnotation.color i).

(** The page reference of an annotation is absent, or [getOwnedPage] on it
    returns a page. *)
Definition page_check_passes (db : Db) (pageId : option string)
    (documentId userId : string) : Prop :=
  match pageId with
  | None => True
  | Some p =>
      exists page db', getOwnedPage p documentId userId db = (Ok page, db')
  end.

(** ** A small database for the examples

    Alice owns document D1 with page P1 and annotation A1; Bob owns document
    D2 with page P2 and wrote annotation A2 on Alice's document. *)

Definition alice : ActionAPIContext :=
  mkContext (Some (mkLocals (Some (mkUser "alice")))).

Definition bob : ActionAPIContext :=
  mkContext (Some (mkLocals (Some (mkUser "bob")))).

Definition anonymous : ActionAPIContext := mkContext (Some (mkLocals None)).

Definition rt0 : Runtime := mkRuntime 1000%Z "N1".

Definition D1 : PdfDocuments.row :=
  PdfDocuments.mk "D1" "alice" (Some "Thesis") None None (Some (Integer 12))
    None 1%Z 1%Z.

Definition D2 : PdfDocuments.row :=
  PdfDocuments.mk "D2" "bob" None (Some "url") None None None 2%Z 2%Z.

Definition P1 : PdfPages.row := PdfPages.mk "P1" "D1" 1%Z (Some "intro") 3%Z.

Definition P2 : PdfPages.row := PdfPages.mk "P2" "D2" 1%Z None 4%Z.

Definition A1 : PdfAnnotations.row :=
  PdfAnnotations.mk "A1" "D1" (Some "P1") "alice" (Some "highlight")
    (Some "{}") None (Some "yellow") 5%Z 5%Z.

Definition A2 : PdfAnnotations.row :=
  PdfAnnotations.mk "A2" "D1" None "bob" (Some "note") None (Some "hi")
    None 6%Z 6%Z.

Definition library : Db := mkDb [D1; D2] [P1; P2] [A1; A2] true [].

Definition empty_db : Db := mkDb [] [] [] true [].

(** 2^53, the first integer that the driver cannot read back. *)
Definition TWO_53 : Z := 9007199254740992.


(** The library after Alice's document was given 2^53 pages. *)
Definition D1_huge : PdfDocuments.row :=
  PdfDocuments.mk "D1" "alice" (Some "Thesis") None None
    (Some (Integer TWO_53)) None 1%Z 1000%Z.

Definition library_huge : Db :=
  mkDb [D1_huge; D2] [P1; P2] [A1; A2] true
    [Select TPdfDocuments; Update TPdfDocuments].

(** ** Vocabulary of the further properties *)

Definition unauthorized : Thrown :=
  ActionError UNAUTHORIZED "You must be signed in to perform this action.".

Definition is_select (q : Query) : bool :=
  match q with Select _ => true | _ => false end.

(** A computation that leaves every row as it is and sends only selects,
    whether it returns or throws. *)
Definition read_only {A} (m : M A) : Prop :=
  forall db,
    same_tables db (snd (m db))
    /\ exists qs, queries (snd (m db)) = queries db ++ qs
                  /\ forallb is_select qs = true.

(** A computation that leaves every row as it is whenever it throws
    anything but the driver's [RangeError]. *)
Definition all_or_nothing {A} (m : M A) : Prop :=
  forall db e db',
    m db = (Throw e, db') -> e <> RangeError -> same_tables db db'.

(** A computation that never changes one component of the database. *)
Definition stable {T A} (proj : Db -> T) (m : M A) : Prop :=
  forall db, proj (snd (m db)) = proj db.

(** Primary keys are unique in each of the three tables. *)
Definition keys_unique (db : Db) : Prop :=
  NoDup (map PdfDocuments.id (documents db))
  /\ NoDup (map PdfPages.id (pages db))
  /\ NoDup (map PdfAnnotations.id (annotations db)).

(** Every page and every annotation names an existing document. *)
Definition document_refs_ok (db : Db) : Prop :=
  (forall p, In p (pages db) ->
             has_document (PdfPages.documentId p) db = true)
  /\ (forall a, In a (annotations db) ->
                has_document (PdfAnnotations.documentId a) db = true).

(** Every non-empty page reference of an annotation names a page of the
    annotation's own document. *)
Definition page_refs_in_document (db : Db) : Prop :=
  forall a p, In a (annotations db) ->
              PdfAnnotations.pageId a = Some p ->
              p <> EmptyString ->
              exists page, In page (pages db)
                           /\ PdfPages.id page = p
                           /\ PdfPages.documentId page
                              = PdfAnnotations.documentId a.

(** The references between the tables are sound. *)
Definition references_ok (db : Db) : Prop :=
  document_refs_ok db
  /\ page_refs_in_document db
  /\ annotation_ids_unique db.

(** What a call made by [userId] must leave alone: every document of
    another user, every annotation of a document that [userId] does not
    own, and every page are still rows of the tables afterwards. *)
Definition leaves_others_alone (userId : string) (db db' : Db) : Prop :=
  (forall d, In d (documents db) ->
             PdfDocuments.userId d <> userId -> In d (documents db'))
  /\ (forall a, In a (annotations db) ->
                ~ owns db userId (PdfAnnotations.documentId a) ->
                In a (annotations db'))
  /\ (forall p, In p (pages db) -> In p (pages db')).

(** * Properties *)

(** ** Lists and filters *)

Lemma first_filter_Some {A} (f : A -> bool) (l : list A) (x : A) :
  first (filter f l) = Some x -> In x l /\ f x = true.
Proof.
  induction l as [|y l IH]; simpl; [discriminate|].
  destruct (f y) eqn:Hy; simpl.
  - intros [= <-]. auto.
  - intros H. destruct (IH H). auto.
Qed.

Lemma first_filter_None {A} (f : A -> bool) (l : list A) :
  (forall x, In x l -> f x = false) -> first (filter f l) = None.
Proof.
  induction l as [|y l IH]; simpl; intros H; [reflexivity|].
  rewrite (H y (or_introl eq_refl)). apply IH. intros x Hx. apply H. now right.
Qed.

Lemma first_filter_In {A} (f : A -> bool) (l : list A) (x : A) :
  In x l -> f x = true -> exists y, first (filter f l) = Some y.
Proof.
  induction l as [|y l IH]; simpl; [tauto|].
  intros [-> | Hx] Hf.
  - rewrite Hf. simpl. eauto.
  - destruct (f y); simpl; eauto.
Qed.

Lemma col_eq_true {R} (col : R -> string) (v : string) (r : R) :
  col_eq col v r = true <-> col r = v.
Proof. unfold col_eq. apply String.eqb_eq. Qed.

Lemma col_eq_false {R} (col : R -> string) (v : string) (r : R) :
  col_eq col v r = false <-> col r <> v.
Proof. unfold col_eq. apply String.eqb_neq. Qed.

Lemma col_and_true {R} (f g : R -> bool) (r : R) :
  col_and f g r = true <-> f r = true /\ g r = true.
Proof. unfold col_and. apply andb_true_iff. Qed.

Lemma owned_by_true d u doc :
  owned_by d u doc = true
  <-> PdfDocuments.id doc = d /\ PdfDocuments.userId doc = u.
Proof. unfold owned_by. rewrite col_and_true, !col_eq_true. tauto. Qed.

Lemma page_of_true p d page :
  page_of p d page = true
  <-> PdfPages.id page = p /\ PdfPages.documentId page = d.
Proof. unfold page_of. rewrite col_and_true, !col_eq_true. tauto. Qed.

Lemma annotation_of_true i d a :
  annotation_of i d a = true
  <-> PdfAnnotations.id a = i /\ PdfAnnotations.documentId a = d.
Proof. unfold annotation_of. rewrite col_and_true, !col_eq_true. tauto. Qed.

Lemma filter_nil {A} (f : A -> bool) (l : list A) :
  (forall x, In x l -> f x = false) -> filter f l = [].
Proof.
  induction l as [|x l IH]; simpl; intros H; [reflexivity|].
  rewrite (H x (or_introl eq_refl)). apply IH. intros y Hy. apply H.
  now right.
Qed.

Lemma forallb_filter {A} (rd w : A -> bool) (l : list A) :
  (forall x, In x l -> w x = true -> rd x = true) ->
  forallb rd (filter w l) = true.
Proof.
  intros H. apply forallb_forall. intros x Hx.
  apply filter_In in Hx as [Hin Hw]. auto.
Qed.

(** ** Reading rows back *)

Lemma returning_readable {R} (rd : R -> bool) rows db :
  forallb rd rows = true -> returning rd rows db = (Ok rows, db).
Proof. intros H. unfold returning. now rewrite H. Qed.

Lemma returning_db {R} (rd : R -> bool) rows db :
  snd (returning rd rows db) = db.
Proof. unfold returning. now destruct (forallb rd rows). Qed.

Lemma returning_Throw {R} (rd : R -> bool) rows db e db' :
  returning rd rows db = (Throw e, db') -> e = RangeError /\ db' = db.
Proof.
  unfold returning. destruct (forallb rd rows); [discriminate|].
  intros [= <- <-]. auto.
Qed.

(** ** The guards, step by step *)

Lemma requireUser_run context db :
  requireUser context db =
  match caller context with
  | Some u => (Ok u, db)
  | None =>
      (Throw (ActionError UNAUTHORIZED
                "You must be signed in to perform this action."), db)
  end.
Proof.
  unfold requireUser, caller.
  destruct (locals context) as [l|]; [destruct (user l)|]; reflexivity.
Qed.

Lemma getOwnedDocument_run d u db :
  getOwnedDocument d u db
  = (document_guard db d u, record (Select TPdfDocuments) db).
Proof.
  unfold getOwnedDocument, bind, select_from, returning, document_guard.
  fold (owned_by d u). cbv zeta.
  destruct (forallb _ _); [|reflexivity].
  destruct (first _); reflexivity.
Qed.

Lemma document_guard_Ok db d u doc :
  document_guard db d u = Ok doc ->
  first (filter (owned_by d u) (documents db)) = Some doc
  /\ forallb PdfDocuments.readable (filter (owned_by d u) (documents db))
     = true.
Proof.
  unfold document_guard. cbv zeta.
  destruct (forallb _ _); [|discriminate].
  destruct (first _); [|discriminate].
  intros [= ->]. auto.
Qed.

Lemma document_guard_same db db' d u :
  documents db' = documents db ->
  document_guard db' d u = document_guard db d u.
Proof. intros H. unfold document_guard. now rewrite H. Qed.

Lemma document_guard_record q db d u :
  document_guard (record q db) d u = document_guard db d u.
Proof. reflexivity. Qed.

Lemma getOwnedDocument_Ok d u db doc db' :
  getOwnedDocument d u db = (Ok doc, db') ->
  document_guard db d u = Ok doc /\ db' = record (Select TPdfDocuments) db.
Proof. rewrite getOwnedDocument_run. intros [= -> <-]. auto. Qed.

Lemma document_guard_owns db d u doc :
  document_guard db d u = Ok doc ->
  In doc (documents db)
  /\ PdfDocuments.id doc = d
  /\ PdfDocuments.userId doc = u
  /\ PdfDocuments.readable doc = true.
Proof.
  intros H. apply document_guard_Ok in H as [Hfirst Hread].
  destruct (filter (owned_by d u) (documents db)) as [|x rows] eqn:E;
    [discriminate|].
  injection Hfirst as ->.
  assert (Hin : In doc (filter (owned_by d u) (documents db)))
    by (rewrite E; now left).
  apply filter_In in Hin as [Hin Hown].
  apply owned_by_true in Hown as [Hid Hu].
  simpl in Hread. apply andb_true_iff in Hread as [Hread _]. auto.
Qed.

Lemma document_guard_stranger db d u :
  (forall doc, In doc (documents db) ->
               PdfDocuments.id doc = d -> PdfDocuments.userId doc <> u) ->
  document_guard db d u = Throw document_not_found.
Proof.
  intros H. unfold document_guard. cbv zeta. rewrite filter_nil; [reflexivity|].
  intros doc Hin. destruct (owned_by d u doc) eqn:E; [|reflexivity].
  apply owned_by_true in E as [Hid Hu]. now destruct (H doc Hin Hid).
Qed.

Lemma getOwnedDocument_stranger d u db :
  (forall doc, In doc (documents db) ->
               PdfDocuments.id doc = d -> PdfDocuments.userId doc <> u) ->
  getOwnedDocument d u db
  = (Throw document_not_found, record (Select TPdfDocuments) db).
Proof.
  intros H. now rewrite getOwnedDocument_run, document_guard_stranger.
Qed.

Lemma getOwnedPage_run p d u db :
  getOwnedPage p d u db =
  match document_guard db d u with
  | Throw e => (Throw e, record (Select TPdfDocuments) db)
  | Ok _ =>
      (page_guard db p d,
       record (Select TPdfPages) (record (Select TPdfDocuments) db))
  end.
Proof.
  unfold getOwnedPage, bind. rewrite getOwnedDocument_run.
  destruct (document_guard db d u); [|reflexivity].
  unfold select_from, returning, page_guard. fold (page_of p d). cbv zeta.
  change (pages (record (Select TPdfDocuments) db)) with (pages db).
  destruct (forallb _ _); [|reflexivity].
  destruct (first _); reflexivity.
Qed.

Lemma page_guard_Ok db p d page :
  page_guard db p d = Ok page ->
  In page (pages db)
  /\ PdfPages.id page = p
  /\ PdfPages.documentId page = d.
Proof.
  unfold page_guard. cbv zeta.
  destruct (forallb _ _); [|discriminate].
  destruct (first _) as [x|] eqn:E; [|discriminate].
  intros [= ->]. apply first_filter_Some in E as [Hin Hof].
  apply page_of_true in Hof. tauto.
Qed.

Lemma page_guard_none db p d :
  (forall page, In page (pages db) -> PdfPages.id page = p ->
                PdfPages.documentId page <> d) ->
  page_guard db p d = Throw page_not_found.
Proof.
  intros H. unfold page_guard. cbv zeta. rewrite filter_nil; [reflexivity|].
  intros page Hin. destruct (page_of p d page) eqn:E; [|reflexivity].
  apply page_of_true in E as [Hid Hd]. now destruct (H page Hin Hid).
Qed.

Lemma page_guard_record q db p d :
  page_guard (record q db) p d = page_guard db p d.
Proof. reflexivity. Qed.

(** ** The document guard comes first in every guarded action *)

Lemma others_document_not_owned db u d :
  others_document db u d -> not_owned db u d.
Proof. intros [_ H]. exact H. Qed.

Lemma no_document_not_owned db u d : no_document db d -> not_owned db u d.
Proof. intros H doc Hin Hid. now destruct (H doc Hin). Qed.

Ltac stranger Hs Hc Hn :=
  unfold defineAction; rewrite Hs; unfold bind;
  rewrite requireUser_run, Hc;
  rewrite (getOwnedDocument_stranger _ _ _ Hn); reflexivity.

Lemma updateDocument_stranger rt i context u db :
  caller context = Some u -> UpdateDocument.schema i = true ->
  not_owned db (user_id u) (UpdateDocument.id i) ->
  server.updateDocument rt i context db
  = (Throw document_not_found, record (Select TPdfDocuments) db).
Proof. intros Hc Hs Hn. unfold server.updateDocument. stranger Hs Hc Hn. Qed.

Lemma createPage_stranger rt i context u db :
  caller context = Some u -> CreatePage.schema i = true ->
  not_owned db (user_id u) (CreatePage.documentId i) ->
  server.createPage rt i context db
  = (Throw document_not_found, record (Select TPdfDocuments) db).
Proof. intros Hc Hs Hn. unfold server.createPage. stranger Hs Hc Hn. Qed.

Lemma listPages_stranger rt i context u db :
  caller context = Some u -> ListPages.schema i = true ->
  not_owned db (user_id u) (ListPages.documentId i) ->
  server.listPages rt i context db
  = (Throw document_not_found, record (Select TPdfDocuments) db).
Proof. intros Hc Hs Hn. unfold server.listPages. stranger Hs Hc Hn. Qed.

Lemma createAnnotation_stranger rt i context u db :
  caller context = Some u -> CreateAnnotation.schema i = true ->
  not_owned db (user_id u) (CreateAnnotation.documentId i) ->
  server.createAnnotation rt i context db
  = (Throw document_not_found, record (Select TPdfDocuments) db).
Proof. intros Hc Hs Hn. unfold server.createAnnotation. stranger Hs Hc Hn. Qed.

Lemma updateAnnotation_stranger rt i context u db :
  caller context = Some u -> UpdateAnnotation.schema i = true ->
  not_owned db (user_id u) (UpdateAnnotation.documentId i) ->
  server.updateAnnotation rt i context db
  = (Throw document_not_found, record (Select TPdfDocuments) db).
Proof. intros Hc Hs Hn. unfold server.updateAnnotation. stranger Hs Hc Hn. Qed.

Lemma deleteAnnotation_stranger rt i context u db :
  caller context = Some u -> DeleteAnnotation.schema i = true ->
  not_owned db (user_id u) (DeleteAnnotation.documentId i) ->
  server.deleteAnnotation rt i context db
  = (Throw document_not_found, record (Select TPdfDocuments) db).
Proof. intros Hc Hs Hn. unfold server.deleteAnnotation. stranger Hs Hc Hn. Qed.

Lemma listAnnotations_stranger rt i context u db :
  caller context = Some u -> ListAnnotations.schema i = true ->
  not_owned db (user_id u) (ListAnnotations.documentId i) ->
  server.listAnnotations rt i context db
  = (Throw document_not_found, record (Select TPdfDocuments) db).
Proof. intros Hc Hs Hn. unfold server.listAnnotations. stranger Hs Hc Hn. Qed.

(** C1. In each of the seven guarded actions, a signed-in caller who passes
    a document id that names somebody else's document gets the very same
    outcome as with an id that names no document: the error
    [NOT_FOUND] "PDF document not found.", thrown after the single select of
    the document guard, with every row left as it was. *)
Theorem not_owned_indistinguishable_from_missing :
  forall context u d dbO dbN,
    caller context = Some u ->
    others_document dbO (user_id u) d ->
    no_document dbN d ->
    (forall rt i,
        UpdateDocument.schema i = true -> UpdateDocument.id i = d ->
        refused_alike (server.updateDocument rt i context) dbO dbN)
    /\ (forall rt i,
        CreatePage.schema i = true -> CreatePage.documentId i = d ->
        refused_alike (server.createPage rt i context) dbO dbN)
    /\ (forall rt i,
        ListPages.schema i = true -> ListPages.documentId i = d ->
        refused_alike (server.listPages rt i context) dbO dbN)
    /\ (forall rt i,
        CreateAnnotation.schema i = true -> CreateAnnotation.documentId i = d ->
        refused_alike (server.createAnnotation rt i context) dbO dbN)
    /\ (forall rt i,
        UpdateAnnotation.schema i = true -> UpdateAnnotation.documentId i = d ->
        refused_alike (server.updateAnnotation rt i context) dbO dbN)
    /\ (forall rt i,
        DeleteAnnotation.schema i = true -> DeleteAnnotation.documentId i = d ->
        refused_alike (server.deleteAnnotation rt i context) dbO dbN)
    /\ (forall rt i,
        ListAnnotations.schema i = true -> ListAnnotations.documentId i = d ->
        refused_alike (server.listAnnotations rt i context) dbO dbN).
Proof.
  intros context u d dbO dbN Hc HO HN.
  apply others_document_not_owned in HO.
  apply (no_document_not_owned dbN (user_id u)) in HN.
  unfold refused_alike; fold document_not_found.
  repeat split; intros; subst d.
  - now apply updateDocument_stranger with (u := u).
  - now apply updateDocument_stranger with (u := u).
  - now apply createPage_stranger with (u := u).
  - now apply createPage_stranger with (u := u).
  - now apply listPages_stranger with (u := u).
  - now apply listPages_stranger with (u := u).
  - now apply createAnnotation_stranger with (u := u).
  - now apply createAnnotation_stranger with (u := u).
  - now apply updateAnnotation_stranger with (u := u).
  - now apply updateAnnotation_stranger with (u := u).
  - now apply deleteAnnotation_stranger with (u := u).
  - now apply deleteAnnotation_stranger with (u := u).
  - now apply listAnnotations_stranger with (u := u).
  - now apply listAnnotations_stranger with (u := u).
Qed.

Lemma not_owned_indistinguishable_from_missing_witness :
  caller bob = Some (mkUser "bob")
  /\ others_document library "bob" "D1"
  /\ no_document empty_db "D1"
  /\ refused_alike
       (server.updateDocument rt0
          (UpdateDocument.mk "D1" (Some "Mine") None None None None) bob)
       library empty_db
  /\ refused_alike (server.listPages rt0 (ListPages.mk "D1") bob)
       library empty_db
  /\ refused_alike
       (server.deleteAnnotation rt0 (DeleteAnnotation.mk "A1" "D1") bob)
       library empty_db.
Proof.
  assert (Hc : caller bob = Some (mkUser "bob")) by reflexivity.
  assert (HO : others_document library "bob" "D1").
  { split.
    - exists D1. simpl. auto.
    - simpl. intros doc [<- | [<- | []]]; simpl; discriminate. }
  assert (HN : no_document empty_db "D1") by (intros doc []).
  destruct (not_owned_indistinguishable_from_missing
              bob (mkUser "bob") "D1" library empty_db Hc HO HN)
    as (HUD & _ & HLP & _ & _ & HDA & _).
  refine (conj Hc (conj HO (conj HN (conj _ (conj _ _))))).
  - apply HUD; reflexivity.
  - apply HLP; reflexivity.
  - apply HDA; reflexivity.
Defined.

(** ** The page guard *)

(** C3. When [getOwnedPage] returns a page, the caller owns the document of
    the given id, the page is a row of [PdfPages] with the given page id and
    its [documentId] is the given one, and no row was touched; when the
    caller does not own the document the guard throws "PDF document not
    found." whatever the page id is, so no page is returned. *)
Theorem getOwnedPage_only_for_owned_document :
  forall pageId documentId userId db,
    (forall page db',
        getOwnedPage pageId documentId userId db = (Ok page, db') ->
        owns db userId documentId
        /\ In page (pages db)
        /\ PdfPages.id page = pageId
        /\ PdfPages.documentId page = documentId
        /\ same_tables db db')
    /\ (not_owned db userId documentId ->
        getOwnedPage pageId documentId userId db
        = (Throw document_not_found, record (Select TPdfDocuments) db)).
Proof.
  intros p d u db. split.
  - intros page db'. rewrite getOwnedPage_run.
    destruct (document_guard db d u) as [doc|e] eqn:Hdoc; [|discriminate].
    intros [= Hpg <-].
    apply document_guard_owns in Hdoc as (Hin & Hid & Hu & _).
    apply page_guard_Ok in Hpg as (Hpin & Hpid & Hpd).
    repeat split; auto. exists doc. auto.
  - intros Hn. rewrite getOwnedPage_run.
    now rewrite (document_guard_stranger db d u Hn).
Qed.

Lemma getOwnedPage_only_for_owned_document_witness :
  getOwnedPage "P1" "D1" "alice" library
  = (Ok P1, record (Select TPdfPages) (record (Select TPdfDocuments) library))
  /\ owns library "alice" "D1"
  /\ PdfPages.documentId P1 = "D1"
  /\ getOwnedPage "P2" "D2" "alice" library
     = (Throw document_not_found, record (Select TPdfDocuments) library).
Proof.
  destruct (getOwnedPage_only_for_owned_document "P1" "D1" "alice" library)
    as [Hok _].
  destruct (Hok P1 _ eq_refl) as (Hown & _ & _ & Hd & _).
  destruct (getOwnedPage_only_for_owned_document "P2" "D2" "alice" library)
    as [_ Hno].
  refine (conj eq_refl (conj Hown (conj Hd _))).
  apply Hno. intros doc [<- | [<- | []]]; simpl; discriminate.
Defined.

(** ** Input validation *)

(** C4. [updateDocument] and [updateAnnotation] called with none of their
    optional fields throw the input error (code [BAD_REQUEST]) whoever the
    caller is, signed in or not, and whatever the tables hold; the database
    afterwards is the database before, query log included: no statement was
    sent to the store. *)
Theorem empty_patch_is_invalid_input :
  forall rt context db id annotationId documentId,
    server.updateDocument rt
      (UpdateDocument.mk id None None None None None) context db
    = (Throw ActionInputError, db)
    /\ server.updateAnnotation rt
         (UpdateAnnotation.mk annotationId documentId None None None None None)
         context db
       = (Throw ActionInputError, db)
    /\ error_code ActionInputError = BAD_REQUEST.
Proof.
  intros rt context db id aid did.
  unfold server.updateDocument, server.updateAnnotation, defineAction,
    UpdateDocument.schema, UpdateAnnotation.schema,
    UpdateDocument.refine, UpdateAnnotation.refine.
  simpl. rewrite !andb_false_r. repeat split; reflexivity.
Qed.

(** ** Listings *)

Lemma listing_of_Ok {R} (rd : R -> bool) rows env :
  listing_of rd rows = Ok env ->
  env = mkEnvelope true (mkListing rows (length rows)).
Proof.
  unfold listing_of. destruct (forallb rd rows); [|discriminate].
  now intros [= <-].
Qed.

Lemma listing_of_readable {R} (rd : R -> bool) rows :
  forallb rd rows = true ->
  listing_of rd rows = Ok (mkEnvelope true (mkListing rows (length rows))).
Proof. intros H. unfold listing_of. now rewrite H. Qed.

Lemma listPages_run rt i context db :
  server.listPages rt i context db =
  if ListPages.schema i then
    match caller context with
    | None =>
        (Throw (ActionError UNAUTHORIZED
                  "You must be signed in to perform this action."), db)
    | Some u =>
        match document_guard db (ListPages.documentId i) (user_id u) with
        | Throw e => (Throw e, record (Select TPdfDocuments) db)
        | Ok _ =>
            (listing_of PdfPages.readable
               (filter (col_eq PdfPages.documentId (ListPages.documentId i))
                       (pages db)),
             record (Select TPdfPages) (record (Select TPdfDocuments) db))
        end
    end
  else (Throw ActionInputError, db).
Proof.
  unfold server.listPages, defineAction.
  destruct (ListPages.schema i); [|reflexivity].
  unfold bind. rewrite requireUser_run.
  destruct (caller context) as [u|]; [|reflexivity].
  rewrite getOwnedDocument_run.
  destruct (document_guard _ _ _); [|reflexivity].
  unfold select_from, returning, listing_of.
  change (pages (record (Select TPdfDocuments) db)) with (pages db).
  destruct (forallb _ _); reflexivity.
Qed.

Lemma listAnnotations_run rt i context db :
  server.listAnnotations rt i context db =
  if ListAnnotations.schema i then
    match caller context with
    | None =>
        (Throw (ActionError UNAUTHORIZED
                  "You must be signed in to perform this action."), db)
    | Some u =>
        match document_guard db (ListAnnotations.documentId i) (user_id u) with
        | Throw e => (Throw e, record (Select TPdfDocuments) db)
        | Ok _ =>
            let rows :=
              filter (col_eq PdfAnnotations.documentId
                             (ListAnnotations.documentId i))
                     (annotations db) in
            (Ok (mkEnvelope true (mkListing rows (length rows))),
             record (Select TPdfAnnotations) (record (Select TPdfDocuments) db))
        end
    end
  else (Throw ActionInputError, db).
Proof.
  unfold server.listAnnotations, defineAction.
  destruct (ListAnnotations.schema i); [|reflexivity].
  unfold bind. rewrite requireUser_run.
  destruct (caller context) as [u|]; [|reflexivity].
  rewrite getOwnedDocument_run.
  destruct (document_guard _ _ _); [|reflexivity].
  unfold select_from, returning.
  change (annotations (record (Select TPdfDocuments) db))
    with (annotations db).
  rewrite (forallb_filter PdfAnnotations.readable); reflexivity.
Qed.

Lemma listDocuments_run rt context db :
  server.listDocuments rt tt context db =
  match caller context with
  | None =>
      (Throw (ActionError UNAUTHORIZED
                "You must be signed in to perform this action."), db)
  | Some u =>
      (listing_of PdfDocuments.readable
         (filter (col_eq PdfDocuments.userId (user_id u)) (documents db)),
       record (Select TPdfDocuments) db)
  end.
Proof.
  unfold server.listDocuments, defineAction, bind. rewrite requireUser_run.
  destruct (caller context); [|reflexivity].
  unfold select_from, returning, listing_of.
  destruct (forallb _ _); reflexivity.
Qed.

(** C8. For a signed-in caller for whom the ownership check on the
    document passes, [listAnnotations] returns exactly the rows of
    [PdfAnnotations] whose [documentId] is the requested one, in table
    order, with [total] their number; the author of a row plays no part:
    every annotation of the document is in [items], whoever wrote it. *)
Theorem listAnnotations_all_authors :
  forall rt i context u db doc db0,
    caller context = Some u ->
    ListAnnotations.schema i = true ->
    getOwnedDocument (ListAnnotations.documentId i) (user_id u) db
    = (Ok doc, db0) ->
    exists env db',
      server.listAnnotations rt i context db = (Ok env, db')
      /\ success env = true
      /\ items (data env)
         = filter (fun a => String.eqb (PdfAnnotations.documentId a)
                                       (ListAnnotations.documentId i))
                  (annotations db)
      /\ total (data env) = length (items (data env))
      /\ (forall a, In a (annotations db) ->
                    PdfAnnotations.documentId a = ListAnnotations.documentId i ->
                    In a (items (data env)))
      /\ same_tables db db'.
Proof.
  intros rt i context u db doc db0 Hc Hs Hg.
  apply getOwnedDocument_Ok in Hg as [Hg _].
  rewrite listAnnotations_run, Hs, Hc, Hg. cbv zeta.
  eexists _, _. split; [reflexivity|]. simpl.
  repeat split.
  intros a Hin Hd. apply filter_In. split; [assumption|].
  now apply col_eq_true.
Qed.

Lemma listAnnotations_all_authors_witness :
  exists env db',
    server.listAnnotations rt0 (ListAnnotations.mk "D1") alice library
    = (Ok env, db')
    /\ items (data env) = [A1; A2]
    /\ total (data env) = 2
    /\ PdfAnnotations.userId A2 = "bob".
Proof.
  destruct (listAnnotations_all_authors rt0 (ListAnnotations.mk "D1") alice
              (mkUser "alice") library D1 _ eq_refl eq_refl eq_refl)
    as (env & db' & Hrun & _ & Hitems & Htotal & _).
  exists env, db'. rewrite Htotal, Hitems. auto.
Defined.

(** Owning the document is not enough for [listAnnotations] to return:
    after Alice's [updateDocument] has written 2^53 into [pageCount] of her
    document (the call throws, the row is written), Alice still owns the
    document, but the select of the guard cannot read the row back and
    [listAnnotations] throws the driver's [RangeError]. *)
Lemma listAnnotations_all_authors_counterexample :
  snd (server.updateDocument rt0
         (UpdateDocument.mk "D1" None None None (Some (Integer TWO_53)) None)
         alice library)
  = library_huge
  /\ owns library_huge "alice" "D1"
  /\ server.listAnnotations rt0 (ListAnnotations.mk "D1") alice library_huge
     = (Throw RangeError, record (Select TPdfDocuments) library_huge).
Proof.
  split; [reflexivity|]. split; [|reflexivity].
  exists D1_huge. simpl. auto.
Qed.

(** C10. Every item of a successful [listPages] has the requested
    [documentId], and so has every item of a successful [listAnnotations];
    the items are rows of the table. *)
Theorem listings_stay_within_document :
  forall rt context db,
    (forall i env db',
        server.listPages rt i context db = (Ok env, db') ->
        forall p, In p (items (data env)) ->
                  PdfPages.documentId p = ListPages.documentId i
                  /\ In p (pages db))
    /\ (forall i env db',
        server.listAnnotations rt i context db = (Ok env, db') ->
        forall a, In a (items (data env)) ->
                  PdfAnnotations.documentId a = ListAnnotations.documentId i
                  /\ In a (annotations db)).
Proof.
  intros rt context db. split; intros i env db'.
  - rewrite listPages_run.
    destruct (ListPages.schema i); [|discriminate].
    destruct (caller context); [|discriminate].
    destruct (document_guard _ _ _) as [doc|e]; [|discriminate].
    intros [= Hl _] p Hp. apply listing_of_Ok in Hl. subst env.
    simpl in Hp.
    apply filter_In in Hp as [Hin Hd]. apply col_eq_true in Hd. auto.
  - rewrite listAnnotations_run.
    destruct (ListAnnotations.schema i); [|discriminate].
    destruct (caller context); [|discriminate].
    destruct (document_guard _ _ _) as [doc|e]; [|discriminate].
    intros [= <- _] a Ha. simpl in Ha.
    apply filter_In in Ha as [Hin Hd]. apply col_eq_true in Hd. auto.
Qed.

Lemma listings_stay_within_document_witness :
  PdfPages.documentId P1 = "D1" /\ PdfAnnotations.documentId A2 = "D1".
Proof.
  destruct (listings_stay_within_document rt0 alice library) as [HP HA].
  split.
  - refine (proj1 (HP (ListPages.mk "D1") _ _ eq_refl P1 _)).
    simpl. auto.
  - refine (proj1 (HA (ListAnnotations.mk "D1") _ _ eq_refl A2 _)).
    simpl. auto.
Defined.

(** ** Deleting an annotation *)

Lemma filter_none_length {A} (f : A -> bool) (l : list A) :
  length (filter f l) = 0 -> filter (fun x => negb (f x)) l = l.
Proof.
  induction l as [|x l IH]; simpl; [reflexivity|].
  destruct (f x); simpl; [discriminate|]. intros H. now rewrite IH.
Qed.

Lemma filter_after_delete {A} (f : A -> bool) (l : list A) :
  filter f (filter (fun x => negb (f x)) l) = [].
Proof.
  induction l as [|x l IH]; simpl; [reflexivity|].
  destruct (f x) eqn:E; simpl; [assumption|]. now rewrite E.
Qed.

Lemma deleteAnnotation_run rt i context db :
  server.deleteAnnotation rt i context db =
  if DeleteAnnotation.schema i then
    match caller context with
    | None =>
        (Throw (ActionError UNAUTHORIZED
                  "You must be signed in to perform this action."), db)
    | Some u =>
        match document_guard db (DeleteAnnotation.documentId i) (user_id u) with
        | Throw e => (Throw e, record (Select TPdfDocuments) db)
        | Ok _ =>
            let w := annotation_of (DeleteAnnotation.id i)
                                   (DeleteAnnotation.documentId i) in
            (if Nat.eqb (length (filter w (annotations db))) 0
             then Throw annotation_not_found
             else Ok (mkEnvelope true tt),
             with_annotations
               (filter (fun a => negb (w a)) (annotations db))
               (record (Delete TPdfAnnotations)
                  (record (Select TPdfDocuments) db)))
        end
    end
  else (Throw ActionInputError, db).
Proof.
  unfold server.deleteAnnotation, defineAction.
  destruct (DeleteAnnotation.schema i); [|reflexivity].
  unfold bind. rewrite requireUser_run.
  destruct (caller context) as [u|]; [|reflexivity].
  rewrite getOwnedDocument_run.
  destruct (document_guard _ _ _); [|reflexivity].
  unfold delete_PdfAnnotations, annotation_of. simpl.
  destruct (Nat.eqb _ 0); reflexivity.
Qed.

(** C6. For a signed-in caller, once the ownership check on [documentId]
    has passed, [deleteAnnotation] sends the delete without selecting from
    [PdfAnnotations]; the delete removes exactly the rows whose [id] and
    [documentId] are the given ones and leaves the other tables alone; the
    call throws "Annotation not found." when no row was removed and
    succeeds otherwise; and the same call made again on the resulting
    database throws "Annotation not found.". *)
Theorem deleteAnnotation_checks_after_delete :
  forall rt rt' i context u db doc db0,
    caller context = Some u ->
    DeleteAnnotation.schema i = true ->
    getOwnedDocument (DeleteAnnotation.documentId i) (user_id u) db
    = (Ok doc, db0) ->
    let w := annotation_of (DeleteAnnotation.id i)
                           (DeleteAnnotation.documentId i) in
    exists db1,
      server.deleteAnnotation rt i context db
      = (if Nat.eqb (length (filter w (annotations db))) 0
         then Throw annotation_not_found
         else Ok (mkEnvelope true tt), db1)
      /\ annotations db1 = filter (fun a => negb (w a)) (annotations db)
      /\ (length (filter w (annotations db)) = 0 ->
          annotations db1 = annotations db)
      /\ documents db1 = documents db
      /\ pages db1 = pages db
      /\ queries db1
         = queries db ++ [Select TPdfDocuments; Delete TPdfAnnotations]
      /\ exists db2,
          server.deleteAnnotation rt' i context db1
          = (Throw annotation_not_found, db2)
          /\ annotations db2 = annotations db1.
Proof.
  intros rt rt' i context u db doc db0 Hc Hs Hg w.
  apply getOwnedDocument_Ok in Hg as [Hg _].
  rewrite deleteAnnotation_run, Hs, Hc, Hg.
  fold w. eexists. split; [reflexivity|]. simpl.
  split; [reflexivity|].
  split; [intros H0; now apply filter_none_length|].
  split; [reflexivity|]. split; [reflexivity|].
  split; [now rewrite <- app_assoc|].
  rewrite deleteAnnotation_run, Hs, Hc.
  rewrite (document_guard_same db); [|reflexivity]. rewrite Hg.
  fold w. cbn [annotations with_annotations]. rewrite filter_after_delete.
  simpl.
  eexists. split; [reflexivity|]. simpl.
  apply filter_none_length. now rewrite filter_after_delete.
Qed.

Lemma deleteAnnotation_checks_after_delete_witness :
  exists db1 db2,
    server.deleteAnnotation rt0 (DeleteAnnotation.mk "A1" "D1") alice library
    = (Ok (mkEnvelope true tt), db1)
    /\ annotations db1 = [A2]
    /\ server.deleteAnnotation rt0 (DeleteAnnotation.mk "A1" "D1") alice db1
       = (Throw annotation_not_found, db2)
    /\ annotations db2 = [A2].
Proof.
  destruct (deleteAnnotation_checks_after_delete rt0 rt0
              (DeleteAnnotation.mk "A1" "D1") alice (mkUser "alice") library
              D1 _ eq_refl eq_refl eq_refl)
    as (db1 & Hrun & Hann & _ & _ & _ & _ & db2 & Hrun2 & Hann2).
  exists db1, db2. rewrite Hann2, Hann. auto.
Defined.

(** ** Creating rows *)

Lemma owns_has_document db u d : owns db u d -> has_document d db = true.
Proof.
  intros (doc & Hin & Hid & _). unfold has_document.
  apply existsb_exists. exists doc. split; [assumption|].
  now apply String.eqb_eq.
Qed.

Lemma document_guard_has_document db d u doc :
  document_guard db d u = Ok doc -> has_document d db = true.
Proof.
  intros H. apply document_guard_owns in H as (Hin & Hid & Hu & _).
  apply (owns_has_document db u). exists doc. auto.
Qed.

Lemma page_has_page db page :
  In page (pages db) -> has_page (PdfPages.id page) db = true.
Proof.
  intros Hin. unfold has_page. apply existsb_exists.
  exists page. split; [assumption|]. apply String.eqb_refl.
Qed.

Lemma has_document_record i q db :
  has_document i (record q db) = has_document i db.
Proof. reflexivity. Qed.

Lemma has_page_record i q db : has_page i (record q db) = has_page i db.
Proof. reflexivity. Qed.

Lemma has_annotation_record i q db :
  has_annotation i (record q db) = has_annotation i db.
Proof. reflexivity. Qed.

Lemma page_ref_ok_record p q db :
  page_ref_ok p (record q db) = page_ref_ok p db.
Proof. destruct p; reflexivity. Qed.

Lemma documents_record q db : documents (record q db) = documents db.
Proof. reflexivity. Qed.

Lemma pages_record q db : pages (record q db) = pages db.
Proof. reflexivity. Qed.

Lemma annotations_record q db : annotations (record q db) = annotations db.
Proof. reflexivity. Qed.

Lemma min1_true s : min1 s = true <-> s <> EmptyString.
Proof.
  unfold min1. rewrite negb_true_iff. apply String.eqb_neq.
Qed.

(** The envelope around the first returned row. *)
Lemma finish_run {R} (m : M (list R)) db :
  bind m (fun rows => ret (mkEnvelope true (first rows))) db
  = match m db with
    | (Ok rows, db') => (Ok (mkEnvelope true (first rows)), db')
    | (Throw e, db') => (Throw e, db')
    end.
Proof. unfold bind, ret. now destruct (m db) as [[rows|e] db']. Qed.

Lemma createDocument_run rt i context db :
  server.createDocument rt i context db =
  match caller context with
  | None =>
      (Throw (ActionError UNAUTHORIZED
                "You must be signed in to perform this action."), db)
  | Some u =>
      bind (insert_PdfDocuments
              (PdfDocuments.mk (randomUUID rt) (user_id u)
                 (CreateDocument.title i) (CreateDocument.sourceType i)
                 (CreateDocument.sourceUrl i) (CreateDocument.pageCount i)
                 (CreateDocument.lastOpenedAt i) (now rt) (now rt)))
           (fun rows => ret (mkEnvelope true (first rows))) db
  end.
Proof.
  unfold server.createDocument, defineAction. cbv zeta. simpl.
  unfold bind at 1. rewrite requireUser_run.
  destruct (caller context) as [u|]; reflexivity.
Qed.

Lemma createPage_run rt i context db :
  server.createPage rt i context db =
  if CreatePage.schema i then
    match caller context with
    | None =>
        (Throw (ActionError UNAUTHORIZED
                  "You must be signed in to perform this action."), db)
    | Some u =>
        match document_guard db (CreatePage.documentId i) (user_id u) with
        | Throw e => (Throw e, record (Select TPdfDocuments) db)
        | Ok _ =>
            bind (insert_PdfPages
                    (PdfPages.mk (randomUUID rt) (CreatePage.documentId i)
                       (CreatePage.pageNumber i) (CreatePage.textContent i)
                       (now rt)))
                 (fun rows => ret (mkEnvelope true (first rows)))
                 (record (Select TPdfDocuments) db)
        end
    end
  else (Throw ActionInputError, db).
Proof.
  unfold server.createPage, defineAction.
  destruct (CreatePage.schema i); [|reflexivity].
  unfold bind at 1. rewrite requireUser_run.
  destruct (caller context) as [u|]; [|reflexivity].
  unfold bind at 1. rewrite getOwnedDocument_run.
  destruct (document_guard _ _ _); reflexivity.
Qed.

Lemma createAnnotation_run rt i context db :
  server.createAnnotation rt i context db =
  if CreateAnnotation.schema i then
    match caller context with
    | None =>
        (Throw (ActionError UNAUTHORIZED
                  "You must be signed in to perform this action."), db)
    | Some u =>
        let d := CreateAnnotation.documentId i in
        let insert :=
          bind (insert_PdfAnnotations
                  (PdfAnnotations.mk (randomUUID rt) d
                     (CreateAnnotation.pageId i) (user_id u)
                     (CreateAnnotation.annotationType i)
                     (CreateAnnotation.selectionJson i)
                     (CreateAnnotation.comment i)
                     (CreateAnnotation.color i) (now rt) (now rt)))
               (fun rows => ret (mkEnvelope true (first rows))) in
        match document_guard db d (user_id u) with
        | Throw e => (Throw e, record (Select TPdfDocuments) db)
        | Ok _ =>
            match CreateAnnotation.pageId i with
            | Some p =>
                if negb (String.eqb p EmptyString) then
                  match page_guard db p d with
                  | Ok _ =>
                      insert (record (Select TPdfPages)
                                (record (Select TPdfDocuments)
                                   (record (Select TPdfDocuments) db)))
                  | Throw e =>
                      (Throw e,
                       record (Select TPdfPages)
                         (record (Select TPdfDocuments)
                            (record (Select TPdfDocuments) db)))
                  end
                else insert (record (Select TPdfDocuments) db)
            | None => insert (record (Select TPdfDocuments) db)
            end
        end
    end
  else (Throw ActionInputError, db).
Proof.
  unfold server.createAnnotation, defineAction.
  destruct (CreateAnnotation.schema i); [|reflexivity].
  unfold bind at 1. rewrite requireUser_run.
  destruct (caller context) as [u|]; [|reflexivity].
  unfold bind at 1. rewrite getOwnedDocument_run. cbv zeta.
  destruct (document_guard db _ _) as [doc|e] eqn:Hdoc; [|reflexivity].
  unfold bind at 1.
  destruct (CreateAnnotation.pageId i) as [p|]; [|reflexivity].
  unfold truthy. destruct (negb (String.eqb p EmptyString)); [|reflexivity].
  unfold bind at 1. rewrite getOwnedPage_run, document_guard_record, Hdoc.
  rewrite page_guard_record.
  destruct (page_guard db p _); reflexivity.
Qed.

(** The inserts, case by case. *)
Lemma insert_PdfDocuments_fresh r db :
  finite (PdfDocuments.pageCount r) = true ->
  has_document (PdfDocuments.id r) db = false ->
  insert_PdfDocuments r db
  = returning PdfDocuments.readable [PdfDocuments.written r]
      (with_documents (documents db ++ [PdfDocuments.written r])
         (record (Insert TPdfDocuments) db)).
Proof.
  intros Hf H. unfold insert_PdfDocuments. rewrite Hf. cbv zeta. cbn [negb].
  now rewrite has_document_record, H.
Qed.

Lemma insert_PdfPages_fresh r db :
  has_page (PdfPages.id r) db = false ->
  has_document (PdfPages.documentId r) db = true ->
  insert_PdfPages r db
  = returning PdfPages.readable [PdfPages.written r]
      (with_pages (pages db ++ [PdfPages.written r])
         (record (Insert TPdfPages) db)).
Proof.
  intros H Hd. unfold insert_PdfPages. cbv zeta.
  rewrite has_page_record, H, has_document_record, Hd.
  now rewrite andb_false_r.
Qed.


Lemma safe_readable z : safe_integer z = true -> readable_integer z = true.
Proof. intros H. unfold readable_integer. now rewrite H. Qed.

Lemma safe_count_readable n : safe_count n ->
  match n with Some x => readable_number x | None => true end = true.
Proof.
  destruct n as [[z| |]|]; simpl; try tauto. apply safe_readable.
Qed.

Lemma safe_count_finite n : safe_count n -> finite n = true.
Proof. destruct n as [[z| |]|]; simpl; tauto. Qed.




Lemma page_check_ref_ok db p d u :
  page_check_passes db p d u -> page_ref_ok p db = true.
Proof.
  destruct p as [p|]; simpl; [|reflexivity].
  intros (page & db' & H). rewrite getOwnedPage_run in H.
  destruct (document_guard db d u); [|discriminate].
  injection H as H _. apply page_guard_Ok in H as (Hin & <- & _).
  now apply page_has_page.
Qed.





(** ** Updating an annotation *)

Lemma forallb_true {A} (l : list A) : forallb (fun _ => true) l = true.
Proof. induction l; simpl; auto. Qed.

Lemma select_annotations_run w db :
  select_from TPdfAnnotations annotations PdfAnnotations.readable w db
  = (Ok (filter w (annotations db)), record (Select TPdfAnnotations) db).
Proof.
  unfold select_from, returning, PdfAnnotations.readable.
  now rewrite forallb_true.
Qed.

Lemma returning_annotations rows db :
  returning PdfAnnotations.readable rows db = (Ok rows, db).
Proof.
  unfold returning, PdfAnnotations.readable. now rewrite forallb_true.
Qed.

(** The update statement of [updateAnnotation] and the envelope built from
    its rows. *)
Lemma update_step_run p w db :
  bind (update_PdfAnnotations p w)
       (fun rows => ret (mkEnvelope true (first rows))) db
  = if foreign_keys db && existsb w (annotations db)
       && negb (page_ref_ok (PdfAnnotations.set_pageId p) db)
    then (Throw (StoreError (ForeignKey TPdfAnnotations)),
          record (Update TPdfAnnotations) db)
    else
      (Ok (mkEnvelope true
             (first (map (PdfAnnotations.apply (PdfAnnotations.written_set p))
                         (filter w (annotations db))))),
       with_annotations
         (map (fun r => if w r
                        then PdfAnnotations.apply
                               (PdfAnnotations.written_set p) r
                        else r)
              (annotations db))
         (record (Update TPdfAnnotations) db)).
Proof.
  unfold bind, update_PdfAnnotations. cbv zeta.
  rewrite page_ref_ok_record, annotations_record.
  change (foreign_keys (record (Update TPdfAnnotations) db))
    with (foreign_keys db).
  destruct (foreign_keys db && _ && _); [reflexivity|].
  now rewrite returning_annotations.
Qed.

(** [updateAnnotation], step by step. *)
Lemma updateAnnotation_run rt i context db :
  server.updateAnnotation rt i context db =
  if UpdateAnnotation.schema i then
    match caller context with
    | None =>
        (Throw (ActionError UNAUTHORIZED
                  "You must be signed in to perform this action."), db)
    | Some u =>
        let d := UpdateAnnotation.documentId i in
        let finish := fun db0 =>
          match first (filter (annotation_of (UpdateAnnotation.id i) d)
                              (annotations db)) with
          | None =>
              (Throw annotation_not_found, record (Select TPdfAnnotations) db0)
          | Some _ =>
              bind (update_PdfAnnotations
                      (PdfAnnotations.mkSet
                         (UpdateAnnotation.pageId i)
                         (UpdateAnnotation.annotationType i)
                         (UpdateAnnotation.selectionJson i)
                         (UpdateAnnotation.comment i)
                         (UpdateAnnotation.color i) (now rt))
                      (col_eq PdfAnnotations.id (UpdateAnnotation.id i)))
                   (fun rows => ret (mkEnvelope true (first rows)))
                   (record (Select TPdfAnnotations) db0)
          end in
        match document_guard db d (user_id u) with
        | Throw e => (Throw e, record (Select TPdfDocuments) db)
        | Ok _ =>
            match UpdateAnnotation.pageId i with
            | Some p =>
                match page_guard db p d with
                | Ok _ =>
                    finish (record (Select TPdfPages)
                              (record (Select TPdfDocuments)
                                 (record (Select TPdfDocuments) db)))
                | Throw e =>
                    (Throw e,
                     record (Select TPdfPages)
                       (record (Select TPdfDocuments)
                          (record (Select TPdfDocuments) db)))
                end
            | None => finish (record (Select TPdfDocuments) db)
            end
        end
    end
  else (Throw ActionInputError, db).
Proof.
  unfold server.updateAnnotation, defineAction.
  destruct (UpdateAnnotation.schema i); [|reflexivity].
  unfold bind at 1. rewrite requireUser_run.
  destruct (caller context) as [u|]; [|reflexivity].
  unfold bind at 1. rewrite getOwnedDocument_run. cbv zeta.
  destruct (document_guard db _ _) as [doc|e] eqn:Hdoc; [|reflexivity].
  unfold bind at 1.
  destruct (UpdateAnnotation.pageId i) as [p|].
  - unfold bind at 1. rewrite getOwnedPage_run, document_guard_record, Hdoc.
    rewrite page_guard_record.
    destruct (page_guard db p _); [|reflexivity].
    unfold ret at 1. unfold bind at 1. rewrite select_annotations_run.
    rewrite ?annotations_record.
    fold (annotation_of (UpdateAnnotation.id i)
                        (UpdateAnnotation.documentId i)).
    destruct (first _); reflexivity.
  - unfold ret at 1. unfold bind at 1. rewrite select_annotations_run.
    rewrite ?annotations_record.
    fold (annotation_of (UpdateAnnotation.id i)
                        (UpdateAnnotation.documentId i)).
    destruct (first _); reflexivity.
Qed.

(** What a successful [updateAnnotation] has done. *)
Lemma updateAnnotation_Ok rt i context db env db' :
  server.updateAnnotation rt i context db = (Ok env, db') ->
  let p := PdfAnnotations.written_set
             (PdfAnnotations.mkSet
                (UpdateAnnotation.pageId i) (UpdateAnnotation.annotationType i)
                (UpdateAnnotation.selectionJson i) (UpdateAnnotation.comment i)
                (UpdateAnnotation.color i) (now rt)) in
  let w := col_eq PdfAnnotations.id (UpdateAnnotation.id i) in
  exists u doc existing,
    caller context = Some u
    /\ UpdateAnnotation.schema i = true
    /\ document_guard db (UpdateAnnotation.documentId i) (user_id u) = Ok doc
    /\ first (filter (annotation_of (UpdateAnnotation.id i)
                                    (UpdateAnnotation.documentId i))
                     (annotations db)) = Some existing
    /\ env = mkEnvelope true
               (first (map (PdfAnnotations.apply p)
                           (filter w (annotations db))))
    /\ annotations db'
       = map (fun r => if w r then PdfAnnotations.apply p r else r)
             (annotations db)
    /\ documents db' = documents db
    /\ pages db' = pages db
    /\ foreign_keys db' = foreign_keys db.
Proof.
  rewrite updateAnnotation_run.
  destruct (UpdateAnnotation.schema i); [|discriminate].
  destruct (caller context) as [u|]; [|discriminate].
  cbv zeta.
  destruct (document_guard db _ _) as [doc|e] eqn:Hdoc; [|discriminate].
  assert (Hfin : forall db0,
             documents db0 = documents db -> pages db0 = pages db ->
             annotations db0 = annotations db ->
             foreign_keys db0 = foreign_keys db ->
             match first (filter (annotation_of (UpdateAnnotation.id i)
                                    (UpdateAnnotation.documentId i))
                            (annotations db)) with
             | None =>
                 (Throw annotation_not_found,
                  record (Select TPdfAnnotations) db0)
             | Some _ =>
                 bind (update_PdfAnnotations
                         (PdfAnnotations.mkSet
                            (UpdateAnnotation.pageId i)
                            (UpdateAnnotation.annotationType i)
                            (UpdateAnnotation.selectionJson i)
                            (UpdateAnnotation.comment i)
                            (UpdateAnnotation.color i) (now rt))
                         (col_eq PdfAnnotations.id (UpdateAnnotation.id i)))
                      (fun rows => ret (mkEnvelope true (first rows)))
                      (record (Select TPdfAnnotations) db0)
             end = (Ok env, db') ->
             exists existing,
               first (filter (annotation_of (UpdateAnnotation.id i)
                                   (UpdateAnnotation.documentId i))
                           (annotations db)) = Some existing
               /\ env = mkEnvelope true
                          (first (map (PdfAnnotations.apply
                                         (PdfAnnotations.written_set
                                            (PdfAnnotations.mkSet
                                               (UpdateAnnotation.pageId i)
                                               (UpdateAnnotation.annotationType i)
                                               (UpdateAnnotation.selectionJson i)
                                               (UpdateAnnotation.comment i)
                                               (UpdateAnnotation.color i)
                                               (now rt))))
                                      (filter (col_eq PdfAnnotations.id
                                                 (UpdateAnnotation.id i))
                                         (annotations db))))
               /\ annotations db'
                  = map (fun r =>
                           if col_eq PdfAnnotations.id (UpdateAnnotation.id i) r
                           then PdfAnnotations.apply
                                  (PdfAnnotations.written_set
                                     (PdfAnnotations.mkSet
                                        (UpdateAnnotation.pageId i)
                                        (UpdateAnnotation.annotationType i)
                                        (UpdateAnnotation.selectionJson i)
                                        (UpdateAnnotation.comment i)
                                        (UpdateAnnotation.color i)
                                        (now rt))) r
                           else r)
                        (annotations db)
               /\ documents db' = documents db
               /\ pages db' = pages db
               /\ foreign_keys db' = foreign_keys db).
  { intros db0 H1 H2 H3 H4.
    destruct (first (filter (annotation_of _ _) (annotations db)))
      as [existing|] eqn:Hex; [|discriminate].
    rewrite update_step_run.
    destruct (foreign_keys _ && _ && _); [discriminate|].
    rewrite annotations_record, H3.
    intros [= <- <-]. exists existing.
    cbn [annotations documents pages foreign_keys with_annotations record].
    repeat (split; [reflexivity|]). auto. }
  destruct (UpdateAnnotation.pageId i) as [pg|].
  - destruct (page_guard db pg _); [|discriminate].
    intros H.
    apply Hfin in H; try reflexivity. destruct H as (existing & Hrest).
    exists u, doc, existing.
    split; [reflexivity|]. split; [reflexivity|]. split; [exact Hdoc|].
    exact Hrest.
  - intros H.
    apply Hfin in H; try reflexivity. destruct H as (existing & Hrest).
    exists u, doc, existing.
    split; [reflexivity|]. split; [reflexivity|]. split; [exact Hdoc|].
    exact Hrest.
Qed.

Lemma first_map {A B} (f : A -> B) (l : list A) (a : A) :
  first l = Some a -> first (map f l) = Some (f a).
Proof. destruct l; simpl; [discriminate|]. now intros [= ->]. Qed.

Lemma unique_id_row (l : list PdfAnnotations.row) a b :
  NoDup (map PdfAnnotations.id l) ->
  In a l -> In b l -> PdfAnnotations.id a = PdfAnnotations.id b -> a = b.
Proof.
  induction l as [|x l IH]; simpl; [tauto|].
  intros Hnd. inversion Hnd as [|? ? Hnotin Hnd']; subst.
  intros [-> | Ha] [-> | Hb] Hid; auto.
  - destruct Hnotin. rewrite Hid. now apply in_map.
  - destruct Hnotin. rewrite <- Hid. now apply in_map.
Qed.

Lemma Forall2_map_self {A} (R : A -> A -> Prop) (g : A -> A) (l : list A) :
  (forall x, R x (g x)) -> Forall2 R l (map g l).
Proof. intros H. induction l; simpl; constructor; auto. Qed.

(** The row that a successful [updateAnnotation] returns: the patched first
    row of the given id. *)
Lemma updateAnnotation_returns rt i context db env db' :
  server.updateAnnotation rt i context db = (Ok env, db') ->
  let p := PdfAnnotations.written_set
             (PdfAnnotations.mkSet
                (UpdateAnnotation.pageId i) (UpdateAnnotation.annotationType i)
                (UpdateAnnotation.selectionJson i) (UpdateAnnotation.comment i)
                (UpdateAnnotation.color i) (now rt)) in
  exists u existing old,
    caller context = Some u
    /\ owns db (user_id u) (UpdateAnnotation.documentId i)
    /\ In existing (annotations db)
    /\ PdfAnnotations.id existing = UpdateAnnotation.id i
    /\ PdfAnnotations.documentId existing = UpdateAnnotation.documentId i
    /\ In old (annotations db)
    /\ PdfAnnotations.id old = UpdateAnnotation.id i
    /\ data env = Some (PdfAnnotations.apply p old)
    /\ In (PdfAnnotations.apply p old) (annotations db')
    /\ annotations db'
       = map (fun r => if String.eqb (PdfAnnotations.id r) (UpdateAnnotation.id i)
                       then PdfAnnotations.apply p r else r)
             (annotations db)
    /\ documents db' = documents db
    /\ pages db' = pages db.
Proof.
  intros H p. apply updateAnnotation_Ok in H.
  destruct H as (u & doc & existing & Hc & _ & Hg & Hex & -> & Hann & Hd & Hp
                 & _).
  apply document_guard_owns in Hg as (Hdin & Hdid' & Hdu & _).
  apply first_filter_Some in Hex as [Hin Hof].
  apply annotation_of_true in Hof as [Hid Hdid].
  destruct (first_filter_In
              (col_eq PdfAnnotations.id (UpdateAnnotation.id i))
              (annotations db) existing Hin) as [old Hold].
  { now apply col_eq_true. }
  pose proof (first_filter_Some _ _ _ Hold) as [Hoin Hoid].
  exists u, existing, old. fold p in Hann |- *.
  split; [exact Hc|]. split; [exists doc; auto|].
  repeat split; auto.
  - now apply col_eq_true in Hoid.
  - simpl. now apply first_map.
  - rewrite Hann. apply in_map_iff. exists old. now rewrite Hoid.
Qed.

(** C9. After a successful [updateAnnotation] the returned row is a row of
    the table that had the given id before the call, with [id],
    [documentId], [userId] and [createdAt] as they were; [updatedAt] is the
    time of the call, and each of the five optional columns that the input
    does not supply is as it was. The same four columns are unchanged in
    every row of [PdfAnnotations]. With unique primary keys the row is the
    one of the given document. *)
Theorem updateAnnotation_keeps_identity :
  forall rt i context db env db',
    server.updateAnnotation rt i context db = (Ok env, db') ->
    exists old new,
      data env = Some new
      /\ In old (annotations db)
      /\ In new (annotations db')
      /\ PdfAnnotations.id old = UpdateAnnotation.id i
      /\ (annotation_ids_unique db ->
          PdfAnnotations.documentId old = UpdateAnnotation.documentId i)
      /\ same_identity old new
      /\ PdfAnnotations.updatedAt new = now rt
      /\ (UpdateAnnotation.pageId i = None ->
          PdfAnnotations.pageId new = PdfAnnotations.pageId old)
      /\ (UpdateAnnotation.annotationType i = None ->
          PdfAnnotations.annotationType new
          = PdfAnnotations.annotationType old)
      /\ (UpdateAnnotation.selectionJson i = None ->
          PdfAnnotations.selectionJson new = PdfAnnotations.selectionJson old)
      /\ (UpdateAnnotation.comment i = None ->
          PdfAnnotations.comment new = PdfAnnotations.comment old)
      /\ (UpdateAnnotation.color i = None ->
          PdfAnnotations.color new = PdfAnnotations.color old)
      /\ Forall2 same_identity (annotations db) (annotations db').
Proof.
  intros rt i context db env db' H.
  destruct (updateAnnotation_returns _ _ _ _ _ _ H)
    as (u & existing & old & _ & _ & Hein & Heid & Hedid & Hoin & Hoid
        & Hdata & Hnew & Hann & _ & _).
  eexists old, _. split; [exact Hdata|].
  split; [assumption|]. split; [assumption|]. split; [assumption|].
  split.
  { intros Huniq.
    rewrite <- (unique_id_row _ existing old Huniq Hein Hoin); congruence. }
  split; [repeat split|].
  split; [reflexivity|].
  simpl.
  split; [now intros ->|]. split; [now intros ->|].
  split; [now intros ->|]. split; [now intros ->|].
  split; [now intros ->|].
  rewrite Hann. apply Forall2_map_self.
  intros x. destruct (String.eqb _ _); repeat split.
Qed.

Lemma updateAnnotation_keeps_identity_witness :
  exists old new,
    In old (annotations library)
    /\ PdfAnnotations.id old = "A2"
    /\ same_identity old new
    /\ PdfAnnotations.updatedAt new = 1000%Z
    /\ PdfAnnotations.comment new = Some "hi"
    /\ PdfAnnotations.pageId new = None.
Proof.
  destruct (updateAnnotation_keeps_identity rt0
              (UpdateAnnotation.mk "A2" "D1" None None None None
                 (Some "red"))
              alice library _ _ eq_refl)
    as (old & new & _ & Hin & _ & Hid & _ & Hsame & Hup & Hpage & _ & _
        & Hcomment & _).
  exists old, new. simpl in Hid, Hpage, Hcomment, Hup.
  destruct Hin as [<- | [<- | []]]; [discriminate|].
  refine (conj _ (conj eq_refl (conj Hsame (conj Hup
            (conj (Hcomment eq_refl) (Hpage eq_refl)))))).
  simpl. auto.
Defined.

(** C5. With unique primary keys, a successful [updateAnnotation] that
    supplies only [comment] was made by a signed-in owner of the document on
    the one annotation with the given id, which belongs to the given
    document; the returned row is that annotation with a new [comment] (the
    supplied one when it holds no NUL character) and [updatedAt = now] and
    every other column, [annotationType], [selectionJson], [color] and
    [pageId] included, as before; in the table that row is replaced by the
    returned one, every other row is kept, and the other tables are
    unchanged. *)
Theorem updateAnnotation_comment_only :
  forall rt id documentId c context db env db',
    annotation_ids_unique db ->
    server.updateAnnotation rt
      (UpdateAnnotation.mk id documentId None None None (Some c) None)
      context db
    = (Ok env, db') ->
    exists u old comment,
      caller context = Some u
      /\ owns db (user_id u) documentId
      /\ In old (annotations db)
      /\ PdfAnnotations.id old = id
      /\ PdfAnnotations.documentId old = documentId
      /\ data env = Some (with_comment comment (now rt) old)
      /\ (clean c -> comment = c)
      /\ PdfAnnotations.annotationType (with_comment comment (now rt) old)
         = PdfAnnotations.annotationType old
      /\ PdfAnnotations.selectionJson (with_comment comment (now rt) old)
         = PdfAnnotations.selectionJson old
      /\ PdfAnnotations.color (with_comment comment (now rt) old)
         = PdfAnnotations.color old
      /\ PdfAnnotations.pageId (with_comment comment (now rt) old)
         = PdfAnnotations.pageId old
      /\ In (with_comment comment (now rt) old) (annotations db')
      /\ (forall r, In r (annotations db) -> r <> old ->
                    In r (annotations db'))
      /\ length (annotations db') = length (annotations db)
      /\ documents db' = documents db
      /\ pages db' = pages db.
Proof.
  intros rt id d c context db env db' Huniq H.
  destruct (updateAnnotation_returns _ _ _ _ _ _ H)
    as (u & existing & old & Hc & Ho & Hein & Heid & Hedid & Hoin & Hoid
        & Hdata & Hnew & Hann & Hdocs & Hpages).
  simpl in *.
  assert (existing = old) as ->
      by (apply (unique_id_row _ _ _ Huniq Hein Hoin); congruence).
  exists u, old, (cut c).
  split; [assumption|]. split; [assumption|]. split; [assumption|].
  split; [assumption|]. split; [assumption|]. split; [exact Hdata|].
  split; [exact (fun Hclean => Hclean)|].
  repeat (split; [reflexivity|]).
  split; [exact Hnew|].
  split; [|split; [|split]]; try assumption.
  - intros r Hr Hne. rewrite Hann. apply in_map_iff. exists r.
    split; [|assumption].
    destruct (String.eqb (PdfAnnotations.id r) id) eqn:E; [|reflexivity].
    apply String.eqb_eq in E. destruct Hne.
    apply (unique_id_row _ _ _ Huniq Hr Hoin). congruence.
  - rewrite Hann. apply length_map.
Qed.

Lemma library_ids_unique : annotation_ids_unique library.
Proof.
  unfold annotation_ids_unique. simpl.
  repeat constructor; simpl; intuition discriminate.
Qed.

Lemma updateAnnotation_comment_only_witness :
  annotation_ids_unique library
  /\ exists env db',
      server.updateAnnotation rt0
        (UpdateAnnotation.mk "A1" "D1" None None None (Some "note") None)
        alice library
      = (Ok env, db')
      /\ data env = Some (with_comment "note" 1000%Z A1)
      /\ annotations db' = [with_comment "note" 1000%Z A1; A2].
Proof.
  split; [exact library_ids_unique|].
  destruct (updateAnnotation_comment_only rt0 "A1" "D1" "note" alice library
              _ _ library_ids_unique eq_refl)
    as (u & old & comment & _ & _ & Hin & Hid & _ & Hdata & Hclean & _).
  eexists _, _. split; [reflexivity|].
  destruct Hin as [<- | [<- | []]]; [|discriminate].
  rewrite (Hclean eq_refl) in Hdata.
  split; [exact Hdata|reflexivity].
Defined.

(** ** The page check of [createAnnotation] *)

Lemma has_page_empty db :
  page_ids_nonempty db -> has_page EmptyString db = false.
Proof.
  intros H. unfold has_page.
  destruct (existsb _ (pages db)) eqn:E; [|reflexivity].
  apply existsb_exists in E as (page & Hin & Hid).
  apply String.eqb_eq in Hid. now destruct (H page Hin).
Qed.

Lemma insert_PdfAnnotations_dangling r db :
  foreign_keys db = true ->
  page_ref_ok (PdfAnnotations.pageId r) db = false ->
  exists e,
    insert_PdfAnnotations r db
    = (Throw e, record (Insert TPdfAnnotations) db).
Proof.
  intros Hfk Hp. unfold insert_PdfAnnotations. cbv zeta.
  destruct (has_annotation _ _); [eauto|].
  rewrite page_ref_ok_record, Hp, andb_false_r.
  change (foreign_keys (record (Insert TPdfAnnotations) db))
    with (foreign_keys db).
  rewrite Hfk. cbn [andb negb]. eauto.
Qed.

(** With the references enforced and no page of an empty id, a call of
    [createAnnotation] with a [pageId] either throws and leaves every row
    as it is, or has found the page among the pages of the caller's
    document. *)
Lemma createAnnotation_page_checked rt i context u db p out db' :
  caller context = Some u ->
  CreateAnnotation.schema i = true ->
  CreateAnnotation.pageId i = Some p ->
  foreign_keys db = true ->
  page_ids_nonempty db ->
  server.createAnnotation rt i context db = (out, db') ->
  (same_tables db db' /\ exists e, out = Throw e)
  \/ (page_in_document db (Some p) (CreateAnnotation.documentId i)
      /\ owns db (user_id u) (CreateAnnotation.documentId i)).
Proof.
  intros Hc Hs Hp Hfk Hne.
  rewrite createAnnotation_run, Hs, Hc, Hp. cbv zeta.
  destruct (document_guard db _ _) as [doc|e] eqn:Hg.
  - destruct (negb (String.eqb p EmptyString)) eqn:Hp0.
    + destruct (page_guard db p _) as [page|e] eqn:Hpg.
      * intros _. right. split.
        -- apply page_guard_Ok in Hpg. exists page. exact Hpg.
        -- apply document_guard_owns in Hg as (Hin & Hid & Hu & _).
           exists doc. auto.
      * intros [= <- <-]. left. split; [repeat split|eauto].
    + apply negb_false_iff, String.eqb_eq in Hp0. subst p.
      unfold bind.
      match goal with
      | |- context [insert_PdfAnnotations ?r ?d] =>
          destruct (insert_PdfAnnotations_dangling r d) as [e ->];
            [exact Hfk|exact (has_page_empty _ Hne)|]
      end.
      intros [= <- <-]. left. split; [repeat split|eauto].
  - intros [= <- <-]. left. split; [repeat split|eauto].
Qed.

(** C2. On a store that enforces the references of tables.ts and in which
    no page has the empty string as its id (the ids of [createPage] come
    from [crypto.randomUUID()]), for a signed-in caller and a supplied
    [pageId]: when the ownership check passes and the [pageId] names a page
    of another document only, [createAnnotation] throws NOT_FOUND
    "PDF page not found." and no row is changed; whenever the call changes
    the table of annotations, and whenever it succeeds, the [pageId] is the
    id of a page of the given document, which the caller owns. An empty
    [pageId], which the truthiness guard lets through unchecked, is refused
    by the store: the call throws and no row is changed. *)
Theorem createAnnotation_requires_page_of_document :
  forall rt i context u db p,
    caller context = Some u ->
    CreateAnnotation.schema i = true ->
    CreateAnnotation.pageId i = Some p ->
    foreign_keys db = true ->
    page_ids_nonempty db ->
    (forall doc db0,
        getOwnedDocument (CreateAnnotation.documentId i) (user_id u) db
        = (Ok doc, db0) ->
        (exists page, In page (pages db) /\ PdfPages.id page = p) ->
        (forall page, In page (pages db) -> PdfPages.id page = p ->
                      PdfPages.documentId page
                      <> CreateAnnotation.documentId i) ->
        exists db',
          server.createAnnotation rt i context db
          = (Throw page_not_found, db')
          /\ error_code page_not_found = NOT_FOUND
          /\ same_tables db db')
    /\ (forall out db',
        server.createAnnotation rt i context db = (out, db') ->
        annotations db' <> annotations db ->
        page_in_document db (Some p) (CreateAnnotation.documentId i)
        /\ owns db (user_id u) (CreateAnnotation.documentId i))
    /\ (forall env db',
        server.createAnnotation rt i context db = (Ok env, db') ->
        page_in_document db (Some p) (CreateAnnotation.documentId i)
        /\ owns db (user_id u) (CreateAnnotation.documentId i))
    /\ (p = EmptyString ->
        exists e db',
          server.createAnnotation rt i context db = (Throw e, db')
          /\ same_tables db db').
Proof.
  intros rt i context u db p Hc Hs Hp Hfk Hne. split; [|split; [|split]].
  - intros doc db0 Hg (page & Hin & Hid) Hother.
    apply getOwnedDocument_Ok in Hg as [Hg _].
    rewrite createAnnotation_run, Hs, Hc, Hp. cbv zeta. rewrite Hg.
    assert (Hp0 : p <> EmptyString)
      by (rewrite <- Hid; exact (Hne page Hin)).
    apply String.eqb_neq in Hp0. rewrite Hp0. cbn [negb].
    rewrite (page_guard_none _ _ _ Hother).
    eexists. split; [reflexivity|]. repeat split.
  - intros out db' Hrun Hchanged.
    destruct (createAnnotation_page_checked rt i context u db p out db'
                Hc Hs Hp Hfk Hne Hrun) as [[(_ & _ & Ha & _) _] | H];
      [now destruct Hchanged | exact H].
  - intros env db' Hrun.
    destruct (createAnnotation_page_checked rt i context u db p _ db'
                Hc Hs Hp Hfk Hne Hrun) as [[_ [e He]] | H];
      [discriminate | exact H].
  - intros Hempty.
    destruct (server.createAnnotation rt i context db) as [out db'] eqn:Hrun.
    destruct (createAnnotation_page_checked rt i context u db p out db'
                Hc Hs Hp Hfk Hne Hrun)
      as [[Hsame [e ->]] | [(page & Hin & Hid & _) _]].
    + exists e, db'. auto.
    + rewrite Hempty in Hid. now destruct (Hne page Hin).
Qed.

Lemma createAnnotation_requires_page_of_document_witness :
  foreign_keys library = true
  /\ page_ids_nonempty library
  /\ (exists db',
         server.createAnnotation rt0
           (CreateAnnotation.mk "D1" (Some "P2") None None (Some "mine") None)
           alice library
         = (Throw page_not_found, db')
         /\ same_tables library db')
  /\ page_in_document library (Some "P1") "D1".
Proof.
  assert (Hne : page_ids_nonempty library)
    by (intros page [<- | [<- | []]]; discriminate).
  pose proof (create_annotation_P2 :=
    createAnnotation_requires_page_of_document rt0
      (CreateAnnotation.mk "D1" (Some "P2") None None (Some "mine") None)
      alice (mkUser "alice") library "P2" eq_refl eq_refl eq_refl eq_refl Hne).
  pose proof (create_annotation_P1 :=
    createAnnotation_requires_page_of_document rt0
      (CreateAnnotation.mk "D1" (Some "P1") None None (Some "mine") None)
      alice (mkUser "alice") library "P1" eq_refl eq_refl eq_refl eq_refl Hne).
  destruct create_annotation_P2 as (Hrefused & _ & _ & _).
  destruct create_annotation_P1 as (_ & _ & Hfound & _).
  refine (conj eq_refl (conj Hne (conj _ _))).
  - destruct (Hrefused D1 _ eq_refl) as (db' & Hrun & _ & Hsame).
    + exists P2. simpl. auto.
    + intros page [<- | [<- | []]]; simpl; discriminate.
    + exists db'. auto.
  - exact (proj1 (Hfound _ _ eq_refl)).
Defined.
(** ** Primary keys of [PdfAnnotations] stay unique *)

Lemma preserves_ret P {A} (a : A) : preserves P (ret a).
Proof. intros db H. exact H. Qed.

Lemma preserves_throw P {A} e : preserves P (@throw A e).
Proof. intros db H. exact H. Qed.

Lemma preserves_bind P {A B} (m : M A) (k : A -> M B) :
  preserves P m -> (forall a, preserves P (k a)) -> preserves P (bind m k).
Proof.
  intros Hm Hk db H. unfold bind. specialize (Hm db H).
  destruct (m db) as [[a|e] db1]; simpl in *; [|assumption].
  now apply Hk.
Qed.

Lemma preserves_requireUser P context : preserves P (requireUser context).
Proof. intros db H. rewrite requireUser_run. now destruct (caller context). Qed.

Lemma preserves_select_from {R} t (tbl : Db -> list R) rd w :
  preserves annotation_ids_unique (select_from t tbl rd w).
Proof. intros db H. unfold select_from. now rewrite returning_db. Qed.

Lemma preserves_insert_PdfDocuments r :
  preserves annotation_ids_unique (insert_PdfDocuments r).
Proof.
  intros db H. unfold insert_PdfDocuments.
  destruct (negb _); [exact H|]. cbv zeta.
  destruct (has_document _ _); [exact H|].
  rewrite returning_db. exact H.
Qed.

Lemma preserves_insert_PdfPages r :
  preserves annotation_ids_unique (insert_PdfPages r).
Proof.
  intros db H. unfold insert_PdfPages. cbv zeta.
  destruct (has_page _ _); [exact H|].
  destruct (_ && _); [exact H|].
  rewrite returning_db. exact H.
Qed.

Lemma preserves_update_PdfDocuments p w :
  preserves annotation_ids_unique (update_PdfDocuments p w).
Proof.
  intros db H. unfold update_PdfDocuments.
  destruct (negb _); [exact H|]. cbv zeta.
  rewrite returning_db. exact H.
Qed.

Lemma NoDup_snoc {A} (l : list A) (x : A) :
  NoDup l -> ~ In x l -> NoDup (l ++ [x]).
Proof.
  induction l as [|y l IH]; simpl; intros Hnd Hx.
  - constructor; [tauto|constructor].
  - inversion Hnd as [|? ? Hy Hnd']; subst. constructor.
    + rewrite in_app_iff. simpl. intros [Hin | [-> | []]]; tauto.
    + apply IH; tauto.
Qed.

Lemma has_annotation_false i db :
  has_annotation i db = false ->
  ~ In i (map PdfAnnotations.id (annotations db)).
Proof.
  unfold has_annotation. intros H Hin.
  apply in_map_iff in Hin as (a & Hid & Ha).
  assert (existsb (fun a0 => String.eqb (PdfAnnotations.id a0) i)
                  (annotations db) = true) as E.
  { apply existsb_exists. exists a. split; [assumption|].
    now apply String.eqb_eq. }
  congruence.
Qed.

Lemma preserves_insert_PdfAnnotations r :
  preserves annotation_ids_unique (insert_PdfAnnotations r).
Proof.
  intros db H. unfold insert_PdfAnnotations. cbv zeta.
  destruct (has_annotation _ _) eqn:E; [exact H|].
  destruct (_ && _); [exact H|].
  rewrite returning_db.
  unfold annotation_ids_unique. simpl. rewrite map_app. simpl.
  apply NoDup_snoc; [exact H|].
  rewrite has_annotation_record in E. now apply has_annotation_false.
Qed.

Lemma preserves_update_PdfAnnotations p w :
  preserves annotation_ids_unique (update_PdfAnnotations p w).
Proof.
  intros db H. unfold update_PdfAnnotations. cbv zeta.
  destruct (_ && _); [exact H|].
  rewrite returning_db.
  unfold annotation_ids_unique. simpl. rewrite map_map.
  erewrite map_ext; [exact H|].
  intros a. now destruct (w a).
Qed.

Lemma NoDup_map_filter {A B} (f : A -> B) (g : A -> bool) (l : list A) :
  NoDup (map f l) -> NoDup (map f (filter g l)).
Proof.
  induction l as [|x l IH]; simpl; intros H; [constructor|].
  inversion H as [|? ? Hx Hnd]; subst.
  destruct (g x); simpl; [|auto].
  constructor; [|auto].
  intros Hin. apply Hx. apply in_map_iff in Hin as (y & Hy & Hin).
  apply filter_In in Hin as [Hin _]. rewrite <- Hy. now apply in_map.
Qed.

Lemma preserves_delete_PdfAnnotations w :
  preserves annotation_ids_unique (delete_PdfAnnotations w).
Proof.
  intros db H. unfold delete_PdfAnnotations, annotation_ids_unique. simpl.
  now apply NoDup_map_filter.
Qed.

Ltac preserve :=
  repeat first
    [ apply preserves_bind
    | apply preserves_ret
    | apply preserves_throw
    | apply preserves_requireUser
    | apply preserves_select_from
    | apply preserves_insert_PdfDocuments
    | apply preserves_insert_PdfPages
    | apply preserves_insert_PdfAnnotations
    | apply preserves_update_PdfDocuments
    | apply preserves_update_PdfAnnotations
    | apply preserves_delete_PdfAnnotations
    | match goal with
      | |- forall _, _ => intro
      | |- preserves _ (match ?x with _ => _ end) => destruct x
      end ].

Lemma preserves_getOwnedDocument d u :
  preserves annotation_ids_unique (getOwnedDocument d u).
Proof. unfold getOwnedDocument. preserve. Qed.

Lemma preserves_getOwnedPage p d u :
  preserves annotation_ids_unique (getOwnedPage p d u).
Proof.
  unfold getOwnedPage. apply preserves_bind.
  - apply preserves_getOwnedDocument.
  - preserve.
Qed.

Lemma preserves_defineAction {I O} (schema : I -> bool)
    (handler : Runtime -> I -> ActionAPIContext -> M O) rt i context :
  preserves annotation_ids_unique (handler rt i context) ->
  preserves annotation_ids_unique (defineAction schema handler rt i context).
Proof.
  intros H. unfold defineAction. destruct (schema i); [exact H|].
  apply preserves_throw.
Qed.

(** Each of the nine actions keeps the primary keys of [PdfAnnotations]
    unique, whether it succeeds or throws. *)
Lemma actions_keep_annotation_ids_unique rt context :
  (forall i, preserves annotation_ids_unique
               (server.createDocument rt i context))
  /\ (forall i, preserves annotation_ids_unique
                  (server.updateDocument rt i context))
  /\ (forall i, preserves annotation_ids_unique
                  (server.listDocuments rt i context))
  /\ (forall i, preserves annotation_ids_unique
                  (server.createPage rt i context))
  /\ (forall i, preserves annotation_ids_unique
                  (server.listPages rt i context))
  /\ (forall i, preserves annotation_ids_unique
                  (server.createAnnotation rt i context))
  /\ (forall i, preserves annotation_ids_unique
                  (server.updateAnnotation rt i context))
  /\ (forall i, preserves annotation_ids_unique
                  (server.deleteAnnotation rt i context))
  /\ (forall i, preserves annotation_ids_unique
                  (server.listAnnotations rt i context)).
Proof.
  repeat split; intros i; apply preserves_defineAction;
    repeat first
      [ apply preserves_getOwnedDocument
      | apply preserves_getOwnedPage
      | progress preserve ].
Qed.

(** * Further properties of the actions *)

(** ** Callers that are not signed in, and malformed input *)

Ltac refused Hc :=
  unfold defineAction;
  match goal with
  | |- (if ?b then _ else _) _ = _ => destruct b
  end;
  [unfold bind; rewrite requireUser_run, Hc; reflexivity | reflexivity].

(** X1. A call without a signed-in user is refused by every action before
    any statement is sent: the outcome is the input error when the schema
    rejects the input and [UNAUTHORIZED] otherwise, and the database,
    query log included, is returned as it was. *)
Theorem unauthenticated_calls_touch_nothing :
  forall rt context db,
    caller context = None ->
    (forall i, server.createDocument rt i context db
               = (Throw unauthorized, db))
    /\ (forall i, server.updateDocument rt i context db
                  = (Throw (if UpdateDocument.schema i then unauthorized
                            else ActionInputError), db))
    /\ (forall i, server.listDocuments rt i context db
                  = (Throw unauthorized, db))
    /\ (forall i, server.createPage rt i context db
                  = (Throw (if CreatePage.schema i then unauthorized
                            else ActionInputError), db))
    /\ (forall i, server.listPages rt i context db
                  = (Throw (if ListPages.schema i then unauthorized
                            else ActionInputError), db))
    /\ (forall i, server.createAnnotation rt i context db
                  = (Throw (if CreateAnnotation.schema i then unauthorized
                            else ActionInputError), db))
    /\ (forall i, server.updateAnnotation rt i context db
                  = (Throw (if UpdateAnnotation.schema i then unauthorized
                            else ActionInputError), db))
    /\ (forall i, server.deleteAnnotation rt i context db
                  = (Throw (if DeleteAnnotation.schema i then unauthorized
                            else ActionInputError), db))
    /\ (forall i, server.listAnnotations rt i context db
                  = (Throw (if ListAnnotations.schema i then unauthorized
                            else ActionInputError), db)).
Proof.
  intros rt context db Hc.
  repeat split; intros i.
  - unfold server.createDocument, defineAction, CreateDocument.schema, bind.
    rewrite requireUser_run, Hc. reflexivity.
  - unfold server.updateDocument; refused Hc.
  - unfold server.listDocuments, defineAction, bind.
    rewrite requireUser_run, Hc. reflexivity.
  - unfold server.createPage; refused Hc.
  - unfold server.listPages; refused Hc.
  - unfold server.createAnnotation; refused Hc.
  - unfold server.updateAnnotation; refused Hc.
  - unfold server.deleteAnnotation; refused Hc.
  - unfold server.listAnnotations; refused Hc.
Qed.

Lemma unauthenticated_calls_touch_nothing_witness :
  server.listDocuments rt0 tt anonymous library = (Throw unauthorized, library)
  /\ server.deleteAnnotation rt0 (DeleteAnnotation.mk "A1" "D1") anonymous
       library
     = (Throw unauthorized, library)
  /\ server.createPage rt0 (CreatePage.mk "D1" 0%Z None) anonymous library
     = (Throw ActionInputError, library).
Proof.
  destruct (unauthenticated_calls_touch_nothing rt0 anonymous library eq_refl)
    as (_ & _ & HLD & HCP & _ & _ & _ & HDA & _).
  refine (conj (HLD tt) (conj (HDA _) (HCP _))).
Defined.

(** X2. The schemas reject, before the handler runs and for any caller:
    an empty [id] or [documentId] in every action that takes one, and a
    [pageNumber] below 1 in [createPage]. The database is returned as it
    was. *)
Theorem malformed_input_is_rejected_first :
  forall rt context db,
    (forall i, UpdateDocument.id i = EmptyString ->
               server.updateDocument rt i context db
               = (Throw ActionInputError, db))
    /\ (forall i, CreatePage.documentId i = EmptyString
                  \/ (CreatePage.pageNumber i < 1)%Z ->
                  server.createPage rt i context db
                  = (Throw ActionInputError, db))
    /\ (forall i, ListPages.documentId i = EmptyString ->
                  server.listPages rt i context db
                  = (Throw ActionInputError, db))
    /\ (forall i, CreateAnnotation.documentId i = EmptyString ->
                  server.createAnnotation rt i context db
                  = (Throw ActionInputError, db))
    /\ (forall i, UpdateAnnotation.id i = EmptyString
                  \/ UpdateAnnotation.documentId i = EmptyString ->
                  server.updateAnnotation rt i context db
                  = (Throw ActionInputError, db))
    /\ (forall i, DeleteAnnotation.id i = EmptyString
                  \/ DeleteAnnotation.documentId i = EmptyString ->
                  server.deleteAnnotation rt i context db
                  = (Throw ActionInputError, db))
    /\ (forall i, ListAnnotations.documentId i = EmptyString ->
                  server.listAnnotations rt i context db
                  = (Throw ActionInputError, db)).
Proof.
  intros rt context db.
  repeat split; intros i H;
    unfold server.updateDocument, server.createPage, server.listPages,
      server.createAnnotation, server.updateAnnotation,
      server.deleteAnnotation, server.listAnnotations, defineAction,
      UpdateDocument.schema, CreatePage.schema, ListPages.schema,
      CreateAnnotation.schema, UpdateAnnotation.schema,
      DeleteAnnotation.schema, ListAnnotations.schema.
  - rewrite H. reflexivity.
  - destruct H as [-> | H]; [reflexivity|].
    apply Z.leb_gt in H. rewrite H, andb_false_r. reflexivity.
  - rewrite H. reflexivity.
  - rewrite H. reflexivity.
  - destruct H as [-> | ->]; [reflexivity|].
    simpl. rewrite andb_false_r. reflexivity.
  - destruct H as [-> | ->]; [reflexivity|].
    simpl. rewrite andb_false_r. reflexivity.
  - rewrite H. reflexivity.
Qed.

Lemma malformed_input_is_rejected_first_witness :
  server.createPage rt0 (CreatePage.mk "D1" 0%Z (Some "text")) alice library
  = (Throw ActionInputError, library)
  /\ server.deleteAnnotation rt0 (DeleteAnnotation.mk "A1" EmptyString) alice
       library
     = (Throw ActionInputError, library).
Proof.
  destruct (malformed_input_is_rejected_first rt0 alice library)
    as (_ & HCP & _ & _ & _ & HDA & _).
  split.
  - apply HCP. right. reflexivity.
  - apply HDA. right. reflexivity.
Defined.

(** ** Reads change nothing *)

Lemma same_tables_refl db : same_tables db db.
Proof. repeat split. Qed.

Lemma same_tables_trans db1 db2 db3 :
  same_tables db1 db2 -> same_tables db2 db3 -> same_tables db1 db3.
Proof.
  unfold same_tables. intros (H1 & H2 & H3 & H4) (K1 & K2 & K3 & K4).
  repeat split; congruence.
Qed.

Lemma same_tables_record q db : same_tables db (record q db).
Proof. repeat split. Qed.

Lemma read_only_ret {A} (a : A) : read_only (ret a).
Proof.
  intros db. split; [apply same_tables_refl|].
  exists []. simpl. now rewrite app_nil_r.
Qed.

Lemma read_only_throw {A} e : read_only (@throw A e).
Proof.
  intros db. split; [apply same_tables_refl|].
  exists []. simpl. now rewrite app_nil_r.
Qed.

Lemma read_only_bind {A B} (m : M A) (k : A -> M B) :
  read_only m -> (forall a, read_only (k a)) -> read_only (bind m k).
Proof.
  intros Hm Hk db. unfold bind. specialize (Hm db).
  destruct (m db) as [[a|e] db1]; simpl in *; [|assumption].
  destruct Hm as (Ht & qs & Hq & Hs).
  destruct (Hk a db1) as (Ht' & qs' & Hq' & Hs').
  split; [eapply same_tables_trans; eassumption|].
  exists (qs ++ qs'). rewrite Hq', Hq, app_assoc. split; [reflexivity|].
  rewrite forallb_app, Hs, Hs'. reflexivity.
Qed.

Lemma read_only_requireUser context : read_only (requireUser context).
Proof.
  intros db. rewrite requireUser_run.
  destruct (caller context); simpl; (split; [apply same_tables_refl|]);
    exists []; simpl; now rewrite app_nil_r.
Qed.

Lemma read_only_select_from {R} t (tbl : Db -> list R) rd w :
  read_only (select_from t tbl rd w).
Proof.
  intros db. unfold select_from. rewrite returning_db.
  split; [apply same_tables_record|].
  exists [Select t]. auto.
Qed.

Ltac reads :=
  repeat first
    [ apply read_only_bind
    | apply read_only_ret
    | apply read_only_throw
    | apply read_only_requireUser
    | apply read_only_select_from
    | match goal with
      | |- forall _, _ => intro
      | |- read_only (match ?x with _ => _ end) => destruct x
      end ].

Lemma read_only_getOwnedDocument d u : read_only (getOwnedDocument d u).
Proof. unfold getOwnedDocument. reads. Qed.

Lemma read_only_getOwnedPage p d u : read_only (getOwnedPage p d u).
Proof.
  unfold getOwnedPage. apply read_only_bind.
  - apply read_only_getOwnedDocument.
  - reads.
Qed.

Lemma read_only_defineAction {I O} (schema : I -> bool)
    (handler : Runtime -> I -> ActionAPIContext -> M O) rt i context :
  read_only (handler rt i context) ->
  read_only (defineAction schema handler rt i context).
Proof.
  intros H. unfold defineAction. destruct (schema i); [exact H|].
  apply read_only_throw.
Qed.

(** X3. The two guards and the three list actions never insert, update or
    delete: for every input, caller and database, whether they return or
    throw, the three tables afterwards are the tables before and the
    statements they sent are all selects. *)
Theorem guards_and_listings_only_read :
  forall rt context,
    (forall d u, read_only (getOwnedDocument d u))
    /\ (forall p d u, read_only (getOwnedPage p d u))
    /\ (forall i, read_only (server.listDocuments rt i context))
    /\ (forall i, read_only (server.listPages rt i context))
    /\ (forall i, read_only (server.listAnnotations rt i context)).
Proof.
  intros rt context.
  split; [exact read_only_getOwnedDocument|].
  split; [exact read_only_getOwnedPage|].
  split; [|split]; intros i; apply read_only_defineAction;
    repeat first [ apply read_only_getOwnedDocument | progress reads ].
Qed.

(** X4. For a signed-in caller whose id holds no NUL character and whose
    documents can all be read back, [listDocuments] succeeds; its items are exactly the rows of
    [PdfDocuments] whose [userId] is the caller's id, in table order, and
    [total] is their number: no document of another user is listed and none
    of the caller's is left out. *)
Theorem listDocuments_exactly_own :
  forall rt context u db,
    caller context = Some u ->
    clean (user_id u) ->
    documents_readable db (user_id u) ->
    exists env db',
      server.listDocuments rt tt context db = (Ok env, db')
      /\ success env = true
      /\ items (data env)
         = filter (fun r => String.eqb (PdfDocuments.userId r) (user_id u))
                  (documents db)
      /\ (forall r, In r (items (data env))
                    <-> In r (documents db)
                        /\ PdfDocuments.userId r = user_id u)
      /\ total (data env) = length (items (data env)).
Proof.
  intros rt context u db Hc _ Hread. rewrite listDocuments_run, Hc.
  rewrite listing_of_readable.
  - eexists _, _. split; [reflexivity|]. simpl.
    split; [reflexivity|]. split; [reflexivity|]. split; [|reflexivity].
    intros r. rewrite filter_In, col_eq_true. tauto.
  - apply forallb_filter. intros r Hin Hu. apply col_eq_true in Hu. auto.
Qed.

Lemma listDocuments_exactly_own_witness :
  exists env db',
    server.listDocuments rt0 tt bob library = (Ok env, db')
    /\ items (data env) = [D2]
    /\ total (data env) = 1.
Proof.
  destruct (listDocuments_exactly_own rt0 bob (mkUser "bob") library eq_refl
              eq_refl)
    as (env & db' & Hrun & _ & Hitems & _ & Htotal).
  - intros doc [<- | [<- | []]] _; reflexivity.
  - exists env, db'. rewrite Htotal, Hitems. auto.
Defined.

(** X5. For a signed-in caller for whom the ownership check on the
    document passes, and when the pages of the document can all be read
    back, [listPages] succeeds and its items are exactly the rows of
    [PdfPages] with the requested [documentId], in table order, with
    [total] their number. *)
Theorem listPages_exactly_the_document :
  forall rt i context u db doc db0,
    caller context = Some u ->
    ListPages.schema i = true ->
    getOwnedDocument (ListPages.documentId i) (user_id u) db = (Ok doc, db0) ->
    pages_readable db (ListPages.documentId i) ->
    exists env db',
      server.listPages rt i context db = (Ok env, db')
      /\ success env = true
      /\ items (data env)
         = filter (fun p => String.eqb (PdfPages.documentId p)
                                       (ListPages.documentId i))
                  (pages db)
      /\ (forall p, In p (items (data env))
                    <-> In p (pages db)
                        /\ PdfPages.documentId p = ListPages.documentId i)
      /\ total (data env) = length (items (data env)).
Proof.
  intros rt i context u db doc db0 Hc Hs Hg Hread.
  apply getOwnedDocument_Ok in Hg as [Hg _].
  rewrite listPages_run, Hs, Hc, Hg.
  rewrite listing_of_readable.
  - eexists _, _. split; [reflexivity|]. simpl.
    split; [reflexivity|]. split; [reflexivity|]. split; [|reflexivity].
    intros p. rewrite filter_In, col_eq_true. tauto.
  - apply forallb_filter. intros p Hin Hd. apply col_eq_true in Hd. auto.
Qed.

Lemma listPages_exactly_the_document_witness :
  exists env db',
    server.listPages rt0 (ListPages.mk "D1") alice library = (Ok env, db')
    /\ items (data env) = [P1]
    /\ total (data env) = 1.
Proof.
  destruct (listPages_exactly_the_document rt0 (ListPages.mk "D1") alice
              (mkUser "alice") library D1 _ eq_refl eq_refl eq_refl)
    as (env & db' & Hrun & _ & Hitems & _ & Htotal).
  - intros p [<- | [<- | []]] _; reflexivity.
  - exists env, db'. rewrite Htotal, Hitems. auto.
Defined.

(** ** Updating a document *)

Lemma unique_key_row {R} (key : R -> string) (l : list R) a b :
  NoDup (map key l) -> In a l -> In b l -> key a = key b -> a = b.
Proof.
  induction l as [|x l IH]; simpl; [tauto|].
  intros Hnd. inversion Hnd as [|? ? Hnotin Hnd']; subst.
  intros [-> | Ha] [-> | Hb] Hid; auto.
  - destruct Hnotin. rewrite Hid. now apply in_map.
  - destruct Hnotin. rewrite <- Hid. now apply in_map.
Qed.


Lemma updateDocument_run rt i context db :
  server.updateDocument rt i context db =
  if UpdateDocument.schema i then
    match caller context with
    | None => (Throw unauthorized, db)
    | Some u =>
        match document_guard db (UpdateDocument.id i) (user_id u) with
        | Throw e => (Throw e, record (Select TPdfDocuments) db)
        | Ok _ =>
            bind (update_PdfDocuments
                    (PdfDocuments.mkSet
                       (UpdateDocument.title i) (UpdateDocument.sourceType i)
                       (UpdateDocument.sourceUrl i)
                       (UpdateDocument.pageCount i)
                       (UpdateDocument.lastOpenedAt i) (now rt))
                    (col_eq PdfDocuments.id (UpdateDocument.id i)))
                 (fun rows => ret (mkEnvelope true (first rows)))
                 (record (Select TPdfDocuments) db)
        end
    end
  else (Throw ActionInputError, db).
Proof.
  unfold server.updateDocument, defineAction.
  destruct (UpdateDocument.schema i); [|reflexivity].
  unfold bind at 1. rewrite requireUser_run.
  destruct (caller context) as [u|]; [|reflexivity].
  unfold bind at 1. rewrite getOwnedDocument_run.
  destruct (document_guard _ _ _); reflexivity.
Qed.

Lemma written_patch rt i :
  document_patch_storable i ->
  let p := PdfDocuments.mkSet
             (UpdateDocument.title i) (UpdateDocument.sourceType i)
             (UpdateDocument.sourceUrl i) (UpdateDocument.pageCount i)
             (UpdateDocument.lastOpenedAt i) (now rt) in
  PdfDocuments.written_set p = p.
Proof.
  intros (Ht & Hs & Hu & _) p. unfold PdfDocuments.written_set, p. simpl.
  unfold clean_opt in *. now rewrite Ht, Hs, Hu.
Qed.

Lemma update_PdfDocuments_finite p w db :
  finite (PdfDocuments.set_pageCount p) = true ->
  update_PdfDocuments p w db
  = returning PdfDocuments.readable
      (map (PdfDocuments.apply (PdfDocuments.written_set p))
           (filter w (documents db)))
      (with_documents
         (map (fun r => if w r
                        then PdfDocuments.apply (PdfDocuments.written_set p) r
                        else r)
              (documents db))
         (record (Update TPdfDocuments) db)).
Proof. intros H. unfold update_PdfDocuments. now rewrite H. Qed.

(** A readable row patched with a safe number, or with none, is readable. *)
Lemma apply_readable p r :
  safe_count (PdfDocuments.set_pageCount p) ->
  PdfDocuments.readable r = true ->
  PdfDocuments.readable (PdfDocuments.apply p r) = true.
Proof.
  intros Hn Hr. unfold PdfDocuments.readable, PdfDocuments.apply. simpl.
  destruct (PdfDocuments.set_pageCount p) as [n|]; simpl; [|exact Hr].
  now apply (safe_count_readable (Some n)).
Qed.

(** X6. With unique document ids, [updateDocument] by a signed-in caller
    whose id holds no NUL character and for whom the ownership check passes, with a valid input that the store
    returns as given (no NUL character in its text, no number but a safe
    integer), succeeds on the caller's own row of the given id. The
    returned row keeps [id], [userId] and [createdAt], takes the call's
    time as [updatedAt], and in each of the five optional columns holds the
    supplied value, or the old one when the field was not supplied. In the
    table that row replaces the old one and every other document is kept;
    pages and annotations are untouched; and [listDocuments] right after
    the update contains the returned row when the caller's other documents
    can be read back. *)
Theorem updateDocument_patches_own_row :
  forall rt rt' i context u db doc db0,
    caller context = Some u ->
    clean (user_id u) ->
    UpdateDocument.schema i = true ->
    getOwnedDocument (UpdateDocument.id i) (user_id u) db = (Ok doc, db0) ->
    NoDup (map PdfDocuments.id (documents db)) ->
    document_patch_storable i ->
    exists old new env db',
      server.updateDocument rt i context db = (Ok env, db')
      /\ data env = Some new
      /\ In old (documents db)
      /\ PdfDocuments.id old = UpdateDocument.id i
      /\ PdfDocuments.userId old = user_id u
      /\ new = PdfDocuments.mk (PdfDocuments.id old) (PdfDocuments.userId old)
                 (keep (UpdateDocument.title i) (PdfDocuments.title old))
                 (keep (UpdateDocument.sourceType i)
                       (PdfDocuments.sourceType old))
                 (keep (UpdateDocument.sourceUrl i)
                       (PdfDocuments.sourceUrl old))
                 (keep (UpdateDocument.pageCount i)
                       (PdfDocuments.pageCount old))
                 (keep (UpdateDocument.lastOpenedAt i)
                       (PdfDocuments.lastOpenedAt old))
                 (PdfDocuments.createdAt old) (now rt)
      /\ In new (documents db')
      /\ (forall r, In r (documents db) -> r <> old -> In r (documents db'))
      /\ length (documents db') = length (documents db)
      /\ pages db' = pages db
      /\ annotations db' = annotations db
      /\ (documents_readable db (user_id u) ->
          exists env2 db2,
            server.listDocuments rt' tt context db' = (Ok env2, db2)
            /\ In new (items (data env2))).
Proof.
  intros rt rt' i context u db doc db0 Hc _ Hs Hg Huniq Hst.
  apply getOwnedDocument_Ok in Hg as [Hg _].
  rewrite updateDocument_run, Hs, Hc, Hg.
  destruct (document_guard_owns _ _ _ _ Hg) as (Hin & Hid & Hu & Hrd).
  pose proof (written_patch rt i Hst) as Hw0. cbv zeta in Hw0.
  unfold bind.
  rewrite update_PdfDocuments_finite
    by exact (safe_count_finite _ (proj2 (proj2 (proj2 Hst)))).
  rewrite Hw0, documents_record.
  set (p := PdfDocuments.mkSet _ _ _ _ _ _).
  set (w := col_eq PdfDocuments.id (UpdateDocument.id i)).
  assert (Hw : w doc = true) by now apply col_eq_true.
  assert (Hrows : filter w (documents db) = [doc]).
  { clear - Huniq Hin Hw. unfold w in *.
    induction (documents db) as [|x l IH]; [destruct Hin|].
    simpl in Huniq. inversion Huniq as [|? ? Hx Hnd]; subst.
    simpl. destruct Hin as [-> | Hin].
    - rewrite Hw. f_equal. apply filter_nil. intros y Hy.
      destruct (col_eq PdfDocuments.id (UpdateDocument.id i) y) eqn:E;
        [|reflexivity].
      apply col_eq_true in E. apply col_eq_true in Hw.
      destruct Hx. rewrite Hw, <- E. now apply in_map.
    - destruct (col_eq PdfDocuments.id (UpdateDocument.id i) x) eqn:E.
      + apply col_eq_true in E. apply col_eq_true in Hw.
        destruct Hx. rewrite E, <- Hw. now apply in_map.
      + now apply IH. }
  rewrite Hrows. cbn [map].
  assert (Hsafe : safe_count (PdfDocuments.set_pageCount p))
    by exact (proj2 (proj2 (proj2 Hst))).
  rewrite returning_readable
    by (cbn [forallb]; now rewrite (apply_readable p doc Hsafe Hrd)).
  assert (Hnew : In (PdfDocuments.apply p doc)
                    (map (fun r => if w r then PdfDocuments.apply p r else r)
                         (documents db))).
  { apply in_map_iff. exists doc. now rewrite Hw. }
  exists doc, (PdfDocuments.apply p doc). eexists _, _.
  split; [reflexivity|].
  split; [reflexivity|].
  split; [exact Hin|]. split; [exact Hid|]. split; [exact Hu|].
  split; [reflexivity|].
  split; [exact Hnew|].
  split.
  { intros r Hr Hne. apply in_map_iff. exists r. split; [|assumption].
    destruct (w r) eqn:E; [|reflexivity].
    apply col_eq_true in E. destruct Hne.
    apply (unique_key_row PdfDocuments.id (documents db)); congruence. }
  split; [apply length_map|].
  split; [reflexivity|]. split; [reflexivity|].
  intros Hread.
  rewrite listDocuments_run, Hc.
  rewrite listing_of_readable.
  - eexists _, _. split; [reflexivity|]. simpl.
    apply filter_In. split; [assumption|].
    apply col_eq_true. simpl. assumption.
  - apply forallb_filter. intros r Hr Hru. apply col_eq_true in Hru.
    simpl in Hr. apply in_map_iff in Hr as (r0 & <- & Hr0).
    destruct (w r0).
    + apply (apply_readable p r0 Hsafe). apply Hread; [exact Hr0|exact Hru].
    + now apply Hread.
Qed.

Lemma updateDocument_patches_own_row_witness :
  exists env db',
    server.updateDocument rt0
      (UpdateDocument.mk "D1" None (Some "upload") None None None)
      alice library
    = (Ok env, db')
    /\ data env
       = Some (PdfDocuments.mk "D1" "alice" (Some "Thesis") (Some "upload")
                 None (Some (Integer 12)) None 1%Z 1000%Z).
Proof.
  destruct (updateDocument_patches_own_row rt0 rt0
              (UpdateDocument.mk "D1" None (Some "upload") None None None)
              alice (mkUser "alice") library D1 _ eq_refl eq_refl eq_refl
              eq_refl)
    as (old & new & env & db' & Hrun & Hdata & Hin & Hid & _ & Hnew & _).
  - simpl. repeat constructor; simpl; intuition discriminate.
  - exact (conj eq_refl (conj eq_refl (conj eq_refl I))).
  - exists env, db'. split; [exact Hrun|]. rewrite Hdata, Hnew.
    destruct Hin as [<- | [<- | []]]; [reflexivity|discriminate].
Defined.

(** ** A call that throws has changed no row, the driver's error apart *)

Lemma all_or_nothing_read_only {A} (m : M A) :
  read_only m -> all_or_nothing m.
Proof.
  intros H db e db' Hrun _. destruct (H db) as [Ht _].
  rewrite Hrun in Ht. exact Ht.
Qed.

Lemma all_or_nothing_bind_read {A B} (m : M A) (k : A -> M B) :
  read_only m -> (forall a, all_or_nothing (k a)) ->
  all_or_nothing (bind m k).
Proof.
  intros Hm Hk db e db'. unfold bind.
  destruct (Hm db) as [Ht _].
  destruct (m db) as [[a|e1] db1]; simpl in Ht.
  - intros Hrun Hne. eapply same_tables_trans; [exact Ht|].
    eapply Hk; eassumption.
  - intros [= _ <-] _. exact Ht.
Qed.

Lemma all_or_nothing_bind_ret {A B} (m : M A) (f : A -> B) :
  all_or_nothing m -> all_or_nothing (bind m (fun a => ret (f a))).
Proof.
  intros Hm db e db'. unfold bind, ret.
  destruct (m db) as [[a|e1] db1] eqn:Hrun; [discriminate|].
  intros [= <- <-] Hne. eapply Hm; eassumption.
Qed.

Lemma all_or_nothing_throw {A} e : all_or_nothing (@throw A e).
Proof. apply all_or_nothing_read_only, read_only_throw. Qed.

Lemma all_or_nothing_ret {A} (a : A) : all_or_nothing (ret a).
Proof. apply all_or_nothing_read_only, read_only_ret. Qed.

Ltac range_error :=
  let Hrun := fresh "Hrun" in
  let Hne := fresh "Hne" in
  intros Hrun Hne;
  first [ apply returning_Throw in Hrun as [-> _]
        | injection Hrun as <- _ ];
  now destruct Hne.

Lemma all_or_nothing_insert_PdfDocuments r :
  all_or_nothing (insert_PdfDocuments r).
Proof.
  intros db e db'. unfold insert_PdfDocuments.
  destruct (negb _); [range_error|]. cbv zeta.
  destruct (has_document _ _); [|range_error].
  intros [= _ <-] _. apply same_tables_record.
Qed.

Lemma all_or_nothing_insert_PdfPages r : all_or_nothing (insert_PdfPages r).
Proof.
  intros db e db'. unfold insert_PdfPages. cbv zeta.
  destruct (has_page _ _); [intros [= _ <-] _; apply same_tables_record|].
  destruct (_ && _); [|range_error].
  intros [= _ <-] _. apply same_tables_record.
Qed.

Lemma all_or_nothing_insert_PdfAnnotations r :
  all_or_nothing (insert_PdfAnnotations r).
Proof.
  intros db e db'. unfold insert_PdfAnnotations. cbv zeta.
  destruct (has_annotation _ _);
    [intros [= _ <-] _; apply same_tables_record|].
  destruct (_ && _); [|range_error].
  intros [= _ <-] _. apply same_tables_record.
Qed.

Lemma all_or_nothing_update_PdfDocuments p w :
  all_or_nothing (update_PdfDocuments p w).
Proof.
  intros db e db'. unfold update_PdfDocuments.
  destruct (negb _); range_error.
Qed.

Lemma all_or_nothing_update_PdfAnnotations p w :
  all_or_nothing (update_PdfAnnotations p w).
Proof.
  intros db e db'. unfold update_PdfAnnotations. cbv zeta.
  destruct (_ && _); [|range_error].
  intros [= _ <-] _. apply same_tables_record.
Qed.

(** The delete followed by the check of [rowsAffected]: the throw happens
    only when the delete removed nothing. *)
Lemma all_or_nothing_delete_then_check w :
  all_or_nothing
    (bind (delete_PdfAnnotations w)
          (fun result =>
             if Nat.eqb (rowsAffected result) 0
             then throw (ActionError NOT_FOUND "Annotation not found.")
             else ret (mkEnvelope true tt))).
Proof.
  intros db e db'. unfold bind, delete_PdfAnnotations. cbv zeta. simpl.
  destruct (Nat.eqb _ 0) eqn:E; [|discriminate].
  apply Nat.eqb_eq in E. unfold throw. intros [= _ <-] _.
  unfold same_tables. simpl. rewrite (filter_none_length _ _ E).
  repeat split.
Qed.

Lemma all_or_nothing_defineAction {I O} (schema : I -> bool)
    (handler : Runtime -> I -> ActionAPIContext -> M O) rt i context :
  all_or_nothing (handler rt i context) ->
  all_or_nothing (defineAction schema handler rt i context).
Proof.
  intros H. unfold defineAction. destruct (schema i); [exact H|].
  apply all_or_nothing_throw.
Qed.

Ltac only_reads :=
  solve [ repeat first
            [ apply read_only_getOwnedDocument
            | apply read_only_getOwnedPage
            | progress reads ] ].

Ltac atomically :=
  repeat first
    [ apply all_or_nothing_bind_read; [only_reads|intro]
    | apply all_or_nothing_delete_then_check
    | apply all_or_nothing_bind_ret
    | apply all_or_nothing_throw
    | apply all_or_nothing_ret
    | apply all_or_nothing_insert_PdfDocuments
    | apply all_or_nothing_insert_PdfPages
    | apply all_or_nothing_insert_PdfAnnotations
    | apply all_or_nothing_update_PdfDocuments
    | apply all_or_nothing_update_PdfAnnotations
    | match goal with
      | |- all_or_nothing (match ?x with _ => _ end) => destruct x
      end ].

(** X7. No action fails halfway, the driver's error apart: whenever one of
    the nine actions throws for its input, the sign-in, the ownership, a
    missing row or a constraint of the store, the three tables are exactly
    as they were before the call. (The [RangeError] of the driver is the
    exception: it can follow a write.) *)
Theorem failed_calls_change_no_row :
  forall rt context,
    (forall i, all_or_nothing (server.createDocument rt i context))
    /\ (forall i, all_or_nothing (server.updateDocument rt i context))
    /\ (forall i, all_or_nothing (server.listDocuments rt i context))
    /\ (forall i, all_or_nothing (server.createPage rt i context))
    /\ (forall i, all_or_nothing (server.listPages rt i context))
    /\ (forall i, all_or_nothing (server.createAnnotation rt i context))
    /\ (forall i, all_or_nothing (server.updateAnnotation rt i context))
    /\ (forall i, all_or_nothing (server.deleteAnnotation rt i context))
    /\ (forall i, all_or_nothing (server.listAnnotations rt i context)).
Proof.
  intros rt context.
  split; [|split; [|split; [|split; [|split; [|split; [|split; [|split]]]]]]];
    intros i; apply all_or_nothing_defineAction; cbv zeta; atomically.
Qed.

Lemma failed_calls_change_no_row_witness :
  server.deleteAnnotation rt0 (DeleteAnnotation.mk "A9" "D1") alice library
  = (Throw annotation_not_found,
     mkDb [D1; D2] [P1; P2] [A1; A2] true
       [Select TPdfDocuments; Delete TPdfAnnotations])
  /\ same_tables library
       (mkDb [D1; D2] [P1; P2] [A1; A2] true
          [Select TPdfDocuments; Delete TPdfAnnotations]).
Proof.
  destruct (failed_calls_change_no_row rt0 alice)
    as (_ & _ & _ & _ & _ & _ & _ & HDA & _).
  split; [reflexivity|].
  apply (HDA (DeleteAnnotation.mk "A9" "D1") library annotation_not_found);
    [reflexivity|discriminate].
Defined.

(** ** Which action can change which table *)

Lemma stable_ret {T A} (proj : Db -> T) (a : A) : stable proj (ret a).
Proof. intros db. reflexivity. Qed.

Lemma stable_throw {T A} (proj : Db -> T) e : stable proj (@throw A e).
Proof. intros db. reflexivity. Qed.

Lemma stable_bind {T A B} (proj : Db -> T) (m : M A) (k : A -> M B) :
  stable proj m -> (forall a, stable proj (k a)) -> stable proj (bind m k).
Proof.
  intros Hm Hk db. unfold bind. specialize (Hm db).
  destruct (m db) as [[a|e] db1]; simpl in *; [|assumption].
  now rewrite Hk.
Qed.

Lemma stable_requireUser {T} (proj : Db -> T) context :
  stable proj (requireUser context).
Proof. intros db. rewrite requireUser_run. now destruct (caller context). Qed.

Lemma stable_read_only_documents {A} (m : M A) :
  read_only m -> stable documents m.
Proof. intros H db. now destruct (H db) as [(Hd & _) _]. Qed.

Lemma stable_read_only_pages {A} (m : M A) : read_only m -> stable pages m.
Proof. intros H db. now destruct (H db) as [(_ & Hp & _) _]. Qed.

Lemma stable_read_only_annotations {A} (m : M A) :
  read_only m -> stable annotations m.
Proof. intros H db. now destruct (H db) as [(_ & _ & Ha & _) _]. Qed.

Lemma stable_read_only_foreign_keys {A} (m : M A) :
  read_only m -> stable foreign_keys m.
Proof. intros H db. now destruct (H db) as [(_ & _ & _ & Hf) _]. Qed.

Ltac untouched :=
  intros db;
  unfold insert_PdfDocuments, insert_PdfPages, insert_PdfAnnotations,
    update_PdfDocuments, update_PdfAnnotations, delete_PdfAnnotations,
    returning;
  cbv zeta;
  repeat match goal with
         | |- context [if ?b then _ else _] => destruct b
         end;
  reflexivity.

Lemma insert_PdfDocuments_pages r : stable pages (insert_PdfDocuments r).
Proof. untouched. Qed.

Lemma insert_PdfDocuments_annotations r :
  stable annotations (insert_PdfDocuments r).
Proof. untouched. Qed.

Lemma update_PdfDocuments_pages p w : stable pages (update_PdfDocuments p w).
Proof. untouched. Qed.

Lemma update_PdfDocuments_annotations p w :
  stable annotations (update_PdfDocuments p w).
Proof. untouched. Qed.

Lemma insert_PdfPages_documents r : stable documents (insert_PdfPages r).
Proof. untouched. Qed.

Lemma insert_PdfPages_annotations r : stable annotations (insert_PdfPages r).
Proof. untouched. Qed.

Lemma insert_PdfAnnotations_documents r :
  stable documents (insert_PdfAnnotations r).
Proof. untouched. Qed.

Lemma insert_PdfAnnotations_pages r : stable pages (insert_PdfAnnotations r).
Proof. untouched. Qed.

Lemma update_PdfAnnotations_documents p w :
  stable documents (update_PdfAnnotations p w).
Proof. untouched. Qed.

Lemma update_PdfAnnotations_pages p w :
  stable pages (update_PdfAnnotations p w).
Proof. untouched. Qed.

Lemma delete_PdfAnnotations_documents w :
  stable documents (delete_PdfAnnotations w).
Proof. untouched. Qed.

Lemma delete_PdfAnnotations_pages w : stable pages (delete_PdfAnnotations w).
Proof. untouched. Qed.

(** No statement changes the enforcement switch of the connection. *)
Lemma insert_PdfDocuments_foreign_keys r :
  stable foreign_keys (insert_PdfDocuments r).
Proof. untouched. Qed.

Lemma update_PdfDocuments_foreign_keys p w :
  stable foreign_keys (update_PdfDocuments p w).
Proof. untouched. Qed.

Lemma insert_PdfPages_foreign_keys r :
  stable foreign_keys (insert_PdfPages r).
Proof. untouched. Qed.

Lemma insert_PdfAnnotations_foreign_keys r :
  stable foreign_keys (insert_PdfAnnotations r).
Proof. untouched. Qed.

Lemma update_PdfAnnotations_foreign_keys p w :
  stable foreign_keys (update_PdfAnnotations p w).
Proof. untouched. Qed.

Lemma delete_PdfAnnotations_foreign_keys w :
  stable foreign_keys (delete_PdfAnnotations w).
Proof. untouched. Qed.

Create HintDb untouched.

#[local] Hint Resolve
  insert_PdfDocuments_pages insert_PdfDocuments_annotations
  update_PdfDocuments_pages update_PdfDocuments_annotations
  insert_PdfPages_documents insert_PdfPages_annotations
  insert_PdfAnnotations_documents insert_PdfAnnotations_pages
  update_PdfAnnotations_documents update_PdfAnnotations_pages
  delete_PdfAnnotations_documents delete_PdfAnnotations_pages
  insert_PdfDocuments_foreign_keys update_PdfDocuments_foreign_keys
  insert_PdfPages_foreign_keys insert_PdfAnnotations_foreign_keys
  update_PdfAnnotations_foreign_keys delete_PdfAnnotations_foreign_keys
  : untouched.

Lemma stable_defineAction {T I O} (proj : Db -> T) (schema : I -> bool)
    (handler : Runtime -> I -> ActionAPIContext -> M O) rt i context :
  stable proj (handler rt i context) ->
  stable proj (defineAction schema handler rt i context).
Proof.
  intros H. unfold defineAction. destruct (schema i); [exact H|].
  apply stable_throw.
Qed.

Ltac stays :=
  repeat first
    [ apply stable_bind
    | apply stable_ret
    | apply stable_throw
    | apply stable_requireUser
    | apply stable_read_only_documents; only_reads
    | apply stable_read_only_pages; only_reads
    | apply stable_read_only_annotations; only_reads
    | apply stable_read_only_foreign_keys; only_reads
    | solve [auto with untouched]
    | match goal with
      | |- forall _, _ => intro
      | |- stable _ (match ?x with _ => _ end) => destruct x
      end ].

(** X8. The document actions never change a page or an annotation,
    [createPage] never changes a document or an annotation, and the three
    annotation actions, [deleteAnnotation] included, never change a
    document or a page: for every input, caller, database and outcome the
    other tables afterwards are the tables before (nothing cascades). *)
Theorem actions_change_only_their_table :
  forall rt context db,
    (forall i,
        pages (snd (server.createDocument rt i context db)) = pages db
        /\ annotations (snd (server.createDocument rt i context db))
           = annotations db)
    /\ (forall i,
        pages (snd (server.updateDocument rt i context db)) = pages db
        /\ annotations (snd (server.updateDocument rt i context db))
           = annotations db)
    /\ (forall i,
        documents (snd (server.createPage rt i context db)) = documents db
        /\ annotations (snd (server.createPage rt i context db))
           = annotations db)
    /\ (forall i,
        documents (snd (server.createAnnotation rt i context db))
        = documents db
        /\ pages (snd (server.createAnnotation rt i context db)) = pages db)
    /\ (forall i,
        documents (snd (server.updateAnnotation rt i context db))
        = documents db
        /\ pages (snd (server.updateAnnotation rt i context db)) = pages db)
    /\ (forall i,
        documents (snd (server.deleteAnnotation rt i context db))
        = documents db
        /\ pages (snd (server.deleteAnnotation rt i context db)) = pages db).
Proof.
  intros rt context db.
  split; [|split; [|split; [|split; [|split]]]]; intros i; split;
    match goal with
    | |- ?proj (snd (?m db)) = _ => revert db; change (stable proj m)
    end;
    apply stable_defineAction; cbv zeta; stays.
Qed.

(** ** Primary keys stay unique in every table *)

Lemma preserves_stable {T A} (proj : Db -> T) (Q : T -> Prop) (m : M A) :
  stable proj m -> preserves (fun db => Q (proj db)) m.
Proof. intros H db HQ. now rewrite H. Qed.


Lemma has_document_false i db :
  has_document i db = false ->
  ~ In i (map PdfDocuments.id (documents db)).
Proof.
  unfold has_document. intros H Hin.
  apply in_map_iff in Hin as (d & Hid & Hd).
  assert (existsb (fun d0 => String.eqb (PdfDocuments.id d0) i)
                  (documents db) = true) as E.
  { apply existsb_exists. exists d. split; [assumption|].
    now apply String.eqb_eq. }
  congruence.
Qed.







Ltac other_table proj Q :=
  apply (preserves_stable proj Q);
  apply stable_defineAction; cbv zeta; stays.





Lemma library_keys_unique : keys_unique library.
Proof.
  unfold keys_unique. simpl.
  repeat split; repeat constructor; simpl; intuition discriminate.
Qed.


(** ** What a call can have written *)

Lemma snd_bind_ret {A B} (m : M A) (f : A -> B) db :
  snd (bind m (fun a => ret (f a)) db) = snd (m db).
Proof. unfold bind, ret. now destruct (m db) as [[a|e] db1]. Qed.

Lemma insert_PdfDocuments_effect r db :
  let db1 := snd (insert_PdfDocuments r db) in
  same_tables db db1
  \/ (has_document (PdfDocuments.id r) db = false
      /\ documents db1 = documents db ++ [PdfDocuments.written r]
      /\ pages db1 = pages db
      /\ annotations db1 = annotations db).
Proof.
  unfold insert_PdfDocuments.
  destruct (negb _); [left; apply same_tables_refl|]. cbv zeta.
  rewrite has_document_record.
  destruct (has_document _ db) eqn:E; [left; apply same_tables_record|].
  rewrite returning_db. right. repeat split.
Qed.

Lemma update_PdfDocuments_effect p w db :
  let db1 := snd (update_PdfDocuments p w db) in
  same_tables db db1
  \/ (documents db1
      = map (fun r => if w r
                      then PdfDocuments.apply (PdfDocuments.written_set p) r
                      else r)
            (documents db)
      /\ pages db1 = pages db
      /\ annotations db1 = annotations db).
Proof.
  unfold update_PdfDocuments.
  destruct (negb _); [left; apply same_tables_refl|]. cbv zeta.
  rewrite returning_db. right. repeat split.
Qed.

Lemma insert_PdfPages_effect r db :
  let db1 := snd (insert_PdfPages r db) in
  same_tables db db1
  \/ (has_page (PdfPages.id r) db = false
      /\ pages db1 = pages db ++ [PdfPages.written r]
      /\ documents db1 = documents db
      /\ annotations db1 = annotations db).
Proof.
  unfold insert_PdfPages. cbv zeta. rewrite has_page_record.
  destruct (has_page _ db) eqn:E; [left; apply same_tables_record|].
  destruct (_ && _); [left; apply same_tables_record|].
  rewrite returning_db. right. repeat split.
Qed.

Lemma insert_PdfAnnotations_effect r db :
  let db1 := snd (insert_PdfAnnotations r db) in
  same_tables db db1
  \/ (has_annotation (PdfAnnotations.id r) db = false
      /\ annotations db1 = annotations db ++ [PdfAnnotations.written r]
      /\ documents db1 = documents db
      /\ pages db1 = pages db).
Proof.
  unfold insert_PdfAnnotations. cbv zeta. rewrite has_annotation_record.
  destruct (has_annotation _ db) eqn:E; [left; apply same_tables_record|].
  destruct (_ && _); [left; apply same_tables_record|].
  rewrite returning_db. right. repeat split.
Qed.

Lemma update_PdfAnnotations_effect p w db :
  let db1 := snd (update_PdfAnnotations p w db) in
  same_tables db db1
  \/ (annotations db1
      = map (fun r => if w r
                      then PdfAnnotations.apply
                             (PdfAnnotations.written_set p) r
                      else r)
            (annotations db)
      /\ documents db1 = documents db
      /\ pages db1 = pages db).
Proof.
  unfold update_PdfAnnotations. cbv zeta.
  destruct (_ && _); [left; apply same_tables_record|].
  rewrite returning_db. right. repeat split.
Qed.

(** The effect of each writing action, whatever its outcome: either no row
    has changed, or the one write of the action has been made, after its
    guards have passed. *)
Lemma createDocument_effect rt i context db :
  let db1 := snd (server.createDocument rt i context db) in
  same_tables db db1
  \/ exists u,
      caller context = Some u
      /\ has_document (randomUUID rt) db = false
      /\ documents db1
         = documents db
           ++ [PdfDocuments.written
                 (PdfDocuments.mk (randomUUID rt) (user_id u)
                    (CreateDocument.title i) (CreateDocument.sourceType i)
                    (CreateDocument.sourceUrl i) (CreateDocument.pageCount i)
                    (CreateDocument.lastOpenedAt i) (now rt) (now rt))]
      /\ pages db1 = pages db
      /\ annotations db1 = annotations db.
Proof.
  rewrite createDocument_run.
  destruct (caller context) as [u|]; [|left; apply same_tables_refl].
  cbv zeta. rewrite snd_bind_ret.
  match goal with
  | |- context [insert_PdfDocuments ?r db] =>
      destruct (insert_PdfDocuments_effect r db) as [H | H]
  end; [now left|].
  right. exists u. split; [reflexivity|exact H].
Qed.

Lemma updateDocument_effect rt i context db :
  let db1 := snd (server.updateDocument rt i context db) in
  same_tables db db1
  \/ exists u doc,
      caller context = Some u
      /\ document_guard db (UpdateDocument.id i) (user_id u) = Ok doc
      /\ documents db1
         = map (fun r =>
                  if col_eq PdfDocuments.id (UpdateDocument.id i) r
                  then PdfDocuments.apply
                         (PdfDocuments.written_set
                            (PdfDocuments.mkSet
                               (UpdateDocument.title i)
                               (UpdateDocument.sourceType i)
                               (UpdateDocument.sourceUrl i)
                               (UpdateDocument.pageCount i)
                               (UpdateDocument.lastOpenedAt i) (now rt))) r
                  else r)
               (documents db)
      /\ pages db1 = pages db
      /\ annotations db1 = annotations db.
Proof.
  rewrite updateDocument_run.
  destruct (UpdateDocument.schema i); [|left; apply same_tables_refl].
  destruct (caller context) as [u|]; [|left; apply same_tables_refl].
  destruct (document_guard db _ _) as [doc|e] eqn:Hg;
    [|left; apply same_tables_record].
  cbv zeta. rewrite snd_bind_ret.
  match goal with
  | |- context [update_PdfDocuments ?p ?w ?d] =>
      destruct (update_PdfDocuments_effect p w d) as [H | H]
  end; [left; exact H|].
  right. exists u, doc. split; [reflexivity|]. split; [exact Hg|exact H].
Qed.

Lemma createPage_effect rt i context db :
  let db1 := snd (server.createPage rt i context db) in
  same_tables db db1
  \/ exists u doc,
      caller context = Some u
      /\ document_guard db (CreatePage.documentId i) (user_id u) = Ok doc
      /\ has_page (randomUUID rt) db = false
      /\ pages db1
         = pages db
           ++ [PdfPages.written
                 (PdfPages.mk (randomUUID rt) (CreatePage.documentId i)
                    (CreatePage.pageNumber i) (CreatePage.textContent i)
                    (now rt))]
      /\ documents db1 = documents db
      /\ annotations db1 = annotations db.
Proof.
  rewrite createPage_run.
  destruct (CreatePage.schema i); [|left; apply same_tables_refl].
  destruct (caller context) as [u|]; [|left; apply same_tables_refl].
  destruct (document_guard db _ _) as [doc|e] eqn:Hg;
    [|left; apply same_tables_record].
  cbv zeta. rewrite snd_bind_ret.
  match goal with
  | |- context [insert_PdfPages ?r ?d] =>
      destruct (insert_PdfPages_effect r d) as [H | H]
  end; [left; exact H|].
  right. exists u, doc. split; [reflexivity|]. split; [exact Hg|exact H].
Qed.

Lemma createAnnotation_effect rt i context db :
  let db1 := snd (server.createAnnotation rt i context db) in
  same_tables db db1
  \/ exists u doc,
      caller context = Some u
      /\ document_guard db (CreateAnnotation.documentId i) (user_id u) = Ok doc
      /\ (forall p, CreateAnnotation.pageId i = Some p ->
                    p <> EmptyString ->
                    exists page, In page (pages db)
                                 /\ PdfPages.id page = p
                                 /\ PdfPages.documentId page
                                    = CreateAnnotation.documentId i)
      /\ has_annotation (randomUUID rt) db = false
      /\ annotations db1
         = annotations db
           ++ [PdfAnnotations.written
                 (PdfAnnotations.mk (randomUUID rt)
                    (CreateAnnotation.documentId i)
                    (CreateAnnotation.pageId i) (user_id u)
                    (CreateAnnotation.annotationType i)
                    (CreateAnnotation.selectionJson i)
                    (CreateAnnotation.comment i)
                    (CreateAnnotation.color i) (now rt) (now rt))]
      /\ documents db1 = documents db
      /\ pages db1 = pages db.
Proof.
  rewrite createAnnotation_run.
  destruct (CreateAnnotation.schema i); [|left; apply same_tables_refl].
  destruct (caller context) as [u|]; [|left; apply same_tables_refl].
  cbv zeta.
  destruct (document_guard db _ _) as [doc|e] eqn:Hg;
    [|left; apply same_tables_record].
  assert (Hins : forall db0,
             same_tables db db0 ->
             (forall p, CreateAnnotation.pageId i = Some p ->
                        p <> EmptyString ->
                        exists page, In page (pages db)
                                     /\ PdfPages.id page = p
                                     /\ PdfPages.documentId page
                                        = CreateAnnotation.documentId i) ->
             let db1 :=
               snd (bind (insert_PdfAnnotations
                            (PdfAnnotations.mk (randomUUID rt)
                               (CreateAnnotation.documentId i)
                               (CreateAnnotation.pageId i) (user_id u)
                               (CreateAnnotation.annotationType i)
                               (CreateAnnotation.selectionJson i)
                               (CreateAnnotation.comment i)
                               (CreateAnnotation.color i) (now rt) (now rt)))
                         (fun rows => ret (mkEnvelope true (first rows)))
                         db0) in
             same_tables db db1
             \/ ((forall p, CreateAnnotation.pageId i = Some p ->
                               p <> EmptyString ->
                               exists page, In page (pages db)
                                            /\ PdfPages.id page = p
                                            /\ PdfPages.documentId page
                                               = CreateAnnotation.documentId i)
                 /\ has_annotation (randomUUID rt) db = false
                 /\ annotations db1
                    = annotations db
                      ++ [PdfAnnotations.written
                            (PdfAnnotations.mk (randomUUID rt)
                               (CreateAnnotation.documentId i)
                               (CreateAnnotation.pageId i) (user_id u)
                               (CreateAnnotation.annotationType i)
                               (CreateAnnotation.selectionJson i)
                               (CreateAnnotation.comment i)
                               (CreateAnnotation.color i) (now rt) (now rt))]
                 /\ documents db1 = documents db
                 /\ pages db1 = pages db)).
  { intros db0 (Hd & Hp & Ha & Hf) Hpage. cbv zeta. rewrite snd_bind_ret.
    match goal with
    | |- context [insert_PdfAnnotations ?r db0] =>
        destruct (insert_PdfAnnotations_effect r db0)
          as [H | (Hfresh & Hann & Hdocs & Hpages)]
    end.
    - left. eapply same_tables_trans; [|exact H]. repeat split; assumption.
    - right. split; [exact Hpage|].
      unfold has_annotation in *. rewrite Ha in Hfresh, Hann.
      rewrite Hd in Hdocs. rewrite Hp in Hpages.
      split; [exact Hfresh|]. split; [exact Hann|]. split; assumption. }
  assert (Hend : forall db1,
             same_tables db db1
             \/ ((forall p, CreateAnnotation.pageId i = Some p ->
                            p <> EmptyString ->
                            exists page, In page (pages db)
                                         /\ PdfPages.id page = p
                                         /\ PdfPages.documentId page
                                            = CreateAnnotation.documentId i)
                 /\ has_annotation (randomUUID rt) db = false
                 /\ annotations db1
                    = annotations db
                      ++ [PdfAnnotations.written
                            (PdfAnnotations.mk (randomUUID rt)
                               (CreateAnnotation.documentId i)
                               (CreateAnnotation.pageId i) (user_id u)
                               (CreateAnnotation.annotationType i)
                               (CreateAnnotation.selectionJson i)
                               (CreateAnnotation.comment i)
                               (CreateAnnotation.color i) (now rt) (now rt))]
                 /\ documents db1 = documents db
                 /\ pages db1 = pages db) ->
             same_tables db db1
             \/ exists u0 doc0,
                 Some u = Some u0
                 /\ document_guard db (CreateAnnotation.documentId i)
                                   (user_id u0) = Ok doc0
                 /\ (forall p, CreateAnnotation.pageId i = Some p ->
                               p <> EmptyString ->
                               exists page, In page (pages db)
                                            /\ PdfPages.id page = p
                                            /\ PdfPages.documentId page
                                               = CreateAnnotation.documentId i)
                 /\ has_annotation (randomUUID rt) db = false
                 /\ annotations db1
                    = annotations db
                      ++ [PdfAnnotations.written
                            (PdfAnnotations.mk (randomUUID rt)
                               (CreateAnnotation.documentId i)
                               (CreateAnnotation.pageId i) (user_id u0)
                               (CreateAnnotation.annotationType i)
                               (CreateAnnotation.selectionJson i)
                               (CreateAnnotation.comment i)
                               (CreateAnnotation.color i) (now rt) (now rt))]
                 /\ documents db1 = documents db
                 /\ pages db1 = pages db).
  { intros db1 [H | H]; [now left|]. right. exists u, doc.
    split; [reflexivity|]. split; [exact Hg|exact H]. }
  destruct (CreateAnnotation.pageId i) as [p|] eqn:Hp.
  - destruct (negb (String.eqb p EmptyString)) eqn:Hp0.
    + destruct (page_guard db p _) as [page|e] eqn:Hpg.
      * apply Hend, Hins; [repeat split|].
        intros q [= <-] _. apply page_guard_Ok in Hpg. eauto.
      * left. repeat split.
    + apply Hend, Hins; [repeat split|].
      intros q [= <-] Hne. apply negb_false_iff, String.eqb_eq in Hp0.
      contradiction.
  - apply Hend, Hins; [repeat split|]. intros q [=].
Qed.

Lemma updateAnnotation_effect rt i context db :
  let db1 := snd (server.updateAnnotation rt i context db) in
  same_tables db db1
  \/ exists u doc existing,
      caller context = Some u
      /\ document_guard db (UpdateAnnotation.documentId i) (user_id u) = Ok doc
      /\ In existing (annotations db)
      /\ PdfAnnotations.id existing = UpdateAnnotation.id i
      /\ PdfAnnotations.documentId existing = UpdateAnnotation.documentId i
      /\ (forall p, UpdateAnnotation.pageId i = Some p ->
                    exists page, In page (pages db)
                                 /\ PdfPages.id page = p
                                 /\ PdfPages.documentId page
                                    = UpdateAnnotation.documentId i)
      /\ annotations db1
         = map (fun r =>
                  if String.eqb (PdfAnnotations.id r) (UpdateAnnotation.id i)
                  then PdfAnnotations.apply
                         (PdfAnnotations.written_set
                            (PdfAnnotations.mkSet
                               (UpdateAnnotation.pageId i)
                               (UpdateAnnotation.annotationType i)
                               (UpdateAnnotation.selectionJson i)
                               (UpdateAnnotation.comment i)
                               (UpdateAnnotation.color i) (now rt))) r
                  else r)
               (annotations db)
      /\ documents db1 = documents db
      /\ pages db1 = pages db.
Proof.
  rewrite updateAnnotation_run.
  destruct (UpdateAnnotation.schema i); [|left; apply same_tables_refl].
  destruct (caller context) as [u|]; [|left; apply same_tables_refl].
  cbv zeta.
  destruct (document_guard db _ _) as [doc|e] eqn:Hg;
    [|left; apply same_tables_record].
  assert (Hfin : forall db0,
             same_tables db db0 ->
             (forall p, UpdateAnnotation.pageId i = Some p ->
                        exists page, In page (pages db)
                                     /\ PdfPages.id page = p
                                     /\ PdfPages.documentId page
                                        = UpdateAnnotation.documentId i) ->
             let db1 :=
               snd match first (filter (annotation_of (UpdateAnnotation.id i)
                                          (UpdateAnnotation.documentId i))
                                  (annotations db)) with
                   | None =>
                       (@Throw (Envelope (option PdfAnnotations.row))
                          annotation_not_found,
                        record (Select TPdfAnnotations) db0)
                   | Some _ =>
                       bind (update_PdfAnnotations
                               (PdfAnnotations.mkSet
                                  (UpdateAnnotation.pageId i)
                                  (UpdateAnnotation.annotationType i)
                                  (UpdateAnnotation.selectionJson i)
                                  (UpdateAnnotation.comment i)
                                  (UpdateAnnotation.color i) (now rt))
                               (col_eq PdfAnnotations.id (UpdateAnnotation.id i)))
                            (fun rows => ret (mkEnvelope true (first rows)))
                            (record (Select TPdfAnnotations) db0)
                   end in
             same_tables db db1
             \/ exists existing,
                 In existing (annotations db)
                 /\ PdfAnnotations.id existing = UpdateAnnotation.id i
                 /\ PdfAnnotations.documentId existing
                    = UpdateAnnotation.documentId i
                 /\ (forall p, UpdateAnnotation.pageId i = Some p ->
                               exists page, In page (pages db)
                                            /\ PdfPages.id page = p
                                            /\ PdfPages.documentId page
                                               = UpdateAnnotation.documentId i)
                 /\ annotations db1
                    = map (fun r =>
                             if String.eqb (PdfAnnotations.id r)
                                           (UpdateAnnotation.id i)
                             then PdfAnnotations.apply
                                    (PdfAnnotations.written_set
                                       (PdfAnnotations.mkSet
                                          (UpdateAnnotation.pageId i)
                                          (UpdateAnnotation.annotationType i)
                                          (UpdateAnnotation.selectionJson i)
                                          (UpdateAnnotation.comment i)
                                          (UpdateAnnotation.color i)
                                          (now rt))) r
                             else r)
                          (annotations db)
                 /\ documents db1 = documents db
                 /\ pages db1 = pages db).
  { intros db0 (Hd & Hp & Ha & Hf) Hpage. cbv zeta.
    destruct (first (filter (annotation_of _ _) (annotations db)))
      as [existing|] eqn:Hex; [|left; repeat split; assumption].
    apply first_filter_Some in Hex as [Hin Hof].
    apply annotation_of_true in Hof as [Hid Hdid].
    rewrite snd_bind_ret.
    match goal with
    | |- context [update_PdfAnnotations ?p ?w ?d] =>
        destruct (update_PdfAnnotations_effect p w d)
          as [H | (Hann & Hdocs & Hpages)]
    end.
    - left. eapply same_tables_trans; [|exact H]. repeat split; assumption.
    - right. exists existing.
      rewrite annotations_record, Ha in Hann.
      rewrite documents_record, Hd in Hdocs.
      rewrite pages_record, Hp in Hpages.
      split; [exact Hin|]. split; [exact Hid|]. split; [exact Hdid|].
      split; [exact Hpage|]. split; [exact Hann|].
      split; [exact Hdocs|exact Hpages]. }
  destruct (UpdateAnnotation.pageId i) as [p|] eqn:Hp.
  - destruct (page_guard db p _) as [page|e] eqn:Hpg;
      [|left; repeat split].
    destruct (Hfin (record (Select TPdfPages)
                      (record (Select TPdfDocuments)
                         (record (Select TPdfDocuments) db))))
      as [H | (existing & H)].
    + repeat split.
    + intros q [= <-]. apply page_guard_Ok in Hpg. eauto.
    + now left.
    + right. exists u, doc, existing.
      split; [reflexivity|]. split; [exact Hg|]. exact H.
  - destruct (Hfin (record (Select TPdfDocuments) db))
      as [H | (existing & H)].
    + repeat split.
    + intros q [=].
    + now left.
    + right. exists u, doc, existing.
      split; [reflexivity|]. split; [exact Hg|]. exact H.
Qed.

Lemma deleteAnnotation_effect rt i context db :
  let db1 := snd (server.deleteAnnotation rt i context db) in
  same_tables db db1
  \/ exists u doc,
      caller context = Some u
      /\ document_guard db (DeleteAnnotation.documentId i) (user_id u) = Ok doc
      /\ annotations db1
         = filter (fun a => negb (annotation_of (DeleteAnnotation.id i)
                                    (DeleteAnnotation.documentId i) a))
                  (annotations db)
      /\ documents db1 = documents db
      /\ pages db1 = pages db.
Proof.
  rewrite deleteAnnotation_run.
  destruct (DeleteAnnotation.schema i); [|left; apply same_tables_refl].
  destruct (caller context) as [u|]; [|left; apply same_tables_refl].
  destruct (document_guard db _ _) as [doc|e] eqn:Hg;
    [|left; apply same_tables_record].
  right. exists u, doc. split; [reflexivity|]. split; [exact Hg|].
  repeat split.
Qed.

(** ** The assumptions on the store are kept

    The page check of [createAnnotation] was stated for a connection that
    enforces the references and a table of pages without an empty id. No
    action changes the switch, and with ids from [crypto.randomUUID()],
    which are never empty, no action adds a page of an empty id. *)

Lemma actions_keep_foreign_keys rt context :
  (forall i, stable foreign_keys (server.createDocument rt i context))
  /\ (forall i, stable foreign_keys (server.updateDocument rt i context))
  /\ (forall i, stable foreign_keys (server.listDocuments rt i context))
  /\ (forall i, stable foreign_keys (server.createPage rt i context))
  /\ (forall i, stable foreign_keys (server.listPages rt i context))
  /\ (forall i, stable foreign_keys (server.createAnnotation rt i context))
  /\ (forall i, stable foreign_keys (server.updateAnnotation rt i context))
  /\ (forall i, stable foreign_keys (server.deleteAnnotation rt i context))
  /\ (forall i, stable foreign_keys (server.listAnnotations rt i context)).
Proof.
  split; [|split; [|split; [|split; [|split; [|split; [|split; [|split]]]]]]];
    intros i; apply stable_defineAction; cbv zeta; stays.
Qed.

Lemma actions_keep_page_ids_nonempty rt context :
  randomUUID rt <> EmptyString ->
  (forall i, preserves page_ids_nonempty (server.createDocument rt i context))
  /\ (forall i, preserves page_ids_nonempty
                  (server.updateDocument rt i context))
  /\ (forall i, preserves page_ids_nonempty
                  (server.listDocuments rt i context))
  /\ (forall i, preserves page_ids_nonempty (server.createPage rt i context))
  /\ (forall i, preserves page_ids_nonempty (server.listPages rt i context))
  /\ (forall i, preserves page_ids_nonempty
                  (server.createAnnotation rt i context))
  /\ (forall i, preserves page_ids_nonempty
                  (server.updateAnnotation rt i context))
  /\ (forall i, preserves page_ids_nonempty
                  (server.deleteAnnotation rt i context))
  /\ (forall i, preserves page_ids_nonempty
                  (server.listAnnotations rt i context)).
Proof.
  intros Hne.
  split; [|split; [|split; [|split; [|split; [|split; [|split; [|split]]]]]]];
    intros i;
    try solve [other_table pages
                 (fun l => forall p, In p l -> PdfPages.id p <> EmptyString)].
  intros db Hok.
  destruct (createPage_effect rt i context db)
    as [(_ & Hp & _) | (u & doc & _ & _ & _ & Hpages & _)];
    unfold page_ids_nonempty.
  - rewrite Hp. exact Hok.
  - rewrite Hpages. intros p Hin.
    apply in_app_or in Hin as [Hin | [<- | []]]; [now apply Hok|exact Hne].
Qed.

(** ** References between the tables *)

Lemma has_document_In i db :
  has_document i db = true <-> In i (map PdfDocuments.id (documents db)).
Proof.
  unfold has_document. rewrite existsb_exists, in_map_iff.
  split; intros (d & H1 & H2).
  - apply String.eqb_eq in H2. eauto.
  - exists d. split; [assumption|]. now apply String.eqb_eq.
Qed.

Lemma references_ok_same db db' :
  documents db' = documents db ->
  pages db' = pages db ->
  annotations db' = annotations db ->
  references_ok db -> references_ok db'.
Proof.
  intros Hd Hp Ha ((H1 & H2) & H3 & H4).
  unfold references_ok, document_refs_ok, page_refs_in_document,
    annotation_ids_unique, has_document in *.
  rewrite Hd, Hp, Ha. auto.
Qed.

Lemma references_ok_same_tables db db' :
  same_tables db db' -> references_ok db -> references_ok db'.
Proof. intros (Hd & Hp & Ha & _). now apply references_ok_same. Qed.

Lemma references_ok_documents db db' :
  (forall d, In d (map PdfDocuments.id (documents db)) ->
             In d (map PdfDocuments.id (documents db'))) ->
  pages db' = pages db ->
  annotations db' = annotations db ->
  references_ok db -> references_ok db'.
Proof.
  intros Hd Hp Ha ((H1 & H2) & H3 & H4).
  split; [split|split].
  - rewrite Hp. intros p Hin. apply has_document_In, Hd, has_document_In.
    auto.
  - rewrite Ha. intros a Hin. apply has_document_In, Hd, has_document_In.
    auto.
  - unfold page_refs_in_document in *. rewrite Hp, Ha. exact H3.
  - unfold annotation_ids_unique in *. rewrite Ha. exact H4.
Qed.

Lemma references_ok_read_only {A} (m : M A) :
  read_only m -> preserves references_ok m.
Proof.
  intros H db Hok. destruct (H db) as [(Hd & Hp & Ha & _) _].
  now apply (references_ok_same db).
Qed.

Lemma references_ok_createDocument rt i context :
  preserves references_ok (server.createDocument rt i context).
Proof.
  intros db Hok.
  destruct (createDocument_effect rt i context db)
    as [H | (u & _ & _ & Hdocs & Hp & Ha)].
  - now apply (references_ok_same_tables db).
  - apply (references_ok_documents db); [|exact Hp|exact Ha|exact Hok].
    intros d Hd. rewrite Hdocs, map_app. apply in_or_app. now left.
Qed.

Lemma references_ok_updateDocument rt i context :
  preserves references_ok (server.updateDocument rt i context).
Proof.
  intros db Hok.
  destruct (updateDocument_effect rt i context db)
    as [H | (u & doc & _ & _ & Hdocs & Hp & Ha)].
  - now apply (references_ok_same_tables db).
  - apply (references_ok_documents db); [|exact Hp|exact Ha|exact Hok].
    intros d Hd. rewrite Hdocs, map_map.
    erewrite map_ext; [exact Hd|].
    intros x. now destruct (col_eq _ _ x).
Qed.

Lemma references_ok_createPage rt i context :
  preserves references_ok (server.createPage rt i context).
Proof.
  intros db Hok.
  destruct (createPage_effect rt i context db)
    as [H | (u & doc & _ & Hg & _ & Hpages & Hdocs & Hann)].
  - now apply (references_ok_same_tables db).
  - destruct Hok as ((H1 & H2) & H3 & H4).
    split; [split|split].
    + rewrite Hpages. intros p Hin. apply has_document_In. rewrite Hdocs.
      apply has_document_In. apply in_app_or in Hin as [Hin | [<- | []]].
      * auto.
      * simpl. now apply (document_guard_has_document db _ (user_id u) doc).
    + rewrite Hann. intros a Hin. apply has_document_In. rewrite Hdocs.
      apply has_document_In. auto.
    + unfold page_refs_in_document. rewrite Hann, Hpages.
      intros a p Hin Hp Hne.
      destruct (H3 a p Hin Hp Hne) as (page & Hpin & Hrest).
      exists page. split; [|exact Hrest]. apply in_or_app. now left.
    + unfold annotation_ids_unique. rewrite Hann. exact H4.
Qed.

Lemma references_ok_createAnnotation rt i context :
  preserves references_ok (server.createAnnotation rt i context).
Proof.
  intros db Hok.
  destruct (actions_keep_annotation_ids_unique rt context)
    as (_ & _ & _ & _ & _ & Huniq & _).
  specialize (Huniq i db).
  destruct (createAnnotation_effect rt i context db)
    as [H | (u & doc & _ & Hg & Hpage & _ & Hann & Hdocs & Hpages)].
  - now apply (references_ok_same_tables db).
  - destruct Hok as ((H1 & H2) & H3 & H4).
    split; [split|split].
    + rewrite Hpages. intros p Hin. apply has_document_In. rewrite Hdocs.
      apply has_document_In. auto.
    + rewrite Hann. intros a Hin. apply has_document_In. rewrite Hdocs.
      apply has_document_In. apply in_app_or in Hin as [Hin | [<- | []]].
      * auto.
      * simpl. now apply (document_guard_has_document db _ (user_id u) doc).
    + unfold page_refs_in_document. rewrite Hann, Hpages.
      intros a p Hin Hp Hne. apply in_app_or in Hin as [Hin | [<- | []]].
      * now apply H3.
      * simpl in Hp |- *. now apply (Hpage p).
    + now apply Huniq.
Qed.

Lemma references_ok_updateAnnotation rt i context :
  preserves references_ok (server.updateAnnotation rt i context).
Proof.
  intros db Hok.
  destruct (actions_keep_annotation_ids_unique rt context)
    as (_ & _ & _ & _ & _ & _ & Huniq & _).
  specialize (Huniq i db).
  destruct (updateAnnotation_effect rt i context db)
    as [H | (u & doc & existing & _ & Hg & Hein & Heid & Hedid & Hpage
             & Hann & Hdocs & Hpages)].
  - now apply (references_ok_same_tables db).
  - destruct Hok as ((H1 & H2) & H3 & H4).
    split; [split|split].
    + rewrite Hpages. intros p Hin. apply has_document_In. rewrite Hdocs.
      apply has_document_In. auto.
    + rewrite Hann. intros a Hin. apply has_document_In. rewrite Hdocs.
      apply has_document_In.
      apply in_map_iff in Hin as (r & <- & Hr).
      destruct (String.eqb _ _); simpl; auto.
    + unfold page_refs_in_document. rewrite Hann, Hpages.
      intros a p Hin Hp Hne.
      apply in_map_iff in Hin as (r & <- & Hr).
      destruct (String.eqb (PdfAnnotations.id r) (UpdateAnnotation.id i))
        eqn:E; [|now apply H3].
      apply String.eqb_eq in E.
      assert (r = existing) as ->
          by (apply (unique_id_row _ _ _ H4 Hr Hein); congruence).
      simpl in Hp |- *.
      destruct (UpdateAnnotation.pageId i) as [q|] eqn:Hq; simpl in Hp.
      * injection Hp as ->. rewrite Hedid. now apply (Hpage p).
      * now apply H3.
    + now apply Huniq.
Qed.

Lemma references_ok_deleteAnnotation rt i context :
  preserves references_ok (server.deleteAnnotation rt i context).
Proof.
  intros db Hok.
  destruct (deleteAnnotation_effect rt i context db)
    as [H | (u & doc & _ & _ & Hann & Hdocs & Hpages)].
  - now apply (references_ok_same_tables db).
  - destruct Hok as ((H1 & H2) & H3 & H4).
    split; [split|split].
    + rewrite Hpages. intros p Hin. apply has_document_In. rewrite Hdocs.
      apply has_document_In. auto.
    + rewrite Hann. intros a Hin. apply filter_In in Hin as [Hin _].
      apply has_document_In. rewrite Hdocs. apply has_document_In. auto.
    + unfold page_refs_in_document. rewrite Hann, Hpages.
      intros a p Hin. apply filter_In in Hin as [Hin _]. now apply H3.
    + unfold annotation_ids_unique. rewrite Hann. now apply NoDup_map_filter.
Qed.

(** X10. The references between the tables are an invariant of the
    access layer. It holds in the empty database, and if before a call of
    any of the nine actions every page and every annotation names an
    existing document, every non-empty [pageId] of an annotation names a
    page of that annotation's own document, and annotation ids are unique,
    then the same holds afterwards, whatever the input, the caller and the
    outcome. *)
Theorem references_stay_valid :
  references_ok empty_db
  /\ forall rt context,
      (forall i, preserves references_ok (server.createDocument rt i context))
      /\ (forall i, preserves references_ok
                      (server.updateDocument rt i context))
      /\ (forall i, preserves references_ok
                      (server.listDocuments rt i context))
      /\ (forall i, preserves references_ok (server.createPage rt i context))
      /\ (forall i, preserves references_ok (server.listPages rt i context))
      /\ (forall i, preserves references_ok
                      (server.createAnnotation rt i context))
      /\ (forall i, preserves references_ok
                      (server.updateAnnotation rt i context))
      /\ (forall i, preserves references_ok
                      (server.deleteAnnotation rt i context))
      /\ (forall i, preserves references_ok
                      (server.listAnnotations rt i context)).
Proof.
  split.
  { split; [split|split].
    - intros p [].
    - intros a [].
    - intros a p [].
    - constructor. }
  intros rt context.
  split; [intros i; apply references_ok_createDocument|].
  split; [intros i; apply references_ok_updateDocument|].
  split.
  { intros i. apply references_ok_read_only, read_only_defineAction.
    only_reads. }
  split; [intros i; apply references_ok_createPage|].
  split.
  { intros i. apply references_ok_read_only, read_only_defineAction.
    only_reads. }
  split; [intros i; apply references_ok_createAnnotation|].
  split; [intros i; apply references_ok_updateAnnotation|].
  split; [intros i; apply references_ok_deleteAnnotation|].
  intros i. apply references_ok_read_only, read_only_defineAction.
  only_reads.
Qed.

Lemma library_references_ok : references_ok library.
Proof.
  split; [split|split].
  - intros p [<- | [<- | []]]; reflexivity.
  - intros a [<- | [<- | []]]; reflexivity.
  - intros a p [<- | [<- | []]] Hp Hne; simpl in Hp; [|discriminate].
    injection Hp as <-. exists P1. simpl. auto.
  - exact library_ids_unique.
Qed.

Lemma references_stay_valid_witness :
  references_ok library
  /\ references_ok
       (snd (server.createAnnotation rt0
               (CreateAnnotation.mk "D1" (Some "P1") None None None None)
               alice library))
  /\ references_ok
       (snd (server.updateAnnotation rt0
               (UpdateAnnotation.mk "A2" "D1" (Some "P1") None None None None)
               alice library)).
Proof.
  destruct references_stay_valid as [_ H].
  destruct (H rt0 alice) as (_ & _ & _ & _ & _ & HCA & HUA & _).
  split; [exact library_references_ok|]. split.
  - apply HCA. exact library_references_ok.
  - apply HUA. exact library_references_ok.
Defined.

(** ** A caller cannot touch what belongs to somebody else *)

Lemma leaves_others_alone_same u db db' :
  documents db' = documents db ->
  pages db' = pages db ->
  annotations db' = annotations db ->
  leaves_others_alone u db db'.
Proof.
  intros Hd Hp Ha. unfold leaves_others_alone. rewrite Hd, Hp, Ha. auto.
Qed.

Lemma leaves_others_alone_same_tables u db db' :
  same_tables db db' -> leaves_others_alone u db db'.
Proof. intros (Hd & Hp & Ha & _). now apply leaves_others_alone_same. Qed.

Lemma leaves_others_alone_read_only {A} (m : M A) u db :
  read_only m -> leaves_others_alone u db (snd (m db)).
Proof.
  intros H. destruct (H db) as [(Hd & Hp & Ha & _) _].
  now apply leaves_others_alone_same.
Qed.

Lemma createDocument_leaves_others rt i context u db :
  leaves_others_alone u db (snd (server.createDocument rt i context db)).
Proof.
  destruct (createDocument_effect rt i context db)
    as [H | (v & _ & _ & Hdocs & Hp & Ha)].
  - now apply leaves_others_alone_same_tables.
  - unfold leaves_others_alone. rewrite Hdocs, Hp, Ha.
    repeat split; auto.
    intros d Hin _. apply in_or_app. now left.
Qed.

Lemma updateDocument_leaves_others rt i context u db :
  caller context = Some u ->
  NoDup (map PdfDocuments.id (documents db)) ->
  leaves_others_alone (user_id u) db
    (snd (server.updateDocument rt i context db)).
Proof.
  intros Hc Huniq.
  destruct (updateDocument_effect rt i context db)
    as [H | (v & doc & Hv & Hg & Hdocs & Hp & Ha)].
  - now apply leaves_others_alone_same_tables.
  - assert (v = u) as -> by congruence.
    apply document_guard_owns in Hg as (Hdin & Hid & Hu & _).
    unfold leaves_others_alone. rewrite Hdocs, Hp, Ha.
    repeat split; auto.
    intros d Hin Hne. apply in_map_iff. exists d. split; [|assumption].
    destruct (col_eq PdfDocuments.id (UpdateDocument.id i) d) eqn:E;
      [|reflexivity].
    apply col_eq_true in E.
    assert (Hsame : d = doc)
      by (apply (unique_key_row PdfDocuments.id (documents db)); congruence).
    rewrite Hsame in Hne. contradiction.
Qed.

Lemma createPage_leaves_others rt i context u db :
  leaves_others_alone u db (snd (server.createPage rt i context db)).
Proof.
  destruct (createPage_effect rt i context db)
    as [H | (v & doc & _ & _ & _ & Hpages & Hdocs & Hann)].
  - now apply leaves_others_alone_same_tables.
  - unfold leaves_others_alone. rewrite Hdocs, Hann, Hpages.
    repeat split; auto.
    intros p Hin. apply in_or_app. now left.
Qed.

Lemma createAnnotation_leaves_others rt i context u db :
  leaves_others_alone u db (snd (server.createAnnotation rt i context db)).
Proof.
  destruct (createAnnotation_effect rt i context db)
    as [H | (v & doc & _ & _ & _ & _ & Hann & Hdocs & Hpages)].
  - now apply leaves_others_alone_same_tables.
  - unfold leaves_others_alone. rewrite Hdocs, Hpages, Hann.
    repeat split; auto.
    intros a Hin _. apply in_or_app. now left.
Qed.

Lemma updateAnnotation_leaves_others rt i context u db :
  caller context = Some u ->
  annotation_ids_unique db ->
  leaves_others_alone (user_id u) db
    (snd (server.updateAnnotation rt i context db)).
Proof.
  intros Hc Huniq.
  destruct (updateAnnotation_effect rt i context db)
    as [H | (v & doc & existing & Hv & Hg & Hein & Heid & Hedid & _
             & Hann & Hdocs & Hpages)].
  - now apply leaves_others_alone_same_tables.
  - assert (v = u) as -> by congruence.
    apply document_guard_owns in Hg as (Hdin & Hid & Hu & _).
    unfold leaves_others_alone. rewrite Hdocs, Hpages, Hann.
    repeat split; auto.
    intros a Hin Hnot. apply in_map_iff. exists a. split; [|assumption].
    destruct (String.eqb (PdfAnnotations.id a) (UpdateAnnotation.id i))
      eqn:E; [|reflexivity].
    apply String.eqb_eq in E.
    assert (Hsame : a = existing)
      by (apply (unique_id_row _ _ _ Huniq Hin Hein); congruence).
    destruct Hnot. rewrite Hsame, Hedid. exists doc. auto.
Qed.

Lemma deleteAnnotation_leaves_others rt i context u db :
  caller context = Some u ->
  leaves_others_alone (user_id u) db
    (snd (server.deleteAnnotation rt i context db)).
Proof.
  intros Hc.
  destruct (deleteAnnotation_effect rt i context db)
    as [H | (v & doc & Hv & Hg & Hann & Hdocs & Hpages)].
  - now apply leaves_others_alone_same_tables.
  - assert (v = u) as -> by congruence.
    apply document_guard_owns in Hg as (Hdin & Hid & Hu & _).
    unfold leaves_others_alone. rewrite Hdocs, Hpages, Hann.
    repeat split; auto.
    intros a Hin Hnot. apply filter_In. split; [assumption|].
    destruct (annotation_of _ _ a) eqn:E; [|reflexivity].
    apply annotation_of_true in E as [_ Hd].
    destruct Hnot. rewrite Hd. exists doc. auto.
Qed.

(** X11. A signed-in caller cannot change or remove what belongs to
    somebody else. With unique primary keys, after any of the nine actions,
    with any input and any outcome, every document of another user, every
    annotation of a document the caller does not own, and every page are
    still rows of their tables, exactly as they were. *)
Theorem callers_cannot_touch_foreign_rows :
  forall rt context u db,
    caller context = Some u ->
    keys_unique db ->
    (forall i, leaves_others_alone (user_id u) db
                 (snd (server.createDocument rt i context db)))
    /\ (forall i, leaves_others_alone (user_id u) db
                    (snd (server.updateDocument rt i context db)))
    /\ (forall i, leaves_others_alone (user_id u) db
                    (snd (server.listDocuments rt i context db)))
    /\ (forall i, leaves_others_alone (user_id u) db
                    (snd (server.createPage rt i context db)))
    /\ (forall i, leaves_others_alone (user_id u) db
                    (snd (server.listPages rt i context db)))
    /\ (forall i, leaves_others_alone (user_id u) db
                    (snd (server.createAnnotation rt i context db)))
    /\ (forall i, leaves_others_alone (user_id u) db
                    (snd (server.updateAnnotation rt i context db)))
    /\ (forall i, leaves_others_alone (user_id u) db
                    (snd (server.deleteAnnotation rt i context db)))
    /\ (forall i, leaves_others_alone (user_id u) db
                    (snd (server.listAnnotations rt i context db))).
Proof.
  intros rt context u db Hc (Hdu & Hpu & Hau).
  split; [intros i; apply createDocument_leaves_others|].
  split; [intros i; now apply updateDocument_leaves_others|].
  split.
  { intros i. apply leaves_others_alone_read_only, read_only_defineAction.
    only_reads. }
  split; [intros i; apply createPage_leaves_others|].
  split.
  { intros i. apply leaves_others_alone_read_only, read_only_defineAction.
    only_reads. }
  split; [intros i; apply createAnnotation_leaves_others|].
  split; [intros i; now apply updateAnnotation_leaves_others|].
  split; [intros i; now apply deleteAnnotation_leaves_others|].
  intros i. apply leaves_others_alone_read_only, read_only_defineAction.
  only_reads.
Qed.

Lemma callers_cannot_touch_foreign_rows_witness :
  keys_unique library
  /\ leaves_others_alone "bob" library
       (snd (server.updateDocument rt0
               (UpdateDocument.mk "D1" (Some "Stolen") None None None None)
               bob library))
  /\ leaves_others_alone "bob" library
       (snd (server.deleteAnnotation rt0 (DeleteAnnotation.mk "A2" "D1")
               bob library)).
Proof.
  destruct (callers_cannot_touch_foreign_rows rt0 bob (mkUser "bob") library
              eq_refl library_keys_unique)
    as (_ & HUD & _ & _ & _ & _ & _ & HDA & _).
  split; [exact library_keys_unique|]. split.
  - apply HUD.
  - apply HDA.
Defined.

(** ** [updateAnnotation]: refusals and success *)

Lemma page_check_guard db p d u doc :
  page_check_passes db (Some p) d u ->
  document_guard db d u = Ok doc ->
  exists page, page_guard db p d = Ok page.
Proof.
  intros (page & db' & H) Hg. rewrite getOwnedPage_run, Hg in H.
  injection H as H _. eauto.
Qed.

Lemma updateAnnotation_prefix rt i context u db doc :
  caller context = Some u ->
  UpdateAnnotation.schema i = true ->
  document_guard db (UpdateAnnotation.documentId i) (user_id u) = Ok doc ->
  page_check_passes db (UpdateAnnotation.pageId i)
                    (UpdateAnnotation.documentId i) (user_id u) ->
  exists db0,
    same_tables db db0
    /\ server.updateAnnotation rt i context db
       = match first (filter (annotation_of (UpdateAnnotation.id i)
                                            (UpdateAnnotation.documentId i))
                             (annotations db)) with
         | None => (Throw annotation_not_found,
                    record (Select TPdfAnnotations) db0)
         | Some _ =>
             bind (update_PdfAnnotations
                     (PdfAnnotations.mkSet
                        (UpdateAnnotation.pageId i)
                        (UpdateAnnotation.annotationType i)
                        (UpdateAnnotation.selectionJson i)
                        (UpdateAnnotation.comment i)
                        (UpdateAnnotation.color i) (now rt))
                     (col_eq PdfAnnotations.id (UpdateAnnotation.id i)))
                  (fun rows => ret (mkEnvelope true (first rows)))
                  (record (Select TPdfAnnotations) db0)
         end.
Proof.
  intros Hc Hs Hg Hp.
  rewrite updateAnnotation_run, Hs, Hc. cbv zeta. rewrite Hg.
  destruct (UpdateAnnotation.pageId i) as [p|].
  - destruct (page_check_guard _ _ _ _ _ Hp Hg) as [page ->].
    eexists. split; [|reflexivity]. repeat split.
  - eexists. split; [|reflexivity]. repeat split.
Qed.

Lemma documents_with_annotations l db :
  documents (with_annotations l db) = documents db.
Proof. reflexivity. Qed.

Lemma filter_map_length {A} (f : A -> bool) (g : A -> A) (l : list A) :
  (forall x, f (g x) = f x) ->
  length (filter f (map g l)) = length (filter f l).
Proof.
  intros H. induction l as [|x l IH]; simpl; [reflexivity|].
  rewrite H. destruct (f x); simpl; now rewrite IH.
Qed.

(** X12. The two refusals of [updateAnnotation] for a signed-in caller
    for whom the ownership check on the document passes. A supplied
    [pageId] that is not the id of a page of that document throws
    "PDF page not found.", even when the annotation exists. When the page
    check passes, an [id] that names no annotation of that document throws
    "Annotation not found.", also when an annotation of that id exists in
    another document. In both cases no row is changed. *)
Theorem updateAnnotation_refuses_foreign_page_and_annotation :
  forall rt i context u db doc db0,
    caller context = Some u ->
    UpdateAnnotation.schema i = true ->
    getOwnedDocument (UpdateAnnotation.documentId i) (user_id u) db
    = (Ok doc, db0) ->
    (forall p,
        UpdateAnnotation.pageId i = Some p ->
        (forall page, In page (pages db) -> PdfPages.id page = p ->
                      PdfPages.documentId page
                      <> UpdateAnnotation.documentId i) ->
        exists db',
          server.updateAnnotation rt i context db
          = (Throw page_not_found, db')
          /\ same_tables db db')
    /\ (page_check_passes db (UpdateAnnotation.pageId i)
                          (UpdateAnnotation.documentId i) (user_id u) ->
        (forall a, In a (annotations db) ->
                   PdfAnnotations.id a = UpdateAnnotation.id i ->
                   PdfAnnotations.documentId a
                   <> UpdateAnnotation.documentId i) ->
        exists db',
          server.updateAnnotation rt i context db
          = (Throw annotation_not_found, db')
          /\ same_tables db db').
Proof.
  intros rt i context u db doc db0 Hc Hs Hg.
  apply getOwnedDocument_Ok in Hg as [Hg _]. split.
  - intros p Hp Hpages.
    rewrite updateAnnotation_run, Hs, Hc. cbv zeta. rewrite Hg, Hp.
    rewrite (page_guard_none _ _ _ Hpages).
    eexists. split; [reflexivity|]. repeat split.
  - intros Hp Hnone.
    destruct (updateAnnotation_prefix rt i context u db doc Hc Hs Hg Hp)
      as (db1 & Hsame & ->).
    rewrite first_filter_None.
    + eexists. split; [reflexivity|].
      eapply same_tables_trans; [exact Hsame|apply same_tables_record].
    + intros a Hin. destruct (annotation_of _ _ a) eqn:E; [|reflexivity].
      apply annotation_of_true in E as [Hid Hd].
      now destruct (Hnone a Hin Hid).
Qed.

Lemma updateAnnotation_refuses_foreign_page_and_annotation_witness :
  (exists db',
      server.updateAnnotation rt0
        (UpdateAnnotation.mk "A1" "D1" (Some "P2") None None None None)
        alice library
      = (Throw page_not_found, db')
      /\ same_tables library db')
  /\ (exists db',
      server.updateAnnotation rt0
        (UpdateAnnotation.mk "A1" "D2" None None None (Some "mine") None)
        bob library
      = (Throw annotation_not_found, db')
      /\ same_tables library db').
Proof.
  split.
  - destruct (updateAnnotation_refuses_foreign_page_and_annotation rt0
                (UpdateAnnotation.mk "A1" "D1" (Some "P2") None None None None)
                alice (mkUser "alice") library D1 _ eq_refl eq_refl eq_refl)
      as [H _].
    apply (H "P2" eq_refl).
    intros page [<- | [<- | []]]; simpl; discriminate.
  - destruct (updateAnnotation_refuses_foreign_page_and_annotation rt0
                (UpdateAnnotation.mk "A1" "D2" None None None (Some "mine")
                   None)
                bob (mkUser "bob") library D2 _ eq_refl eq_refl eq_refl)
      as [_ H].
    apply H; [exact I|].
    intros a [<- | [<- | []]]; simpl; discriminate.
Defined.

Lemma written_annotation_patch rt i :
  annotation_patch_storable i ->
  let p := PdfAnnotations.mkSet
             (UpdateAnnotation.pageId i) (UpdateAnnotation.annotationType i)
             (UpdateAnnotation.selectionJson i) (UpdateAnnotation.comment i)
             (UpdateAnnotation.color i) (now rt) in
  PdfAnnotations.written_set p = p.
Proof.
  intros (_ & Ht & Hs & Hc & Hk) p. unfold PdfAnnotations.written_set, p.
  simpl. unfold clean_opt in *. now rewrite Ht, Hs, Hc, Hk.
Qed.

(** X13. With unique annotation ids, [updateAnnotation] by a signed-in
    caller for whom the ownership check on the document and the page check
    pass, with a valid input whose text holds no NUL character, succeeds on
    every annotation of that document: it returns the annotation patched
    by the supplied fields, and [listAnnotations] of the document right
    afterwards contains the returned row and has as many items as before. *)
Theorem updateAnnotation_succeeds_and_is_listed :
  forall rt rt' i context u db a doc db0,
    caller context = Some u ->
    UpdateAnnotation.schema i = true ->
    getOwnedDocument (UpdateAnnotation.documentId i) (user_id u) db
    = (Ok doc, db0) ->
    page_check_passes db (UpdateAnnotation.pageId i)
                      (UpdateAnnotation.documentId i) (user_id u) ->
    annotation_patch_storable i ->
    annotation_ids_unique db ->
    In a (annotations db) ->
    PdfAnnotations.id a = UpdateAnnotation.id i ->
    PdfAnnotations.documentId a = UpdateAnnotation.documentId i ->
    let new := PdfAnnotations.apply
                 (PdfAnnotations.mkSet
                    (UpdateAnnotation.pageId i)
                    (UpdateAnnotation.annotationType i)
                    (UpdateAnnotation.selectionJson i)
                    (UpdateAnnotation.comment i)
                    (UpdateAnnotation.color i) (now rt)) a in
    exists env db' env2 db2,
      server.updateAnnotation rt i context db = (Ok env, db')
      /\ data env = Some new
      /\ server.listAnnotations rt'
           (ListAnnotations.mk (UpdateAnnotation.documentId i)) context db'
         = (Ok env2, db2)
      /\ In new (items (data env2))
      /\ total (data env2)
         = length (filter (fun r => String.eqb (PdfAnnotations.documentId r)
                                      (UpdateAnnotation.documentId i))
                          (annotations db)).
Proof.
  intros rt rt' i context u db a doc db0 Hc Hs Hg Hp Hst Huniq Hin Hid Hdid
         new.
  apply getOwnedDocument_Ok in Hg as [Hg _].
  destruct (updateAnnotation_prefix rt i context u db doc Hc Hs Hg Hp)
    as (db1 & (Hd0 & Hp0 & Ha0 & _) & Hrun).
  assert (Hof : annotation_of (UpdateAnnotation.id i)
                  (UpdateAnnotation.documentId i) a = true)
    by now apply annotation_of_true.
  destruct (first_filter_In _ _ a Hin Hof) as [existing Hex].
  rewrite Hex in Hrun.
  rewrite update_step_run in Hrun.
  assert (Href : page_ref_ok (UpdateAnnotation.pageId i)
                   (record (Select TPdfAnnotations) db1) = true).
  { rewrite page_ref_ok_record.
    pose proof (page_check_ref_ok _ _ _ _ Hp) as Hok.
    unfold page_ref_ok, has_page in *. now rewrite Hp0. }
  cbn [PdfAnnotations.set_pageId] in Hrun. rewrite Href in Hrun.
  cbn [negb] in Hrun. rewrite andb_false_r in Hrun.
  pose proof (written_annotation_patch rt i Hst) as Hw0. cbv zeta in Hw0.
  rewrite Hw0 in Hrun.
  rewrite annotations_record, Ha0 in Hrun.
  set (w := col_eq PdfAnnotations.id (UpdateAnnotation.id i)) in *.
  assert (Hw : w a = true) by now apply col_eq_true.
  assert (Hfirst : first (filter w (annotations db)) = Some a).
  { destruct (first_filter_In w _ a Hin Hw) as [y Hy]. rewrite Hy. f_equal.
    apply first_filter_Some in Hy as [Hyin Hyw]. apply col_eq_true in Hyw.
    apply (unique_id_row _ _ _ Huniq Hyin Hin). congruence. }
  rewrite (first_map _ _ _ Hfirst) in Hrun.
  assert (Hmin : min1 (UpdateAnnotation.documentId i) = true).
  { unfold UpdateAnnotation.schema in Hs.
    apply andb_true_iff in Hs as [Hs _].
    now apply andb_true_iff in Hs as [_ Hs]. }
  eexists _, _, _, _. split; [exact Hrun|]. split; [reflexivity|].
  rewrite listAnnotations_run, Hc.
  unfold ListAnnotations.schema. simpl ListAnnotations.documentId.
  rewrite Hmin.
  rewrite (document_guard_same db)
    by (rewrite documents_with_annotations, !documents_record; exact Hd0).
  rewrite Hg. cbv zeta.
  split; [reflexivity|]. simpl. split.
  - apply filter_In. split.
    + apply in_map_iff. exists a. now rewrite Hw.
    + apply col_eq_true. simpl. exact Hdid.
  - apply filter_map_length. intros x. unfold col_eq.
    now destruct (w x).
Qed.

Lemma updateAnnotation_succeeds_and_is_listed_witness :
  exists env db' env2 db2,
    server.updateAnnotation rt0
      (UpdateAnnotation.mk "A2" "D1" None None None (Some "seen") None)
      alice library
    = (Ok env, db')
    /\ data env = Some (with_comment "seen" 1000%Z A2)
    /\ server.listAnnotations rt0 (ListAnnotations.mk "D1") alice db'
       = (Ok env2, db2)
    /\ In (with_comment "seen" 1000%Z A2) (items (data env2))
    /\ total (data env2) = 2.
Proof.
  destruct (updateAnnotation_succeeds_and_is_listed rt0 rt0
              (UpdateAnnotation.mk "A2" "D1" None None None (Some "seen") None)
              alice (mkUser "alice") library A2 D1 _ eq_refl eq_refl eq_refl)
    as (env & db' & env2 & db2 & H1 & H2 & H3 & H4 & H5).
  - exact I.
  - exact (conj eq_refl (conj eq_refl (conj eq_refl (conj eq_refl eq_refl)))).
  - exact library_ids_unique.
  - simpl. auto.
  - reflexivity.
  - reflexivity.
  - exists env, db', env2, db2. auto.
Defined.

(** ** Delete, then list *)

(** X14. For a signed-in caller for whom the ownership check on the
    document passes, and an annotation of that document with the given id,
    [deleteAnnotation] succeeds, and [listAnnotations] of the document
    right afterwards lists no annotation of that id while every other
    annotation of the document is still listed. *)
Theorem deleteAnnotation_then_list :
  forall rt rt' i context u db a doc db0,
    caller context = Some u ->
    DeleteAnnotation.schema i = true ->
    getOwnedDocument (DeleteAnnotation.documentId i) (user_id u) db
    = (Ok doc, db0) ->
    In a (annotations db) ->
    PdfAnnotations.id a = DeleteAnnotation.id i ->
    PdfAnnotations.documentId a = DeleteAnnotation.documentId i ->
    exists db1 env db2,
      server.deleteAnnotation rt i context db = (Ok (mkEnvelope true tt), db1)
      /\ server.listAnnotations rt'
           (ListAnnotations.mk (DeleteAnnotation.documentId i)) context db1
         = (Ok env, db2)
      /\ (forall r, In r (items (data env)) ->
                    PdfAnnotations.id r <> DeleteAnnotation.id i)
      /\ (forall r, In r (annotations db) ->
                    PdfAnnotations.documentId r = DeleteAnnotation.documentId i ->
                    PdfAnnotations.id r <> DeleteAnnotation.id i ->
                    In r (items (data env))).
Proof.
  intros rt rt' i context u db a doc db0 Hc Hs Hg Hin Hid Hdid.
  apply getOwnedDocument_Ok in Hg as [Hg _].
  rewrite deleteAnnotation_run, Hs, Hc, Hg. cbv zeta.
  assert (Hlen : Nat.eqb
                   (length (filter (annotation_of (DeleteAnnotation.id i)
                                      (DeleteAnnotation.documentId i))
                                   (annotations db))) 0 = false).
  { apply Nat.eqb_neq. intros H0. apply length_zero_iff_nil in H0.
    assert (Ha : In a (filter (annotation_of (DeleteAnnotation.id i)
                                 (DeleteAnnotation.documentId i))
                              (annotations db))).
    { apply filter_In. split; [assumption|]. now apply annotation_of_true. }
    rewrite H0 in Ha. destruct Ha. }
  rewrite Hlen.
  eexists _, _, _. split; [reflexivity|].
  rewrite listAnnotations_run, Hc.
  unfold ListAnnotations.schema. simpl ListAnnotations.documentId.
  assert (Hmin : min1 (DeleteAnnotation.documentId i) = true).
  { unfold DeleteAnnotation.schema in Hs.
    now apply andb_true_iff in Hs as [_ Hs]. }
  rewrite Hmin.
  rewrite (document_guard_same db) by reflexivity.
  rewrite Hg. cbv zeta. split; [reflexivity|]. simpl. split.
  - intros r Hr Heq.
    apply filter_In in Hr as [Hr Hd]. apply filter_In in Hr as [_ Hneg].
    apply col_eq_true in Hd.
    assert (annotation_of (DeleteAnnotation.id i)
              (DeleteAnnotation.documentId i) r = true)
      by now apply annotation_of_true.
    rewrite H in Hneg. discriminate.
  - intros r Hr Hd Hne. apply filter_In. split.
    + apply filter_In. split; [assumption|].
      destruct (annotation_of _ _ r) eqn:E; [|reflexivity].
      apply annotation_of_true in E as [E _]. contradiction.
    + now apply col_eq_true.
Qed.

Lemma deleteAnnotation_then_list_witness :
  exists db1 env db2,
    server.deleteAnnotation rt0 (DeleteAnnotation.mk "A1" "D1") alice library
    = (Ok (mkEnvelope true tt), db1)
    /\ server.listAnnotations rt0 (ListAnnotations.mk "D1") alice db1
       = (Ok env, db2)
    /\ In A2 (items (data env)).
Proof.
  destruct (deleteAnnotation_then_list rt0 rt0 (DeleteAnnotation.mk "A1" "D1")
              alice (mkUser "alice") library A1 D1 _ eq_refl eq_refl eq_refl)
    as (db1 & env & db2 & H1 & H2 & _ & H4).
  - simpl. auto.
  - reflexivity.
  - reflexivity.
  - exists db1, env, db2. split; [exact H1|]. split; [exact H2|].
    apply H4; simpl; auto. discriminate.
Defined.

(** ** Pages of a document *)

Lemma has_page_with_pages i l db :
  has_page i (with_pages l db)
  = existsb (fun p => String.eqb (PdfPages.id p) i) l.
Proof. reflexivity. Qed.

(** A successful run of [createPage]. *)
Lemma createPage_passes rt i context u db doc :
  caller context = Some u ->
  CreatePage.schema i = true ->
  document_guard db (CreatePage.documentId i) (user_id u) = Ok doc ->
  has_page (randomUUID rt) db = false ->
  safe_integer (CreatePage.pageNumber i) = true ->
  let r := PdfPages.written
             (PdfPages.mk (randomUUID rt) (CreatePage.documentId i)
                (CreatePage.pageNumber i) (CreatePage.textContent i)
                (now rt)) in
  server.createPage rt i context db
  = (Ok (mkEnvelope true (Some r)),
     with_pages (pages db ++ [r])
       (record (Insert TPdfPages) (record (Select TPdfDocuments) db))).
Proof.
  intros Hc Hs Hg Hfresh Hsafe r.
  rewrite createPage_run, Hs, Hc, Hg, finish_run.
  rewrite insert_PdfPages_fresh;
    [|exact Hfresh|exact (document_guard_has_document _ _ _ _ Hg)].
  rewrite returning_readable; [reflexivity|].
  cbn [forallb]. unfold PdfPages.readable. simpl.
  now rewrite (safe_readable _ Hsafe).
Qed.

(** X15. [createPage] does not look at the page numbers already present:
    a signed-in caller for whom the ownership check passes can create the
    same [pageNumber] (a safe integer) of the same document twice; with two
    distinct fresh ids both calls succeed, the two rows differ only in
    [id] and [createdAt], and [listPages] returns both when the other pages
    of the document can be read back. *)
Theorem createPage_accepts_duplicate_page_numbers :
  forall rt1 rt2 rt3 i context u db doc db0,
    caller context = Some u ->
    CreatePage.schema i = true ->
    getOwnedDocument (CreatePage.documentId i) (user_id u) db
    = (Ok doc, db0) ->
    has_page (randomUUID rt1) db = false ->
    has_page (randomUUID rt2) db = false ->
    randomUUID rt1 <> randomUUID rt2 ->
    safe_integer (CreatePage.pageNumber i) = true ->
    pages_readable db (CreatePage.documentId i) ->
    exists r1 r2 db1 db2 env db3,
      server.createPage rt1 i context db
      = (Ok (mkEnvelope true (Some r1)), db1)
      /\ server.createPage rt2 i context db1
         = (Ok (mkEnvelope true (Some r2)), db2)
      /\ PdfPages.id r1 <> PdfPages.id r2
      /\ PdfPages.documentId r1 = PdfPages.documentId r2
      /\ PdfPages.pageNumber r1 = CreatePage.pageNumber i
      /\ PdfPages.pageNumber r2 = CreatePage.pageNumber i
      /\ PdfPages.textContent r1 = PdfPages.textContent r2
      /\ server.listPages rt3 (ListPages.mk (CreatePage.documentId i))
           context db2
         = (Ok env, db3)
      /\ In r1 (items (data env))
      /\ In r2 (items (data env)).
Proof.
  intros rt1 rt2 rt3 i context u db doc db0 Hc Hs Hg Hf1 Hf2 Hne Hsafe Hread.
  apply getOwnedDocument_Ok in Hg as [Hg _].
  pose proof (createPage_passes rt1 i context u db doc Hc Hs Hg Hf1 Hsafe)
    as Hrun1.
  cbv zeta in Hrun1.
  set (r1 := PdfPages.written
               (PdfPages.mk (randomUUID rt1) (CreatePage.documentId i)
                  (CreatePage.pageNumber i) (CreatePage.textContent i)
                  (now rt1))) in *.
  set (db1 := with_pages (pages db ++ [r1])
                (record (Insert TPdfPages)
                   (record (Select TPdfDocuments) db))) in *.
  assert (Hg1 : document_guard db1 (CreatePage.documentId i) (user_id u)
                = Ok doc)
    by (rewrite (document_guard_same db); [exact Hg|reflexivity]).
  assert (Hf2' : has_page (randomUUID rt2) db1 = false).
  { unfold db1. rewrite has_page_with_pages.
    rewrite existsb_app. fold (has_page (randomUUID rt2) db). rewrite Hf2.
    simpl. rewrite orb_false_r. now apply String.eqb_neq. }
  pose proof (createPage_passes rt2 i context u db1 doc Hc Hs Hg1 Hf2' Hsafe)
    as Hrun2.
  cbv zeta in Hrun2.
  set (r2 := PdfPages.written
               (PdfPages.mk (randomUUID rt2) (CreatePage.documentId i)
                  (CreatePage.pageNumber i) (CreatePage.textContent i)
                  (now rt2))) in *.
  exists r1, r2, db1. eexists _, _, _.
  split; [exact Hrun1|]. split; [exact Hrun2|].
  split; [exact Hne|].
  repeat (split; [reflexivity|]).
  rewrite listPages_run, Hc.
  unfold CreatePage.schema in Hs. apply andb_true_iff in Hs as [Hmin _].
  unfold ListPages.schema. simpl ListPages.documentId. rewrite Hmin.
  rewrite (document_guard_same db) by reflexivity. rewrite Hg.
  rewrite listing_of_readable.
  - split; [reflexivity|]. simpl. split.
    + apply filter_In. split.
      * apply in_or_app. left. apply in_or_app. right. now left.
      * apply col_eq_true. reflexivity.
    + apply filter_In. split.
      * apply in_or_app. right. now left.
      * apply col_eq_true. reflexivity.
  - apply forallb_filter. intros x Hx Hd. apply col_eq_true in Hd.
    simpl in Hx. apply in_app_or in Hx as [Hx | [<- | []]].
    + apply in_app_or in Hx as [Hx | [<- | []]].
      * now apply Hread.
      * now apply safe_readable.
    + now apply safe_readable.
Qed.

Lemma createPage_accepts_duplicate_page_numbers_witness :
  exists r1 r2 db1 db2 env db3,
    server.createPage (mkRuntime 10%Z "N1") (CreatePage.mk "D1" 1%Z None)
      alice library
    = (Ok (mkEnvelope true (Some r1)), db1)
    /\ server.createPage (mkRuntime 11%Z "N2") (CreatePage.mk "D1" 1%Z None)
         alice db1
       = (Ok (mkEnvelope true (Some r2)), db2)
    /\ server.listPages rt0 (ListPages.mk "D1") alice db2 = (Ok env, db3)
    /\ In r1 (items (data env))
    /\ In r2 (items (data env))
    /\ In P1 (pages library)
    /\ PdfPages.pageNumber P1 = 1%Z.
Proof.
  destruct (createPage_accepts_duplicate_page_numbers
              (mkRuntime 10%Z "N1") (mkRuntime 11%Z "N2") rt0
              (CreatePage.mk "D1" 1%Z None) alice (mkUser "alice") library
              D1 _ eq_refl eq_refl eq_refl)
    as (r1 & r2 & db1 & db2 & env & db3 & H1 & H2 & _ & _ & _ & _ & _ & H3
        & H4 & H5).
  - reflexivity.
  - reflexivity.
  - discriminate.
  - reflexivity.
  - intros p [<- | [<- | []]] _; reflexivity.
  - exists r1, r2, db1, db2, env, db3. simpl. auto 10.
Defined.

(** ** A document just created *)

(** X16. A document created by a signed-in caller, whose id holds no NUL
    character, with a fresh, non-empty id and a [pageCount] that is absent
    or a safe integer belongs to the caller and to nobody else: when every page and annotation of the
    database names an existing document, the creator's [listPages] and
    [listAnnotations] of the new document succeed with no item, while for
    any other signed-in user [listPages] and [updateDocument] on the new
    id throw "PDF document not found.". *)
Theorem created_document_is_private_and_empty :
  forall rt rt' i context context' u v db,
    caller context = Some u ->
    clean (user_id u) ->
    caller context' = Some v ->
    user_id v <> user_id u ->
    has_document (randomUUID rt) db = false ->
    randomUUID rt <> EmptyString ->
    document_refs_ok db ->
    safe_count (CreateDocument.pageCount i) ->
    exists r db1,
      server.createDocument rt i context db
      = (Ok (mkEnvelope true (Some r)), db1)
      /\ PdfDocuments.id r = randomUUID rt
      /\ PdfDocuments.userId r = user_id u
      /\ (exists db2,
             server.listPages rt' (ListPages.mk (randomUUID rt)) context db1
             = (Ok (mkEnvelope true (mkListing [] 0)), db2))
      /\ (exists db2,
             server.listAnnotations rt' (ListAnnotations.mk (randomUUID rt))
               context db1
             = (Ok (mkEnvelope true (mkListing [] 0)), db2))
      /\ (exists db2,
             server.listPages rt' (ListPages.mk (randomUUID rt)) context' db1
             = (Throw document_not_found, db2))
      /\ (forall j,
             UpdateDocument.schema j = true ->
             UpdateDocument.id j = randomUUID rt ->
             exists db2,
               server.updateDocument rt' j context' db1
               = (Throw document_not_found, db2)).
Proof.
  intros rt rt' i context context' u v db Hc _ Hc' Hvu Hfresh Hne
         (Hpg & Han) Hsafe.
  pose proof (createDocument_run rt i context db) as Hrun.
  rewrite Hc, finish_run in Hrun.
  rewrite insert_PdfDocuments_fresh in Hrun;
    [|exact (safe_count_finite _ Hsafe)|exact Hfresh].
  set (r := PdfDocuments.written
              (PdfDocuments.mk (randomUUID rt) (user_id u) _ _ _ _ _ _ _))
    in *.
  assert (Hr : PdfDocuments.readable r = true)
    by (unfold PdfDocuments.readable, r; simpl;
        now apply safe_count_readable).
  rewrite returning_readable in Hrun by (cbn [forallb]; now rewrite Hr).
  set (db1 := with_documents (documents db ++ [r])
                (record (Insert TPdfDocuments) db)) in *.
  assert (Hown : document_guard db1 (randomUUID rt) (user_id u) = Ok r).
  { unfold document_guard, db1. cbv zeta. simpl documents.
    rewrite filter_app, (filter_nil _ (documents db)).
    - simpl. unfold owned_by, col_and, col_eq. simpl.
      rewrite !String.eqb_refl. simpl. now rewrite Hr.
    - intros doc Hin. destruct (owned_by _ _ doc) eqn:E; [|reflexivity].
      apply owned_by_true in E as [Hid _]. exfalso.
      apply (has_document_false _ _ Hfresh). rewrite <- Hid.
      now apply in_map. }
  assert (Hnot : not_owned db1 (user_id v) (randomUUID rt)).
  { intros doc Hin Hid. simpl in Hin.
    apply in_app_or in Hin as [Hin | [<- | []]].
    - exfalso. apply (has_document_false _ _ Hfresh).
      rewrite <- Hid. now apply in_map.
    - simpl. congruence. }
  assert (Hmin : min1 (randomUUID rt) = true) by now apply min1_true.
  exists r, db1. split; [exact Hrun|].
  split; [reflexivity|]. split; [reflexivity|].
  split; [|split; [|split]].
  - rewrite listPages_run, Hc. unfold ListPages.schema.
    simpl ListPages.documentId. rewrite Hmin, Hown.
    change (pages db1) with (pages db).
    rewrite filter_nil; [eauto|].
    intros p Hin. apply col_eq_false. intros Hd.
    specialize (Hpg p Hin). rewrite Hd in Hpg. congruence.
  - rewrite listAnnotations_run, Hc. unfold ListAnnotations.schema.
    simpl ListAnnotations.documentId. rewrite Hmin, Hown. cbv zeta.
    change (annotations db1) with (annotations db).
    rewrite filter_nil; [eauto|].
    intros a Hin. apply col_eq_false. intros Hd.
    specialize (Han a Hin). rewrite Hd in Han. congruence.
  - rewrite (listPages_stranger rt' (ListPages.mk (randomUUID rt)) context' v
               db1 Hc'); eauto.
  - intros j Hs Hid.
    rewrite (updateDocument_stranger rt' j context' v db1 Hc' Hs); eauto.
    now rewrite Hid.
Qed.

Lemma created_document_is_private_and_empty_witness :
  exists r db1,
    server.createDocument rt0 (CreateDocument.mk (Some "Draft") None None
                                 None None) alice library
    = (Ok (mkEnvelope true (Some r)), db1)
    /\ PdfDocuments.userId r = "alice"
    /\ (exists db2,
           server.listPages rt0 (ListPages.mk "N1") alice db1
           = (Ok (mkEnvelope true (mkListing [] 0)), db2))
    /\ (exists db2,
           server.listPages rt0 (ListPages.mk "N1") bob db1
           = (Throw document_not_found, db2)).
Proof.
  destruct (created_document_is_private_and_empty rt0 rt0
              (CreateDocument.mk (Some "Draft") None None None None)
              alice bob (mkUser "alice") (mkUser "bob") library
              eq_refl eq_refl eq_refl)
    as (r & db1 & H1 & _ & H2 & H3 & _ & H4 & _).
  - discriminate.
  - reflexivity.
  - discriminate.
  - destruct library_references_ok as [H _]. exact H.
  - exact I.
  - exists r, db1. auto.
Defined.

(** ** What the guards decide *)

Lemma forallb_filter_iff {A} (rd w : A -> bool) (l : list A) :
  forallb rd (filter w l) = true
  <-> forall x, In x l -> w x = true -> rd x = true.
Proof.
  rewrite forallb_forall. split.
  - intros H x Hin Hw. apply H. now apply filter_In.
  - intros H x Hx. apply filter_In in Hx as [Hin Hw]. auto.
Qed.

(** X17. The guards decide ownership exactly, as far as the rows can be
    read back. [getOwnedDocument] returns a row precisely when some
    document has the given id and the given owner and every such document
    can be read back, and the row it returns is such a document.
    [getOwnedPage] returns a row precisely when, in addition, some page has
    the given id and belongs to that document and every such page can be
    read back; when [getOwnedDocument] passes but no such page exists it
    throws "PDF page not found." after its two selects. *)
Theorem guards_decide_ownership_exactly :
  forall pageId documentId userId db,
    let documents_read :=
      forall doc, In doc (documents db) ->
                  PdfDocuments.id doc = documentId ->
                  PdfDocuments.userId doc = userId ->
                  PdfDocuments.readable doc = true in
    let pages_read :=
      forall page, In page (pages db) ->
                   PdfPages.id page = pageId ->
                   PdfPages.documentId page = documentId ->
                   PdfPages.readable page = true in
    ((exists doc db', getOwnedDocument documentId userId db = (Ok doc, db'))
     <-> owns db userId documentId /\ documents_read)
    /\ (forall doc db',
           getOwnedDocument documentId userId db = (Ok doc, db') ->
           In doc (documents db)
           /\ PdfDocuments.id doc = documentId
           /\ PdfDocuments.userId doc = userId)
    /\ ((exists page db',
            getOwnedPage pageId documentId userId db = (Ok page, db'))
        <-> (owns db userId documentId /\ documents_read)
            /\ (exists page, In page (pages db)
                             /\ PdfPages.id page = pageId
                             /\ PdfPages.documentId page = documentId)
            /\ pages_read)
    /\ (forall doc db',
           getOwnedDocument documentId userId db = (Ok doc, db') ->
           (forall page, In page (pages db) -> PdfPages.id page = pageId ->
                         PdfPages.documentId page <> documentId) ->
           getOwnedPage pageId documentId userId db
           = (Throw page_not_found,
              record (Select TPdfPages) (record (Select TPdfDocuments) db))).
Proof.
  intros p d u db documents_read pages_read.
  assert (Hdoc : (exists doc, document_guard db d u = Ok doc)
                 <-> owns db u d /\ documents_read).
  { unfold document_guard. cbv zeta. split.
    - intros [doc H].
      destruct (forallb _ _) eqn:Hrd; [|discriminate].
      destruct (first _) as [x|] eqn:E; [|discriminate].
      apply first_filter_Some in E as [Hin Hown].
      apply owned_by_true in Hown as [Hid Hu].
      split; [exists x; auto|].
      intros y Hy Hyid Hyu.
      apply (proj1 (forallb_filter_iff _ _ _) Hrd y Hy).
      now apply owned_by_true.
    - intros [(doc & Hin & Hid & Hu) Hrd].
      rewrite (proj2 (forallb_filter_iff PdfDocuments.readable
                        (owned_by d u) (documents db))).
      + destruct (first_filter_In (owned_by d u) (documents db) doc Hin)
          as [x ->]; [now apply owned_by_true|eauto].
      + intros y Hy Hw. apply owned_by_true in Hw as [Hyid Hyu].
        now apply Hrd. }
  assert (Hpage : (exists page, page_guard db p d = Ok page)
                  <-> (exists page, In page (pages db)
                                    /\ PdfPages.id page = p
                                    /\ PdfPages.documentId page = d)
                      /\ pages_read).
  { unfold page_guard. cbv zeta. split.
    - intros [page H].
      destruct (forallb _ _) eqn:Hrd; [|discriminate].
      destruct (first _) as [x|] eqn:E; [|discriminate].
      apply first_filter_Some in E as [Hin Hof].
      apply page_of_true in Hof as [Hid Hd].
      split; [exists x; auto|].
      intros y Hy Hyid Hyd.
      apply (proj1 (forallb_filter_iff _ _ _) Hrd y Hy).
      now apply page_of_true.
    - intros [(page & Hin & Hid & Hd) Hrd].
      rewrite (proj2 (forallb_filter_iff PdfPages.readable
                        (page_of p d) (pages db))).
      + destruct (first_filter_In (page_of p d) (pages db) page Hin)
          as [x ->]; [now apply page_of_true|eauto].
      + intros y Hy Hw. apply page_of_true in Hw as [Hyid Hyd].
        now apply Hrd. }
  split; [|split; [|split]].
  - rewrite <- Hdoc. split.
    + intros (doc & db' & H). apply getOwnedDocument_Ok in H as [H _]. eauto.
    + intros [doc H]. exists doc. eexists.
      rewrite getOwnedDocument_run, H. reflexivity.
  - intros doc db' H. apply getOwnedDocument_Ok in H as [H _].
    apply document_guard_owns in H. tauto.
  - rewrite <- Hdoc, <- Hpage. split.
    + intros (page & db' & H). rewrite getOwnedPage_run in H.
      destruct (document_guard db d u) as [doc|e]; [|discriminate].
      injection H as H _. eauto.
    + intros ([doc Hg] & [page Hpg]). exists page. eexists.
      rewrite getOwnedPage_run, Hg, Hpg. reflexivity.
  - intros doc db' H Hnone. apply getOwnedDocument_Ok in H as [H _].
    rewrite getOwnedPage_run, H, (page_guard_none _ _ _ Hnone). reflexivity.
Qed.

Lemma guards_decide_ownership_exactly_witness :
  (exists doc db', getOwnedDocument "D2" "bob" library = (Ok doc, db'))
  /\ getOwnedPage "P2" "D1" "alice" library
     = (Throw page_not_found,
        record (Select TPdfPages) (record (Select TPdfDocuments) library)).
Proof.
  destruct (guards_decide_ownership_exactly "P2" "D2" "bob" library)
    as ([_ H] & _).
  destruct (guards_decide_ownership_exactly "P2" "D1" "alice" library)
    as (_ & _ & _ & K).
  split.
  - apply H. split.
    + exists D2. simpl. auto.
    + intros doc [<- | [<- | []]] _ _; reflexivity.
  - apply (K D1 _ eq_refl).
    intros page [<- | [<- | []]]; simpl; discriminate.
Defined.

(** X18. [createAnnotation] by a signed-in caller for whom the ownership
    check on the document passes, with a non-empty [pageId] that is not the
    id of a page of that document, for instance the id of a page of
    somebody else's document, throws "PDF page not found." and inserts
    nothing: the tables are as before and no insert was sent. *)
Theorem createAnnotation_refuses_foreign_page :
  forall rt i context u db p doc db0,
    caller context = Some u ->
    CreateAnnotation.schema i = true ->
    getOwnedDocument (CreateAnnotation.documentId i) (user_id u) db
    = (Ok doc, db0) ->
    CreateAnnotation.pageId i = Some p ->
    p <> EmptyString ->
    (forall page, In page (pages db) -> PdfPages.id page = p ->
                  PdfPages.documentId page <> CreateAnnotation.documentId i) ->
    exists db',
      server.createAnnotation rt i context db = (Throw page_not_found, db')
      /\ same_tables db db'
      /\ queries db'
         = queries db
           ++ [Select TPdfDocuments; Select TPdfDocuments; Select TPdfPages].
Proof.
  intros rt i context u db p doc db0 Hc Hs Hg Hp Hne Hpages.
  apply getOwnedDocument_Ok in Hg as [Hg _].
  rewrite createAnnotation_run, Hs, Hc, Hp. cbv zeta. rewrite Hg.
  apply String.eqb_neq in Hne. rewrite Hne. cbn [negb].
  rewrite (page_guard_none _ _ _ Hpages).
  eexists. split; [reflexivity|]. split; [repeat split|].
  simpl. now rewrite <- !app_assoc.
Qed.

Lemma createAnnotation_refuses_foreign_page_witness :
  exists db',
    server.createAnnotation rt0
      (CreateAnnotation.mk "D1" (Some "P2") (Some "note") None None None)
      alice library
    = (Throw page_not_found, db')
    /\ annotations db' = [A1; A2].
Proof.
  destruct (createAnnotation_refuses_foreign_page rt0
              (CreateAnnotation.mk "D1" (Some "P2") (Some "note") None None
                 None)
              alice (mkUser "alice") library "P2" D1 _ eq_refl eq_refl
              eq_refl eq_refl)
    as (db' & Hrun & (_ & _ & Ha & _) & _).
  - discriminate.
  - intros page [<- | [<- | []]]; simpl; discriminate.
  - exists db'. split; [exact Hrun|exact Ha].
Defined.
